(** * Keyset-cursor pagination with windowed prefetch (frontend/src/App.vue)

    A shallow embedding of the pagination state machine of the Vue
    component: the session fields of [data()], the computed properties and
    the methods [buildPayload], [getEndCursorFromResults], [callSearchApi],
    [resetPaginationState], [doSearch], [ensureCursorForPageEnd],
    [prefetchWindow] and [goToPage].

    Modelling choices.
    - JS numbers that hold page numbers, sizes and counts are [Z].
    - [pageCache] and [pageEndCursor] are JS objects used as maps from page
      number to value: [gmap Z _].  A cached page is an array (always
      truthy); a stored end-cursor is an object or [null], so the cursor map
      holds [option Cursor] and only [Some (Some c)] is truthy.
    - The search service is an oracle [gw : nat -> Payload -> Outcome]: the
      answer to the n-th request may depend on n, so failures and a ranked
      stream that changes between requests are both covered.
    - [async] methods are functions in a state-and-exception monad over a
      [World] (the component plus the log of requests sent).  In [run] a
      handler runs to completion: the refill it starts without [await]
      finishes before the next event is taken, and a rejection of that
      detached promise is dropped.  This is one schedule of the page, the
      one in which every answer arrives before the user's next action.
    - The part "The browser's schedule" lets the answers of a refill
      arrive later: [prefetchWindow] is split at its requests, a refill
      stays in flight until its answer is delivered, and user events are
      handled in between ([play]).  The requests a handler itself awaits
      are still answered before the next event.  [prompt_delivery_is_run]
      relates the two. *)

From stdpp Require Import base numbers list strings gmap pretty.
From Stdlib Require Import QArith.

Local Open Scope Z_scope.

(** ** JavaScript primitives *)

(** A JS string as its UTF-16 code units; used for the query, whose only
    operation is [trim]. *)
Definition jsstring := list N.

(** ECMAScript WhiteSpace and LineTerminator code points: what
    [String.prototype.trim] strips. *)
Definition is_js_space (c : N) : bool :=
  ((9 <=? c) && (c <=? 13) || (c =? 32) || (c =? 160) || (c =? 5760)
   || (8192 <=? c) && (c <=? 8202) || (c =? 8232) || (c =? 8233)
   || (c =? 8239) || (c =? 8287) || (c =? 12288) || (c =? 65279))%N.

Fixpoint trimStart (s : jsstring) : jsstring :=
  match s with
  | c :: s' => if is_js_space c then trimStart s' else s
  | [] => []
  end.

Definition trim (s : jsstring) : jsstring :=
  rev (trimStart (rev (trimStart s))).

(** A thrown value: an [Error]-like object with a name and a message. *)
Record Exn := { exn_name : string; exn_message : string }.

(** [new Error(msg)] *)
Definition new_Error (msg : string) : Exn :=
  {| exn_name := "Error"; exn_message := msg |}.

Definition str_truthy (s : string) : bool :=
  match s with EmptyString => false | _ => true end.

(** [String(e)] for an error object (Error.prototype.toString). *)
Definition String_of_exn (e : Exn) : string :=
  if str_truthy (exn_name e) then
    if str_truthy (exn_message e)
    then (exn_name e +:+ ": " +:+ exn_message e)%string else exn_name e
  else exn_message e.

(** [e?.message || String(e)] *)
Definition err_text (e : Exn) : string :=
  if str_truthy (exn_message e) then exn_message e else String_of_exn e.

(** [Math.ceil(a / b)] for a count [a >= 0] and a size [b > 0]. *)
Definition ceil_div (a b : Z) : Z := (a + b - 1) / b.

(** [items.slice(a, b)] for [0 <= a <= b]. *)
Definition js_slice {A} (items : list A) (a b : Z) : list A :=
  take (Z.to_nat (b - a)) (drop (Z.to_nat a) items).

Definition len {A} (l : list A) : Z := Z.of_nat (length l).

(** ** Data model *)

(** A ranked result.  [score] is a JSON number that the client only copies
    and prints; it is kept as a rational. *)
Record ResultItem := {
  doc_id : string;
  title : string;
  score : Q
}.

Record Cursor := { lastscore : Q; lastid : string }.

(** The [filters] object of a request; its other fields ([time_from],
    [time_to], [field]) are always [null]. *)
Record Filters := {
  f_lang : string
}.

(** Body of the POST /search request, as [buildPayload] assembles it. *)

Record Payload := {
  p_query : jsstring;
  p_size : Z;
  p_top_k : Z;
  p_use_prf : bool;
  p_last_min_bm25_score : option Q;
  p_last_max_rerank_id : option string;
  p_filters : option Filters
}.

(** The JSON body of a successful answer; [results] may be missing. *)
Record Data := {
  d_results : option (list ResultItem);
  d_total_hits : Z;
  d_took_ms : Z
}.

Record Meta := { total_hits : Z; took_ms : Z }.

(** What one call of the service comes back with. *)
Inductive Outcome :=
| Rejected (e : Exn)              (* fetch() or res.json() rejects *)
| NotOk (status : N) (txt : string)   (* !res.ok *)
| Json (d : Data).

Definition Gateway := nat -> Payload -> Outcome.

(** The reactive state of the component ([data()]), without the health
    widget. *)
Record Session := {
  query : jsstring;
  usePrf : bool;
  lang : string;
  pageSize : Z;
  loading : bool;
  prefetching : bool;
  error : string;
  results : list ResultItem;
  meta : option Meta;
  currentPage : Z;
  windowStart : Z;
  windowEnd : Z;
  pageCache : gmap Z (list ResultItem);
  pageEndCursor : gmap Z (option Cursor);
  noMoreAfterPage : option Z
}.

Definition set_query (v : jsstring) (s : Session) : Session :=
  {| query := v; usePrf := usePrf s; lang := lang s; pageSize := pageSize s;
     loading := loading s; prefetching := prefetching s; error := error s;
     results := results s; meta := meta s; currentPage := currentPage s;
     windowStart := windowStart s; windowEnd := windowEnd s;
     pageCache := pageCache s; pageEndCursor := pageEndCursor s;
     noMoreAfterPage := noMoreAfterPage s |}.

Definition set_pageSize (v : Z) (s : Session) : Session :=
  {| query := query s; usePrf := usePrf s; lang := lang s; pageSize := v;
     loading := loading s; prefetching := prefetching s; error := error s;
     results := results s; meta := meta s; currentPage := currentPage s;
     windowStart := windowStart s; windowEnd := windowEnd s;
     pageCache := pageCache s; pageEndCursor := pageEndCursor s;
     noMoreAfterPage := noMoreAfterPage s |}.

Definition set_loading (v : bool) (s : Session) : Session :=
  {| query := query s; usePrf := usePrf s; lang := lang s;
     pageSize := pageSize s;
     loading := v; prefetching := prefetching s; error := error s;
     results := results s; meta := meta s; currentPage := currentPage s;
     windowStart := windowStart s; windowEnd := windowEnd s;
     pageCache := pageCache s; pageEndCursor := pageEndCursor s;
     noMoreAfterPage := noMoreAfterPage s |}.

Definition set_prefetching (v : bool) (s : Session) : Session :=
  {| query := query s; usePrf := usePrf s; lang := lang s;
     pageSize := pageSize s;
     loading := loading s; prefetching := v; error := error s;
     results := results s; meta := meta s; currentPage := currentPage s;
     windowStart := windowStart s; windowEnd := windowEnd s;
     pageCache := pageCache s; pageEndCursor := pageEndCursor s;
     noMoreAfterPage := noMoreAfterPage s |}.

Definition set_error (v : string) (s : Session) : Session :=
  {| query := query s; usePrf := usePrf s; lang := lang s;
     pageSize := pageSize s;
     loading := loading s; prefetching := prefetching s; error := v;
     results := results s; meta := meta s; currentPage := currentPage s;
     windowStart := windowStart s; windowEnd := windowEnd s;
     pageCache := pageCache s; pageEndCursor := pageEndCursor s;
     noMoreAfterPage := noMoreAfterPage s |}.

Definition set_results (v : list ResultItem) (s : Session) : Session :=
  {| query := query s; usePrf := usePrf s; lang := lang s;
     pageSize := pageSize s;
     loading := loading s; prefetching := prefetching s; error := error s;
     results := v; meta := meta s; currentPage := currentPage s;
     windowStart := windowStart s; windowEnd := windowEnd s;
     pageCache := pageCache s; pageEndCursor := pageEndCursor s;
     noMoreAfterPage := noMoreAfterPage s |}.

Definition set_meta (v : option Meta) (s : Session) : Session :=
  {| query := query s; usePrf := usePrf s; lang := lang s;
     pageSize := pageSize s;
     loading := loading s; prefetching := prefetching s; error := error s;
     results := results s; meta := v; currentPage := currentPage s;
     windowStart := windowStart s; windowEnd := windowEnd s;
     pageCache := pageCache s; pageEndCursor := pageEndCursor s;
     noMoreAfterPage := noMoreAfterPage s |}.

Definition set_currentPage (v : Z) (s : Session) : Session :=
  {| query := query s; usePrf := usePrf s; lang := lang s;
     pageSize := pageSize s;
     loading := loading s; prefetching := prefetching s; error := error s;
     results := results s; meta := meta s; currentPage := v;
     windowStart := windowStart s; windowEnd := windowEnd s;
     pageCache := pageCache s; pageEndCursor := pageEndCursor s;
     noMoreAfterPage := noMoreAfterPage s |}.

Definition set_window (a b : Z) (s : Session) : Session :=
  {| query := query s; usePrf := usePrf s; lang := lang s;
     pageSize := pageSize s;
     loading := loading s; prefetching := prefetching s; error := error s;
     results := results s; meta := meta s; currentPage := currentPage s;
     windowStart := a; windowEnd := b;
     pageCache := pageCache s; pageEndCursor := pageEndCursor s;
     noMoreAfterPage := noMoreAfterPage s |}.

Definition set_pageCache (v : gmap Z (list ResultItem)) (s : Session)
  : Session :=
  {| query := query s; usePrf := usePrf s; lang := lang s;
     pageSize := pageSize s;
     loading := loading s; prefetching := prefetching s; error := error s;
     results := results s; meta := meta s; currentPage := currentPage s;
     windowStart := windowStart s; windowEnd := windowEnd s;
     pageCache := v; pageEndCursor := pageEndCursor s;
     noMoreAfterPage := noMoreAfterPage s |}.

Definition set_pageEndCursor (v : gmap Z (option Cursor)) (s : Session)
  : Session :=
  {| query := query s; usePrf := usePrf s; lang := lang s;
     pageSize := pageSize s;
     loading := loading s; prefetching := prefetching s; error := error s;
     results := results s; meta := meta s; currentPage := currentPage s;
     windowStart := windowStart s; windowEnd := windowEnd s;
     pageCache := pageCache s; pageEndCursor := v;
     noMoreAfterPage := noMoreAfterPage s |}.

Definition set_noMoreAfterPage (v : option Z) (s : Session) : Session :=
  {| query := query s; usePrf := usePrf s; lang := lang s;
     pageSize := pageSize s;
     loading := loading s; prefetching := prefetching s; error := error s;
     results := results s; meta := meta s; currentPage := currentPage s;
     windowStart := windowStart s; windowEnd := windowEnd s;
     pageCache := pageCache s; pageEndCursor := pageEndCursor s;
     noMoreAfterPage := v |}.

(** [this.pageCache[p] = items] and [this.pageEndCursor[p] = c] *)
Definition put_page (p : Z) (items : list ResultItem) (s : Session) :=
  set_pageCache (<[p := items]> (pageCache s)) s.

Definition put_cursor (p : Z) (c : option Cursor) (s : Session) :=
  set_pageEndCursor (<[p := c]> (pageEndCursor s)) s.

(** The value of [this.pageEndCursor[p]] when it is truthy. *)
Definition cursor_at (s : Session) (p : Z) : option Cursor :=
  mjoin (pageEndCursor s !! p).

(** The component as created by [data()]; the query box is pre-filled with
    "live indexing bm25". *)
Definition initial_query : jsstring :=
  [108; 105; 118; 101; 32; 105; 110; 100; 101; 120; 105; 110; 103; 32;
   98; 109; 50; 53]%N.

Definition data0 : Session :=
  {| query := initial_query; usePrf := false; lang := "en"; pageSize := 10;
     loading := false; prefetching := false; error := "";
     results := []; meta := None;
     currentPage := 1; windowStart := 1; windowEnd := 1;
     pageCache := ∅; pageEndCursor := ∅; noMoreAfterPage := None |}.

(** ** Computed properties *)

Definition paginationReady (s : Session) : bool :=
  bool_decide (is_Some (meta s)) && (1 <=? windowEnd s - windowStart s + 1).

Definition pageNumbers (s : Session) : list Z :=
  (fun i => windowStart s + Z.of_nat i)
    <$> seq 0 (Z.to_nat (windowEnd s - windowStart s + 1)).

Definition canGoNext (s : Session) : bool :=
  match noMoreAfterPage s with
  | Some k => currentPage s <? k
  | None =>
      bool_decide (is_Some (pageCache s !! (currentPage s + 1)))
      || (windowEnd s - windowStart s + 1 =? 5)
  end.

(** ** Pure methods *)

Definition buildPayload (s : Session) (size : Z) (cursor : option Cursor)
  : Payload :=
  {| p_query := query s;
     p_size := size;
     p_top_k := size;
     p_use_prf := usePrf s;
     p_last_min_bm25_score := lastscore <$> cursor;
     p_last_max_rerank_id := lastid <$> cursor;
     p_filters :=
       if str_truthy (lang s) then Some {| f_lang := lang s |} else None |}.

Definition getEndCursorFromResults (items : list ResultItem)
  : option Cursor :=
  match last items with
  | None => None
  | Some l => Some {| lastscore := score l; lastid := doc_id l |}
  end.

Definition resetPaginationState (s : Session) : Session :=
  set_noMoreAfterPage None
    (set_pageEndCursor ∅
      (set_pageCache ∅
        (set_window 1 1 (set_currentPage 1 s)))).

(** ** The world and the monad of async methods *)

Record World := {
  sess : Session;
  sent : list Payload          (* requests issued so far, oldest first *)
}.

Inductive Res (A : Type) :=
| Ok (a : A)
| Throw (e : Exn).
Arguments Ok {A} a.
Arguments Throw {A} e.

Definition M (A : Type) : Type := World -> Res A * World.

Definition ret {A} (a : A) : M A := fun w => (Ok a, w).

Definition bind {A B} (m : M A) (k : A -> M B) : M B :=
  fun w =>
    match m w with
    | (Ok a, w') => k a w'
    | (Throw e, w') => (Throw e, w')
    end.

Notation "x <- m ;; k" := (bind m (fun x => k))
  (at level 100, m at next level, right associativity).
Notation "m ;;; k" := (bind m (fun _ => k))
  (at level 100, right associativity).

Definition throw {A} (e : Exn) : M A := fun w => (Throw e, w).

(** Read [this]. *)
Definition this : M Session := fun w => (Ok (sess w), w).

(** A block of synchronous assignments to [this]. *)
Definition assign (f : Session -> Session) : M unit :=
  fun w => (Ok tt, {| sess := f (sess w); sent := sent w |}).

(** [try { body } catch (e) { handler e }] *)
Definition try_catch (body : M unit) (handler : Exn -> M unit) : M unit :=
  fun w =>
    match body w with
    | (Ok a, w') => (Ok a, w')
    | (Throw e, w') => handler e w'
    end.

(** [try { body } finally { fin }], for a [fin] that does not throw. *)
Definition try_finally (body : M unit) (fin : M unit) : M unit :=
  fun w =>
    match body w with
    | (r, w') => (r, snd (fin w'))
    end.

(** Calling an async method without [await]: its rejection is not
    observed by the caller.  Here its effects happen at once, as when its
    requests are answered before anything else takes place; [start_refill]
    and [arrive] below let the answers come later. *)
Definition detached (m : M unit) : M unit :=
  fun w => (Ok tt, snd (m w)).

Section Methods.

Variable gw : Gateway.

Definition callSearchApi (size : Z) (cursor : option Cursor) : M Data :=
  fun w =>
    let payload := buildPayload (sess w) size cursor in
    let w' := {| sess := sess w; sent := sent w ++ [payload] |} in
    match gw (length (sent w)) payload with
    | Rejected e => (Throw e, w')
    | NotOk status txt =>
        (Throw (new_Error
                  ("Search failed (" +:+ pretty status +:+ "): " +:+ txt)),
         w')
    | Json d => (Ok d, w')
    end.

(** [if (!this.pageCache[p]) this.pageCache[p] = slice] and the same for
    the end-cursor: a backfill fills what is missing and overwrites
    nothing that is truthy. *)
Definition fill_missing (p : Z) (slice : list ResultItem) (s : Session)
  : Session :=
  let s1 :=
    match pageCache s !! p with
    | Some _ => s
    | None => put_page p slice s
    end in
  match cursor_at s1 p with
  | Some _ => s1
  | None => put_cursor p (getEndCursorFromResults slice) s1
  end.

(** The loop of [ensureCursorForPageEnd]: [n] iterations to go, from
    index [i]. *)
Fixpoint backfill_loop (n : nat) (i : Z) (items : list ResultItem)
    (s : Session) : Session :=
  match n with
  | O => s
  | S n' =>
      let p := i + 1 in
      let slice := js_slice items (i * pageSize s) ((i + 1) * pageSize s) in
      match slice with
      | [] => s
      | _ :: _ => backfill_loop n' (i + 1) items (fill_missing p slice s)
      end
  end.

Definition ensureCursorForPageEnd (pageNum : Z) : M (option Cursor) :=
  if pageNum <=? 0 then ret None
  else
    s <- this ;;
    match cursor_at s pageNum with
    | Some c => ret (Some c)
    | None =>
        data <- callSearchApi (pageNum * pageSize s) None ;;
        let items := default [] (d_results data) in
        assign (fun s =>
          let pages := ceil_div (len items) (pageSize s) in
          backfill_loop (Z.to_nat pages) 0 items s) ;;;
        s <- this ;;
        ret (cursor_at s pageNum)
    end.

(** The body of the loop of [prefetchWindow]. *)
Fixpoint window_loop (n : nat) (i : Z) (start : Z)
    (items : list ResultItem) (s : Session) : Session :=
  match n with
  | O => s
  | S n' =>
      let p := start + i in
      let slice := js_slice items (i * pageSize s) ((i + 1) * pageSize s) in
      match slice with
      | [] => s
      | _ :: _ =>
          window_loop n' (i + 1) start items
            (put_cursor p (getEndCursorFromResults slice)
               (put_page p slice s))
      end
  end.

(** [Math.min(5, pagesInBlock || 1)] *)
Definition maxPagesToShow_of (pagesInBlock : Z) : Z :=
  Z.min 5 (if pagesInBlock =? 0 then 1 else pagesInBlock).

(** The synchronous block of [prefetchWindow] that follows the bulk
    answer. *)
Definition apply_block (start : Z) (items : list ResultItem) (s : Session)
  : Session :=
  let pagesInBlock := ceil_div (len items) (pageSize s) in
  let maxPagesToShow := maxPagesToShow_of pagesInBlock in
  let s1 := window_loop (Z.to_nat maxPagesToShow) 0 start items s in
  let s2 := set_window start (start + maxPagesToShow - 1) s1 in
  let lastPageSlice := default [] (pageCache s2 !! windowEnd s2) in
  if (maxPagesToShow <? 5) || (len lastPageSlice <? pageSize s2)
  then set_noMoreAfterPage (Some (windowEnd s2)) s2
  else s2.

(** [start === 1 ? null : await this.ensureCursorForPageEnd(start - 1)],
    the cursor expression shared by [prefetchWindow] and [goToPage]. *)
Definition entry_cursor (start : Z) : M (option Cursor) :=
  if start =? 1 then ret None else ensureCursorForPageEnd (start - 1).

Definition prefetchWindow (centerPage : Z) : M unit :=
  let start := Z.max 1 (centerPage - 2) in
  cursor <- entry_cursor start ;;
  assign (set_prefetching true) ;;;
  try_finally
    (try_catch
       (s <- this ;;
        data <- callSearchApi (pageSize s * 5) cursor ;;
        let items := default [] (d_results data) in
        assign (apply_block start items))
       (fun e =>
          assign (fun s =>
            set_error (if str_truthy (error s) then error s else err_text e)
                      s)))
    (assign (set_prefetching false)).

(** The synchronous block of [goToPage] that follows the single-page
    answer. *)
Definition apply_page (p : Z) (items : list ResultItem) (s : Session)
  : Session :=
  set_results items
    (set_currentPage p
       (put_cursor p (getEndCursorFromResults items) (put_page p items s))).

(** The [if (cached) ... else ...] statement of [goToPage]: show the cached
    page, or fetch the single page behind the cursor of its predecessor. *)
Definition show_page (p : Z) : M unit :=
  s <- this ;;
  match pageCache s !! p with
  | Some cached =>
      assign (fun s => set_results cached (set_currentPage p s))
  | None =>
      assign (set_loading true) ;;;
      try_finally
        (try_catch
           (cursor <- entry_cursor p ;;
            s <- this ;;
            data <- callSearchApi (pageSize s) cursor ;;
            let items := default [] (d_results data) in
            assign (apply_page p items))
           (fun e => assign (set_error (err_text e))))
        (assign (set_loading false))
  end.

(** [p > this.noMoreAfterPage], guarded by [this.noMoreAfterPage != null]. *)
Definition beyond_last (s : Session) (p : Z) : bool :=
  match noMoreAfterPage s with
  | Some k => k <? p
  | None => false
  end.

Definition goToPage (p : Z) : M unit :=
  s <- this ;;
  if p <? 1 then ret tt
  else if beyond_last s p then ret tt
  else
    show_page p ;;;
    s <- this ;;
    detached (prefetchWindow (currentPage s)).

Definition doSearch : M unit :=
  s <- this ;;
  match trim (query s) with
  | [] => ret tt
  | _ :: _ =>
      assign (fun s =>
        resetPaginationState
          (set_meta None
             (set_results []
                (set_prefetching false
                   (set_loading true (set_error "" s)))))) ;;;
      try_finally
        (try_catch
           (s <- this ;;
            data <- callSearchApi (pageSize s) None ;;
            let page1 := default [] (d_results data) in
            assign (fun s =>
              set_meta (Some {| total_hits := d_total_hits data;
                                took_ms := d_took_ms data |})
                (set_results page1
                   (put_cursor 1 (getEndCursorFromResults page1)
                      (put_page 1 page1 s)))) ;;;
            s <- this ;;
            detached (prefetchWindow (currentPage s)))
           (fun e => assign (set_error (err_text e))))
        (assign (set_loading false))
  end.

(** The [pageSize] watcher, fired when the select changes the size. *)
Definition watch_pageSize : M unit :=
  s <- this ;;
  match trim (query s) with
  | [] => ret tt
  | _ :: _ => doSearch
  end.

End Methods.

(** ** Events of the page *)

(** The three options of the page-size select. *)
Inductive PageSizeOption := Size5 | Size10 | Size20.

Definition size_of (o : PageSizeOption) : Z :=
  match o with Size5 => 5 | Size10 => 10 | Size20 => 20 end.

Inductive Event :=
| TypeQuery (q : jsstring)            (* v-model="query" *)
| TogglePrf (b : bool)                (* v-model="usePrf" *)
| SelectLang (l : string)             (* v-model="lang" *)
| SelectPageSize (o : PageSizeOption) (* v-model.number="pageSize" *)
| Submit                              (* @submit.prevent="doSearch" *)
| Navigate (p : Z).                   (* goToPage(p) *)

Definition set_usePrf (v : bool) (s : Session) : Session :=
  {| query := query s; usePrf := v; lang := lang s;
     pageSize := pageSize s;
     loading := loading s; prefetching := prefetching s; error := error s;
     results := results s; meta := meta s; currentPage := currentPage s;
     windowStart := windowStart s; windowEnd := windowEnd s;
     pageCache := pageCache s; pageEndCursor := pageEndCursor s;
     noMoreAfterPage := noMoreAfterPage s |}.

Definition set_lang (v : string) (s : Session) : Session :=
  {| query := query s; usePrf := usePrf s; lang := v;
     pageSize := pageSize s;
     loading := loading s; prefetching := prefetching s; error := error s;
     results := results s; meta := meta s; currentPage := currentPage s;
     windowStart := windowStart s; windowEnd := windowEnd s;
     pageCache := pageCache s; pageEndCursor := pageEndCursor s;
     noMoreAfterPage := noMoreAfterPage s |}.

Definition handle (gw : Gateway) (ev : Event) : M unit :=
  match ev with
  | TypeQuery q => assign (set_query q)
  | TogglePrf b => assign (set_usePrf b)
  | SelectLang l => assign (set_lang l)
  | SelectPageSize o =>
      s <- this ;;
      if pageSize s =? size_of o then ret tt
      else (assign (set_pageSize (size_of o)) ;;; watch_pageSize gw)
  | Submit => doSearch gw
  | Navigate p => goToPage gw p
  end.

(** Run a handler as an event of the page: a rejection is not observed. *)
Definition step (gw : Gateway) (w : World) (ev : Event) : World :=
  snd (handle gw ev w).

Definition run (gw : Gateway) (evs : list Event) (w : World) : World :=
  foldl (step gw) w evs.

Definition world0 : World := {| sess := data0; sent := [] |}.

(** What [fetch] rejects with when the connection fails. *)
Definition refused_exn : Exn :=
  {| exn_name := "TypeError"; exn_message := "Failed to fetch" |}.

Definition refused : Outcome := Rejected refused_exn.

(** A service that answers the n-th request with the n-th outcome of a
    script, and refuses the connection afterwards. *)
Definition scripted (script : list Outcome) : Gateway :=
  fun n _ => nth n script (Rejected refused_exn).

(** [n] results with ids [from], [from+1], ... and decreasing scores. *)
Definition mk_item (k : nat) : ResultItem :=
  {| doc_id := pretty k; title := "doc"; score := (1000 - Z.of_nat k) # 1 |}.

Definition items_from (from n : nat) : list ResultItem :=
  mk_item <$> seq from n.

Definition answer (items : list ResultItem) : Outcome :=
  Json {| d_results := Some items; d_total_hits := 0; d_took_ms := 0 |}.

(** * Vocabulary of the properties *)

(** [s'] differs from [s] at most in the two caches. *)
Record same_frame (s s' : Session) : Prop := {
  sf_query : query s' = query s;
  sf_usePrf : usePrf s' = usePrf s;
  sf_lang : lang s' = lang s;
  sf_pageSize : pageSize s' = pageSize s;
  sf_loading : loading s' = loading s;
  sf_prefetching : prefetching s' = prefetching s;
  sf_error : error s' = error s;
  sf_results : results s' = results s;
  sf_meta : meta s' = meta s;
  sf_currentPage : currentPage s' = currentPage s;
  sf_windowStart : windowStart s' = windowStart s;
  sf_windowEnd : windowEnd s' = windowEnd s;
  sf_noMoreAfterPage : noMoreAfterPage s' = noMoreAfterPage s
}.

Definition preserves (P : Session -> Prop) {A} (m : M A) : Prop :=
  forall w, P (sess w) -> P (sess (snd (m w))).

Definition window_ok (s : Session) : Prop :=
  1 <= windowStart s /\ windowEnd s - windowStart s + 1 <= 5.

(** The page size is one of the three options of the select and the
    current page is a page number. *)
Definition sane (s : Session) : Prop :=
  (pageSize s = 5 \/ pageSize s = 10 \/ pageSize s = 20) /\
  1 <= currentPage s.

(** The [i]-th chunk of [ps] items. *)
Definition chunk (ps : Z) (items : list ResultItem) (i : Z)
  : list ResultItem :=
  js_slice items (i * ps) ((i + 1) * ps).

(** The bulk request of a refill centred on [c], issued in state [s1] with
    entry cursor [cur]. *)
Definition bulk_payload (s1 : Session) (cur : option Cursor) : Payload :=
  buildPayload s1 (pageSize s1 * 5) cur.

(** How a refill centred on [c] goes, started in world [w]. *)
Inductive Refill :=
| Aborted (e : Exn)
    (* resolving the entry cursor rejected, before the [try] *)
| Failed (s1 : Session) (e : Exn)
    (* the bulk request failed, in state [s1] *)
| Completed (s1 : Session) (items : list ResultItem).
    (* the bulk request, issued in state [s1], was answered with [items] *)

Definition refill (gw : Gateway) (c : Z) (w : World) : Refill :=
  match entry_cursor gw (Z.max 1 (c - 2)) w with
  | (Throw e, _) => Aborted e
  | (Ok cur, w1) =>
      match gw (length (sent w1)) (bulk_payload (sess w1) cur) with
      | Json d => Completed (sess w1) (default [] (d_results d))
      | Rejected e => Failed (sess w1) e
      | NotOk status txt =>
          Failed (sess w1)
            (new_Error ("Search failed (" +:+ pretty status +:+ "): " +:+ txt))
      end
  end.

(** A two-page stream that has grown to three pages by the time page 2 is
    revisited. *)
Definition gw_grows : Gateway :=
  scripted [answer (items_from 0 10); answer (items_from 0 20);
            answer (items_from 0 30)].

(** The first refill failed; a later one sees a 13-item stream. *)
Definition gw_short : Gateway :=
  scripted [answer (items_from 0 10); refused; answer (items_from 0 13)].

(** Five pages are prefetched; page 6 comes back with three items, and
    the refills around pages 6 and 7 fail. *)
Definition gw_short_single : Gateway :=
  scripted [answer (items_from 0 10); answer (items_from 0 50);
            answer (items_from 50 3); refused;
            answer []; refused].

(** Five pages are prefetched, the refill around page 5 fails, page 6 is
    fetched and is empty, and the refill around page 6 sees pages 4 and 5
    only. *)
Definition gw_exact : Gateway :=
  scripted [answer (items_from 0 10); answer (items_from 0 50);
            refused; answer []; answer (items_from 30 20)].

(** A ten-item stream: the first refill fails, the backfill for a jump to
    page 4 finds page 1 only, page 4 is fetched from the start of the
    stream, and the refill around page 4 finds nothing after page 1. *)
Definition gw_ten : Gateway :=
  scripted [answer (items_from 0 10); refused;
            answer (items_from 0 10); answer (items_from 0 10);
            answer []].

(** A missing entry takes [v]; a present one stays. *)
Definition keep_or {A} (old : option A) (v : A) : A := default v old.

(** The state a successful backfill answer [items] leaves. *)
Definition backfilled (items : list ResultItem) (s : Session) : Session :=
  backfill_loop (Z.to_nat (ceil_div (len items) (pageSize s))) 0 items s.

(** A 30-item stream whose first refill failed. *)
Definition gw_jump : Gateway :=
  scripted [answer (items_from 0 10); refused;
            answer (items_from 0 30); answer (items_from 30 10)].

(** Modelled from the spec: the CursorCodec order check, which the source
    does not contain.  The ranked stream is ordered by score descending,
    ties by doc_id ascending; an item strictly follows a cursor when it
    comes after the cursor's boundary in that order. *)
Definition strictly_follows (c : Cursor) (it : ResultItem) : bool :=
  match (score it ?= lastscore c)%Q with
  | Lt => true
  | Eq => String.ltb (lastid c) (doc_id it)
  | Gt => false
  end.

(** Modelled from the spec: an answer honours the cursor it was asked
    with. *)
Definition honours (cur : option Cursor) (items : list ResultItem) : bool :=
  match cur with
  | None => true
  | Some c => forallb (strictly_follows c) items
  end.

(** Five pages are prefetched; the request for page 6 and the refill
    around page 6 are both answered with the head of the stream again. *)
Definition gw_replay : Gateway :=
  scripted [answer (items_from 0 10); answer (items_from 0 50);
            answer (items_from 0 10); answer (items_from 0 30)].

(** Five pages of a 50-item stream are prefetched; a jump to page 9 finds
    no cursor for page 8 and is served from the start of the stream; the
    refill around page 9 then needs the cursor of page 6, and the backfill
    request for it is refused. *)
Definition gw_silent : Gateway :=
  scripted [answer (items_from 0 10); answer (items_from 0 50);
            answer (items_from 0 50); answer (items_from 0 10);
            refused].

(** ** Vocabulary of the further properties *)

(** [:disabled="currentPage <= 1"] of the Prev button. *)
Definition prevDisabled (s : Session) : bool := currentPage s <=? 1.

(** [:disabled="!canGoNext"] of the Next button. *)
Definition nextDisabled (s : Session) : bool := negb (canGoNext s).

(** [:disabled="loading || !query.trim()"] of the Search button. *)
Definition searchDisabled (s : Session) : bool :=
  loading s || match trim (query s) with [] => true | _ :: _ => false end.

(** What [callSearchApi] throws for an outcome of the service, if
    anything. *)
Definition thrown (o : Outcome) : option Exn :=
  match o with
  | Rejected e => Some e
  | NotOk status txt =>
      Some (new_Error ("Search failed (" +:+ pretty status +:+ "): " +:+ txt))
  | Json _ => None
  end.

(** The shape every request of the component has. *)
Record well_formed_request (r : Payload) : Prop := {
  wf_size : 0 < p_size r;
  wf_multiple : (5 | p_size r);
  wf_top_k : p_top_k r = p_size r;
  wf_cursor :
    p_last_min_bm25_score r = None <-> p_last_max_rerank_id r = None;
  wf_filters : forall f, p_filters r = Some f -> f_lang f <> ""
}.

Definition world_ok (w : World) : Prop :=
  sane (sess w) /\ Forall well_formed_request (sent w).

(** The two caches cover the same page numbers. *)
Definition caches_aligned (s : Session) : Prop :=
  forall p, is_Some (pageCache s !! p) <-> is_Some (pageEndCursor s !! p).

(** The first block of assignments of [doSearch]. *)
Definition started (s : Session) : Session :=
  resetPaginationState
    (set_meta None
       (set_results []
          (set_prefetching false (set_loading true (set_error "" s))))).

(** The block of [doSearch] that follows the answer [d] for page 1. *)
Definition first_page (d : Data) (s : Session) : Session :=
  set_meta (Some {| total_hits := d_total_hits d; took_ms := d_took_ms d |})
    (set_results (default [] (d_results d))
       (put_cursor 1 (getEndCursorFromResults (default [] (d_results d)))
          (put_page 1 (default [] (d_results d)) s))).

(** The pages the pager offers, as the cache holds them (a page without
    an entry counts as empty). *)
Definition window_pages (s : Session) : list (list ResultItem) :=
  (fun p => default [] (pageCache s !! p)) <$> pageNumbers s.

(** The exception that ends the single-page fetch of [goToPage p], if
    one of its requests fails: the backfill for the cursor, or the request
    for the page. *)
Definition page_fetch_failure (gw : Gateway) (p : Z) (w : World)
  : option Exn :=
  match entry_cursor gw p
          {| sess := set_loading true (sess w); sent := sent w |} with
  | (Throw e, _) => Some e
  | (Ok cur, w1) =>
      thrown (gw (length (sent w1))
                (buildPayload (sess w1) (pageSize (sess w1)) cur))
  end.

(** Nothing is being fetched. *)
Definition idle (s : Session) : Prop :=
  loading s = false /\ prefetching s = false.

(** The window is a run of one to five page numbers from page 1 or
    later. *)
Definition pager_ok (s : Session) : Prop :=
  sane s /\ 1 <= windowStart s /\ windowStart s <= windowEnd s /\
  windowEnd s <= windowStart s + 4.

(** [m] appends at most [n] requests to the log and changes nothing that
    was logged before. *)
Definition sends_at_most (n : nat) {A} (m : M A) : Prop :=
  forall w, exists l, sent (snd (m w)) = sent w ++ l /\ (length l <= n)%nat.

(** * The browser's schedule

    [detached] lets a refill finish inside the handler that starts it.  On
    the page the call [this.prefetchWindow(...)] returns at its first
    pending request, and what follows that request runs when the answer
    arrives, after whatever events were handled in between and on the
    session as it is by then.  This part splits [prefetchWindow] at its two
    requests and keeps the refills in flight beside the component. *)

(** [callSearchApi] up to its [await fetch]: the request is built from
    [this] and sent, and the service has fixed what it will deliver. *)
Definition post (gw : Gateway) (size : Z) (cursor : option Cursor)
    (w : World) : Outcome * World :=
  let payload := buildPayload (sess w) size cursor in
  (gw (length (sent w)) payload,
   {| sess := sess w; sent := sent w ++ [payload] |}).

(** The rest of [callSearchApi]: what the awaiting caller gets. *)
Definition received (o : Outcome) : Res Data :=
  match o with
  | Rejected e => Throw e
  | NotOk status txt =>
      Throw (new_Error
               ("Search failed (" +:+ pretty status +:+ "): " +:+ txt))
  | Json d => Ok d
  end.

(** A refill waiting for an answer.  [start] is the local constant of
    [prefetchWindow], fixed when the refill was started. *)
Inductive InFlight :=
| Backfill (start : Z) (o : Outcome)
    (* at line 260, in [ensureCursorForPageEnd (start - 1)], line 242 *)
| Bulk (start : Z) (o : Outcome).
    (* at line 264 *)

(** Lines 262-264: raise the flag and send the bulk request. *)
Definition send_bulk (gw : Gateway) (start : Z) (cursor : option Cursor)
    (w : World) : InFlight * World :=
  let w1 := {| sess := set_prefetching true (sess w); sent := sent w |} in
  let '(o, w2) := post gw (pageSize (sess w1) * 5) cursor w1 in
  (Bulk start o, w2).

(** [ensureCursorForPageEnd pageNum] up to its [await]: the cursor, when
    the method returns without a request, or else the backfill request. *)
Definition cursor_or_request (gw : Gateway) (pageNum : Z) (w : World)
  : (option Cursor + Outcome) * World :=
  if pageNum <=? 0 then (inl None, w)
  else
    match cursor_at (sess w) pageNum with
    | Some c => (inl (Some c), w)
    | None =>
        let '(o, w1) := post gw (pageNum * pageSize (sess w)) None w in
        (inr o, w1)
    end.

(** [prefetchWindow centerPage] up to the first request it waits for.  An
    [await] of a cursor that needs no request resumes before any other
    event or answer is taken. *)
Definition start_refill (gw : Gateway) (centerPage : Z) (w : World)
  : InFlight * World :=
  let start := Z.max 1 (centerPage - 2) in
  if start =? 1 then send_bulk gw start None w
  else
    match cursor_or_request gw (start - 1) w with
    | (inl cursor, w1) => send_bulk gw start cursor w1
    | (inr o, w1) => (Backfill start o, w1)
    end.

(** The answer of a refill in flight arrives: the continuation runs on the
    session as it is now.  A backfill that is answered goes on to the bulk
    request (lines 243-253, then 262-264); one that fails rejects
    [prefetchWindow] before its [try].  A bulk answer ends the refill
    (lines 265-294). *)
Definition arrive (gw : Gateway) (f : InFlight) (w : World)
  : option InFlight * World :=
  match f with
  | Backfill start o =>
      match received o with
      | Throw _ => (None, w)
      | Ok data =>
          let items := default [] (d_results data) in
          let w1 := {| sess := backfilled items (sess w); sent := sent w |} in
          let '(f', w2) :=
            send_bulk gw start (cursor_at (sess w1) (start - 1)) w1 in
          (Some f', w2)
      end
  | Bulk start o =>
      let s1 :=
        match received o with
        | Ok data => apply_block start (default [] (d_results data)) (sess w)
        | Throw e =>
            set_error (if str_truthy (error (sess w)) then error (sess w)
                       else err_text e) (sess w)
        end in
      (None, {| sess := set_prefetching false s1; sent := sent w |})
  end.

(** A refill whose answers arrive at once. *)
Definition settle (gw : Gateway) (f : InFlight) (w : World) : World :=
  match arrive gw f w with
  | (None, w1) => w1
  | (Some f', w1) => snd (arrive gw f' w1)
  end.

(** [goToPage p], returning when its own awaited requests are answered,
    with the refill it has started still in flight. *)
Definition goToPage_start (gw : Gateway) (p : Z) (w : World)
  : option InFlight * World :=
  if p <? 1 then (None, w)
  else if beyond_last (sess w) p then (None, w)
  else
    let w1 := snd (show_page gw p w) in
    let '(f, w2) := start_refill gw (currentPage (sess w1)) w1 in
    (Some f, w2).

(** [doSearch], likewise. *)
Definition doSearch_start (gw : Gateway) (w : World)
  : option InFlight * World :=
  match trim (query (sess w)) with
  | [] => (None, w)
  | _ :: _ =>
      let w0 := {| sess := started (sess w); sent := sent w |} in
      let '(o, w1) := post gw (pageSize (sess w0)) None w0 in
      match received o with
      | Ok data =>
          let w2 := {| sess := first_page data (sess w1); sent := sent w1 |} in
          let '(f, w3) := start_refill gw (currentPage (sess w2)) w2 in
          (Some f, {| sess := set_loading false (sess w3); sent := sent w3 |})
      | Throw e =>
          (None, {| sess := set_loading false
                              (set_error (err_text e) (sess w1));
                    sent := sent w1 |})
      end
  end.

Definition handle_start (gw : Gateway) (ev : Event) (w : World)
  : option InFlight * World :=
  match ev with
  | TypeQuery _ | TogglePrf _ | SelectLang _ => (None, snd (handle gw ev w))
  | SelectPageSize o =>
      if pageSize (sess w) =? size_of o then (None, w)
      else
        let w1 := {| sess := set_pageSize (size_of o) (sess w);
                     sent := sent w |} in
        match trim (query (sess w1)) with
        | [] => (None, w1)
        | _ :: _ => doSearch_start gw w1
        end
  | Submit => doSearch_start gw w
  | Navigate p => goToPage_start gw p w
  end.

(** The page and the refills in flight, oldest first. *)
Record Browser := {
  page : World;
  flying : list InFlight
}.

(** What happens next: the user does something, or the answer of the
    [i]-th refill in flight arrives. *)
Inductive Tick :=
| User (ev : Event)
| Deliver (i : nat).

Definition tick (gw : Gateway) (b : Browser) (t : Tick) : Browser :=
  match t with
  | User ev =>
      let '(f, w) := handle_start gw ev (page b) in
      {| page := w; flying := flying b ++ option_list f |}
  | Deliver i =>
      match flying b !! i with
      | None => b
      | Some f =>
          let '(f', w) := arrive gw f (page b) in
          {| page := w;
             flying := match f' with
                       | Some g => <[i := g]> (flying b)
                       | None => delete i (flying b)
                       end |}
      end
  end.

Definition play (gw : Gateway) (ts : list Tick) (b : Browser) : Browser :=
  foldl (tick gw) b ts.

Definition browser0 : Browser := {| page := world0; flying := [] |}.

(** What the template lets the user do in state [s]: the inputs are always
    enabled, the form submits unless the Search button is disabled, and the
    pager, rendered when [paginationReady], calls [goToPage] from Prev, from
    one button per page number of the window, and from Next. *)
Definition offered (s : Session) (ev : Event) : bool :=
  match ev with
  | TypeQuery _ | TogglePrf _ | SelectLang _ | SelectPageSize _ => true
  | Submit => negb (searchDisabled s)
  | Navigate p =>
      paginationReady s &&
      (negb (prevDisabled s) && (p =? currentPage s - 1)
       || bool_decide (p ∈ pageNumbers s)
       || canGoNext s && (p =? currentPage s + 1))
  end.

(** Every event of [evs] is offered in the state it is handled in, the
    handlers running to completion. *)
Fixpoint all_offered (gw : Gateway) (evs : list Event) (w : World) : bool :=
  match evs with
  | [] => true
  | ev :: evs' =>
      offered (sess w) ev && all_offered gw evs' (step gw w ev)
  end.

(** The same for a schedule: every user event is offered when it happens
    and every delivery is for a refill that is in flight. *)
Fixpoint feasible (gw : Gateway) (ts : list Tick) (b : Browser) : bool :=
  match ts with
  | [] => true
  | t :: ts' =>
      match t with
      | User ev => offered (sess (page b)) ev
      | Deliver i => bool_decide (is_Some (flying b !! i))
      end && feasible gw ts' (tick gw b t)
  end.

(** The index shrinks to ten documents while the user is on page 5 of a
    longer ranking: the refill around page 5 finds nothing behind page 2,
    and a new search finds one page. *)
Definition gw_shrinks : Gateway :=
  scripted [answer (items_from 0 10); answer (items_from 0 50);
            answer []; answer (items_from 0 10); answer (items_from 0 10)].

(** A ranking of 70 items or more; after the refill around page 5 has been
    sent, a search with page size 5 and its refill are answered. *)
Definition gw_resize : Gateway :=
  scripted [answer (items_from 0 10); answer (items_from 0 50);
            answer (items_from 20 50);
            answer (items_from 0 5); answer (items_from 0 25)].

(** The pages up to the current page and up to the end of the window are
    cached, once a search has been answered. *)
Definition dense (s : Session) : Prop :=
  is_Some (meta s) ->
  1 <= windowStart s /\
  forall p, 1 <= p <= Z.max (currentPage s) (windowEnd s) ->
            is_Some (pageCache s !! p).

(** * Properties *)

(** ** The primitives on small inputs *)

Example trim_example :
  trim [32; 9; 98; 109; 32; 50; 53; 10]%N = [98; 109; 32; 50; 53]%N.
Proof. reflexivity. Qed.

Example ceil_div_examples :
  ceil_div 0 10 = 0 /\ ceil_div 1 10 = 1 /\ ceil_div 10 10 = 1 /\
  ceil_div 11 10 = 2 /\ ceil_div 50 10 = 5.
Proof. repeat split. Qed.

Example js_slice_examples :
  js_slice [1; 2; 3; 4; 5] 0 2 = [1; 2] /\
  js_slice [1; 2; 3; 4; 5] 4 6 = [5] /\
  js_slice [1; 2; 3; 4; 5] 6 8 = [].
Proof. repeat split. Qed.

Example maxPagesToShow_examples :
  maxPagesToShow_of 0 = 1 /\ maxPagesToShow_of 3 = 3 /\
  maxPagesToShow_of 7 = 5.
Proof. repeat split. Qed.

Example getEndCursorFromResults_examples :
  getEndCursorFromResults [] = None /\
  getEndCursorFromResults (items_from 0 10) =
    Some {| lastscore := 991 # 1; lastid := "9" |}.
Proof. split; reflexivity. Qed.

Example err_text_examples :
  err_text (new_Error "boom") = "boom" /\
  err_text {| exn_name := "TypeError"; exn_message := "" |} = "TypeError".
Proof. split; reflexivity. Qed.

(** Scenario A of the design: twelve items at page size 10.  The first
    page is shown, the refill of the window finds two pages and marks
    page 2 as the last one, and page 3 is then refused. *)
Example scenario_two_pages :
  let gw := scripted [answer (items_from 0 10); answer (items_from 0 12)] in
  let w := run gw [Submit] world0 in
  windowStart (sess w) = 1 /\ windowEnd (sess w) = 2 /\
  noMoreAfterPage (sess w) = Some 2 /\
  run gw [Navigate 3] w = w.
Proof.
  cbv zeta.
  refine (conj _ (conj _ (conj _ _))); vm_compute; reflexivity.
Qed.

(** ** Blank queries *)

Lemma trimStart_blank (q : jsstring) :
  forallb is_js_space q = true -> trimStart q = [].
Proof.
  induction q as [|c q IH]; simpl; [done|].
  intros [Hc Hq]%andb_prop. rewrite Hc. auto.
Qed.

Lemma trim_blank (q : jsstring) :
  forallb is_js_space q = true -> trim q = [].
Proof. intros H. unfold trim. by rewrite (trimStart_blank q H). Qed.

Lemma trimStart_cons_inv (q : jsstring) c q' :
  trimStart q = c :: q' -> is_js_space c = false.
Proof.
  induction q as [|d q IH]; simpl; [done|].
  destruct (is_js_space d) eqn:Hd; [done|]. by intros [= -> _].
Qed.

(** A query that contains a non-space code unit survives [trim]. *)
Lemma trim_nonblank (q : jsstring) :
  forallb is_js_space q = false -> trim q <> [].
Proof.
  intros Hq Ht. unfold trim in Ht.
  assert (Hnil : forall l : jsstring, rev l = [] -> l = []).
  { intros l Hl. apply (f_equal (@rev N)) in Hl. by rewrite rev_involutive in Hl. }
  apply Hnil in Ht.
  assert (Hstart : trimStart q <> []).
  { clear Ht. induction q as [|c q IH]; simpl in *; [done|].
    destruct (is_js_space c); [auto | done]. }
  destruct (trimStart q) as [|c q'] eqn:Hs; [done|].
  pose proof (trimStart_cons_inv _ _ _ Hs) as Hc.
  (* the last unit of [rev (c :: q')] is [c], which is not a space *)
  assert (Hgen : forall l : jsstring,
            trimStart (l ++ [c]) = [] -> False).
  { induction l as [|d l IH]; simpl.
    - by rewrite Hc.
    - destruct (is_js_space d); [exact IH | done]. }
  simpl in Ht. exact (Hgen _ Ht).
Qed.

(** ** The guard of [goToPage] *)

Lemma beyond_last_spec (s : Session) (p : Z) :
  beyond_last s p = true <->
  exists k, noMoreAfterPage s = Some k /\ k < p.
Proof.
  unfold beyond_last. destruct (noMoreAfterPage s) as [k|].
  - rewrite Z.ltb_lt. split; [eauto|]. by intros (? & [= ->] & ?).
  - split; [done|]. by intros (? & ? & ?).
Qed.

(** ** Frame of the two slicing loops *)

Lemma same_frame_refl s : same_frame s s.
Proof. by split. Qed.

Lemma same_frame_trans s1 s2 s3 :
  same_frame s1 s2 -> same_frame s2 s3 -> same_frame s1 s3.
Proof. intros [] []. split; congruence. Qed.

Lemma same_frame_put_page p v s : same_frame s (put_page p v s).
Proof. by split. Qed.

Lemma same_frame_put_cursor p c s : same_frame s (put_cursor p c s).
Proof. by split. Qed.

Lemma fill_missing_frame p slice s : same_frame s (fill_missing p slice s).
Proof.
  unfold fill_missing.
  destruct (pageCache s !! p), (cursor_at _ _);
    repeat first [ apply same_frame_refl | apply same_frame_put_cursor
                 | apply same_frame_put_page
                 | eapply same_frame_trans; [apply same_frame_put_page|] ].
Qed.

Lemma backfill_loop_frame n i items s :
  same_frame s (backfill_loop n i items s).
Proof.
  revert i s. induction n as [|n IH]; intros i s; simpl.
  { apply same_frame_refl. }
  destruct (js_slice _ _ _) as [|x sl]; [apply same_frame_refl|].
  eapply same_frame_trans; [apply fill_missing_frame | apply IH].
Qed.

Lemma window_loop_frame n i start items s :
  same_frame s (window_loop n i start items s).
Proof.
  revert i s. induction n as [|n IH]; intros i s; simpl.
  { apply same_frame_refl. }
  destruct (js_slice _ _ _) as [|x sl]; [apply same_frame_refl|].
  eapply same_frame_trans; [|apply IH].
  eapply same_frame_trans;
    [apply same_frame_put_page | apply same_frame_put_cursor].
Qed.

(** ** Session invariants

    [preserves P m]: running [m] from a world whose session satisfies [P]
    ends, normally or by a rejection, in a world whose session satisfies
    [P].  The hypotheses under which [P] is shown to be an invariant each
    speak of one synchronous block of assignments of the component. *)

Section Preserves.

Context (P : Session -> Prop).

Lemma preserves_ret {A} (a : A) : preserves P (ret a).
Proof. by intros w. Qed.

Lemma preserves_this : preserves P this.
Proof. by intros w. Qed.

Lemma preserves_assign f :
  (forall s, P s -> P (f s)) -> preserves P (assign f).
Proof. intros Hf w. simpl. apply Hf. Qed.

Lemma preserves_bind {A B} (m : M A) (k : A -> M B) :
  preserves P m -> (forall a, preserves P (k a)) -> preserves P (bind m k).
Proof.
  intros Hm Hk w Hw. unfold bind. specialize (Hm w Hw).
  destruct (m w) as [[a|e] w']; simpl in *; [by apply Hk | done].
Qed.

Lemma preserves_try_catch body handler :
  preserves P body -> (forall e, preserves P (handler e)) ->
  preserves P (try_catch body handler).
Proof.
  intros Hb Hh w Hw. unfold try_catch. specialize (Hb w Hw).
  destruct (body w) as [[a|e] w']; simpl in *; [done | by apply Hh].
Qed.

Lemma preserves_try_finally body fin :
  preserves P body -> preserves P fin ->
  preserves P (try_finally body fin).
Proof.
  intros Hb Hf w Hw. unfold try_finally. specialize (Hb w Hw).
  destruct (body w) as [r w']; simpl in *. by apply Hf.
Qed.

Lemma preserves_detached m : preserves P m -> preserves P (detached m).
Proof. intros Hm w Hw. simpl. by apply Hm. Qed.

Lemma preserves_callSearchApi gw size cursor :
  preserves P (callSearchApi gw size cursor).
Proof.
  intros w Hw. unfold callSearchApi. by destruct (gw _ _).
Qed.

(** [P] is an invariant of the component as soon as every assignment of
    the methods keeps it. *)
Hypothesis P_query : forall q s, P s -> P (set_query q s).
Hypothesis P_usePrf : forall b s, P s -> P (set_usePrf b s).
Hypothesis P_lang : forall l s, P s -> P (set_lang l s).
Hypothesis P_pageSize : forall o s, P s -> P (set_pageSize (size_of o) s).
Hypothesis P_loading : forall b s, P s -> P (set_loading b s).
Hypothesis P_prefetching : forall b s, P s -> P (set_prefetching b s).
Hypothesis P_error : forall e s, P s -> P (set_error e s).
Hypothesis P_meta : forall m s, P s -> P (set_meta m s).
Hypothesis P_reset :
  forall s, P s -> P (resetPaginationState (set_results [] s)).
Hypothesis P_backfill :
  forall n items s, P s -> P (backfill_loop n 0 items s).
Hypothesis P_first_page :
  forall items s,
    P s -> currentPage s = 1 ->
    P (set_results items
         (put_cursor 1 (getEndCursorFromResults items) (put_page 1 items s))).
Hypothesis P_cached :
  forall p cached s,
    P s -> 1 <= p -> pageCache s !! p = Some cached ->
    P (set_results cached (set_currentPage p s)).
Hypothesis P_page :
  forall p items s, P s -> 1 <= p -> P (apply_page p items s).
Hypothesis P_block :
  forall c items s, P s -> P (apply_block (Z.max 1 (c - 2)) items s).

Variable gw : Gateway.

Lemma preserves_ensureCursorForPageEnd n :
  preserves P (ensureCursorForPageEnd gw n).
Proof.
  unfold ensureCursorForPageEnd. destruct (n <=? 0); [apply preserves_ret|].
  apply preserves_bind; [apply preserves_this|]. intros s.
  destruct (cursor_at s n); [apply preserves_ret|].
  apply preserves_bind; [apply preserves_callSearchApi|]. intros d.
  apply preserves_bind; [apply preserves_assign; auto|]. intros _.
  apply preserves_bind; [apply preserves_this|]. intros s'.
  apply preserves_ret.
Qed.

Lemma preserves_entry_cursor start : preserves P (entry_cursor gw start).
Proof.
  unfold entry_cursor. destruct (start =? 1);
    [apply preserves_ret | apply preserves_ensureCursorForPageEnd].
Qed.

Lemma preserves_prefetchWindow c : preserves P (prefetchWindow gw c).
Proof.
  unfold prefetchWindow.
  apply preserves_bind; [apply preserves_entry_cursor|]. intros cur.
  apply preserves_bind; [apply preserves_assign; auto|]. intros _.
  apply preserves_try_finally; [|apply preserves_assign; auto].
  apply preserves_try_catch; [|intros e; apply preserves_assign; auto].
  apply preserves_bind; [apply preserves_this|]. intros s.
  apply preserves_bind; [apply preserves_callSearchApi|]. intros d.
  apply preserves_assign; auto.
Qed.

Lemma preserves_show_page p : 1 <= p -> preserves P (show_page gw p).
Proof.
  intros Hp w Hw. unfold show_page, bind, this.
  destruct (pageCache (sess w) !! p) as [cached|] eqn:Hc.
  { simpl. by apply P_cached. }
  revert w Hw Hc. intros w Hw _. revert w Hw.
  change (preserves P
    (assign (set_loading true) ;;;
     try_finally
       (try_catch
          (cursor <- entry_cursor gw p ;;
           s <- this ;;
           data <- callSearchApi gw (pageSize s) cursor ;;
           assign (apply_page p (default [] (d_results data))))
          (fun e => assign (set_error (err_text e))))
       (assign (set_loading false)))).
  apply preserves_bind; [apply preserves_assign; auto|]. intros _.
  apply preserves_try_finally; [|apply preserves_assign; auto].
  apply preserves_try_catch; [|intros e; apply preserves_assign; auto].
  apply preserves_bind; [apply preserves_entry_cursor|]. intros cur.
  apply preserves_bind; [apply preserves_this|]. intros s.
  apply preserves_bind; [apply preserves_callSearchApi|]. intros d.
  apply preserves_assign; auto.
Qed.

Lemma preserves_goToPage p : preserves P (goToPage gw p).
Proof.
  unfold goToPage.
  apply preserves_bind; [apply preserves_this|]. intros s.
  destruct (p <? 1) eqn:Hp; [apply preserves_ret|].
  destruct (beyond_last s p); [apply preserves_ret|].
  apply Z.ltb_ge in Hp.
  apply preserves_bind; [by apply preserves_show_page|]. intros _.
  apply preserves_bind; [apply preserves_this|]. intros s'.
  apply preserves_detached, preserves_prefetchWindow.
Qed.

Lemma preserves_doSearch : preserves P (doSearch gw).
Proof.
  intros w Hw. unfold doSearch, bind at 1, this at 1.
  destruct (trim (query (sess w))); [done|].
  unfold bind at 1, assign at 1.
  set (w1 := {| sess := _; sent := sent w |}).
  assert (H1 : P (sess w1)).
  { subst w1. simpl.
    change (P (resetPaginationState
                 (set_meta None
                    (set_results []
                       (set_prefetching false
                          (set_loading true (set_error "" (sess w)))))))).
    assert (Hswap : forall s,
      resetPaginationState (set_meta None (set_results [] s)) =
      set_meta None (resetPaginationState (set_results [] s))) by done.
    rewrite Hswap.
    by apply P_meta, P_reset, P_prefetching, P_loading, P_error. }
  assert (H1c : currentPage (sess w1) = 1) by done.
  clearbody w1. unfold try_finally, try_catch.
  unfold bind at 1, this at 1. unfold bind at 1.
  pose proof (preserves_callSearchApi gw (pageSize (sess w1)) None w1 H1)
    as H2.
  assert (H2c : currentPage (sess (snd (callSearchApi gw (pageSize (sess w1))
                                          None w1))) = 1).
  { unfold callSearchApi. by destruct (gw _ _). }
  destruct (callSearchApi _ _ _ w1) as [[d|e] w2]; simpl in H2, H2c.
  - unfold bind, assign, this, detached. simpl. apply P_loading.
    apply preserves_prefetchWindow. simpl. apply P_meta.
    by apply P_first_page.
  - simpl. auto.
Qed.

Lemma preserves_handle ev : preserves P (handle gw ev).
Proof.
  destruct ev as [q|b|l|o| |p]; simpl.
  - apply preserves_assign; auto.
  - apply preserves_assign; auto.
  - apply preserves_assign; auto.
  - apply preserves_bind; [apply preserves_this|]. intros s.
    destruct (_ =? _); [apply preserves_ret|].
    apply preserves_bind; [apply preserves_assign; auto|]. intros _.
    unfold watch_pageSize.
    apply preserves_bind; [apply preserves_this|]. intros s'.
    destruct (trim _); [apply preserves_ret | apply preserves_doSearch].
  - apply preserves_doSearch.
  - apply preserves_goToPage.
Qed.

(** Every state the page can be driven to satisfies [P]. *)
Lemma invariant_run evs w :
  P (sess w) -> P (sess (run gw evs w)).
Proof.
  revert w. induction evs as [|ev evs IH]; intros w Hw; simpl; [done|].
  apply IH. by apply preserves_handle.
Qed.

End Preserves.

(** ** The refill block *)

(** Case analysis on the test of the conditional in the goal. *)
Ltac case_test :=
  match goal with |- context [if ?b then _ else _] => destruct b end.

Lemma maxPagesToShow_of_bounds k :
  0 <= k -> 1 <= maxPagesToShow_of k <= 5.
Proof.
  intros Hk. unfold maxPagesToShow_of.
  destruct (k =? 0) eqn:E; [lia|]. apply Z.eqb_neq in E. lia.
Qed.

Lemma maxPagesToShow_of_le5 k : maxPagesToShow_of k <= 5.
Proof. unfold maxPagesToShow_of. lia. Qed.

(** The refill sets the window to [start .. start + maxPagesToShow - 1]. *)
Lemma apply_block_window start items s :
  windowStart (apply_block start items s) = start /\
  windowEnd (apply_block start items s) =
    start + maxPagesToShow_of (ceil_div (len items) (pageSize s)) - 1.
Proof.
  unfold apply_block. cbv zeta.
  case_test; by simpl.
Qed.

Lemma apply_block_keeps start items s :
  currentPage (apply_block start items s) = currentPage s /\
  results (apply_block start items s) = results s /\
  pageSize (apply_block start items s) = pageSize s /\
  error (apply_block start items s) = error s.
Proof.
  unfold apply_block. cbv zeta.
  pose proof (window_loop_frame
    (Z.to_nat (maxPagesToShow_of (ceil_div (len items) (pageSize s))))
    0 start items s) as [].
  case_test; by simpl.
Qed.

(** ** The window invariant *)

Lemma window_ok_frame s s' : same_frame s s' -> window_ok s -> window_ok s'.
Proof. intros [] [? ?]. unfold window_ok. split; congruence. Qed.

Lemma window_ok_apply_block c items s :
  window_ok (apply_block (Z.max 1 (c - 2)) items s).
Proof.
  destruct (apply_block_window (Z.max 1 (c - 2)) items s) as [Hs He].
  unfold window_ok. rewrite Hs, He.
  pose proof (maxPagesToShow_of_le5 (ceil_div (len items) (pageSize s))).
  lia.
Qed.

(** C5.  In every state the page can reach, whatever the service answers,
    the window starts at page 1 or later and spans at most five pages:
    [windowEnd - windowStart + 1 <= 5] and [windowStart >= 1].  In
    particular this holds after every completed refill. *)
Theorem window_spans_at_most_five (gw : Gateway) (evs : list Event) :
  let s := sess (run gw evs world0) in
  windowEnd s - windowStart s + 1 <= 5 /\ windowStart s >= 1.
Proof.
  cbv zeta.
  enough (window_ok (sess (run gw evs world0))) as [? ?] by lia.
  apply (invariant_run window_ok); try done.
  - intros n items s. apply window_ok_frame, backfill_loop_frame.
  - intros c items s _. apply window_ok_apply_block.
Qed.

(** The two early returns of [goToPage]. *)
Lemma goToPage_guard gw w p :
  p < 1 \/ beyond_last (sess w) p = true ->
  goToPage gw p w = (Ok tt, w).
Proof.
  intros H. unfold goToPage, bind, this.
  destruct (p <? 1) eqn:Hp; [done|].
  apply Z.ltb_ge in Hp. destruct H as [H|H]; [lia|]. by rewrite H.
Qed.

(** C3.  [goToPage p] with [p < 1], or with [noMoreAfterPage] set and
    [p] beyond it, returns at once: the session (current page, results,
    caches, window, known last page and every other field) is unchanged
    and no request is sent. *)
Theorem goToPage_rejected_noop (gw : Gateway) (w : World) (p : Z) :
  p < 1 \/ (exists k, noMoreAfterPage (sess w) = Some k /\ k < p) ->
  goToPage gw p w = (Ok tt, w).
Proof.
  intros [H|H]; apply goToPage_guard; [by left|right].
  by apply beyond_last_spec.
Qed.

Lemma goToPage_rejected_noop_witness :
  let w := {| sess := set_noMoreAfterPage (Some 2) data0; sent := [] |} in
  (3 < 1 \/ (exists k, noMoreAfterPage (sess w) = Some k /\ k < 3)) /\
  goToPage (scripted []) 3 w = (Ok tt, w).
Proof.
  cbv zeta.
  assert (H : 3 < 1 \/
              (exists k, noMoreAfterPage
                           (sess {| sess := set_noMoreAfterPage (Some 2) data0;
                                    sent := [] |}) = Some k /\ k < 3)).
  { right. exists 2. split; [reflexivity | lia]. }
  split; [exact H|].
  exact (goToPage_rejected_noop (scripted []) _ 3 H).
Defined.

(** C10.  [doSearch] with a query that is empty or made of white space
    only returns at once: no request is sent and no field of the session
    changes. *)
Theorem doSearch_blank_noop (gw : Gateway) (w : World) :
  forallb is_js_space (query (sess w)) = true ->
  doSearch gw w = (Ok tt, w).
Proof.
  intros H. unfold doSearch, bind, this.
  by rewrite (trim_blank _ H).
Qed.

Lemma doSearch_blank_noop_witness :
  let w := {| sess := set_query [32; 9; 160]%N data0; sent := [] |} in
  forallb is_js_space (query (sess w)) = true /\
  doSearch (scripted []) w = (Ok tt, w).
Proof.
  cbv zeta. split; [reflexivity|].
  apply (doSearch_blank_noop (scripted [])). reflexivity.
Defined.

(** ** Arithmetic of slicing *)

Lemma ceil_div_gt a ps j :
  0 < ps -> (j < ceil_div a ps <-> j * ps < a).
Proof.
  intros Hps. unfold ceil_div. split; intros H.
  - assert (j + 1 <= (a + ps - 1) / ps) as H1 by lia.
    pose proof (Z.mul_div_le (a + ps - 1) ps Hps). nia.
  - enough (j + 1 <= (a + ps - 1) / ps) by lia.
    apply Z.div_le_lower_bound; [done|]. nia.
Qed.

Lemma ceil_div_nonneg a ps : 0 <= a -> 0 < ps -> 0 <= ceil_div a ps.
Proof. intros. unfold ceil_div. apply Z.div_pos; lia. Qed.

Lemma ceil_div_zero_iff a ps :
  0 <= a -> 0 < ps -> (ceil_div a ps = 0 <-> a = 0).
Proof.
  intros Ha Hps. pose proof (ceil_div_gt a ps 0 Hps).
  pose proof (ceil_div_nonneg a ps Ha Hps). lia.
Qed.

Lemma len_nonneg {A} (l : list A) : 0 <= len l.
Proof. unfold len. lia. Qed.

Lemma len_nil_iff {A} (l : list A) : len l = 0 <-> l = [].
Proof. unfold len. destruct l; simpl; split; (done || lia). Qed.

Lemma chunk_len ps items i :
  0 < ps -> 0 <= i ->
  len (chunk ps items i) = Z.min ps (Z.max 0 (len items - i * ps)).
Proof.
  intros Hps Hi. unfold chunk, js_slice, len.
  replace ((i + 1) * ps - i * ps) with ps by ring.
  rewrite length_take, length_drop.
  assert (0 <= i * ps) by nia. lia.
Qed.

Lemma chunk_nonempty ps items i :
  0 < ps -> 0 <= i -> (chunk ps items i <> [] <-> i * ps < len items).
Proof.
  intros Hps Hi. rewrite <- len_nil_iff, chunk_len by done. lia.
Qed.

Lemma chunk_full ps items i :
  0 < ps -> 0 <= i ->
  (len (chunk ps items i) = ps <-> (i + 1) * ps <= len items).
Proof. intros Hps Hi. rewrite chunk_len by done. lia. Qed.

Lemma chunk_nil ps i : chunk ps [] i = [].
Proof. unfold chunk, js_slice. by rewrite drop_nil, take_nil. Qed.

(** ** What the refill loop writes *)

Lemma window_loop_nil n i start s : window_loop n i start [] s = s.
Proof.
  destruct n as [|n]; simpl; [done|].
  change (js_slice [] (i * pageSize s) ((i + 1) * pageSize s))
    with (chunk (pageSize s) [] i).
  by rewrite chunk_nil.
Qed.

Lemma window_loop_cache ps start items n :
  0 < ps ->
  forall i s,
    pageSize s = ps -> 0 <= i ->
    (forall j, i <= j < i + Z.of_nat n -> j * ps < len items) ->
    forall q,
      pageCache (window_loop n i start items s) !! q =
      if bool_decide (start + i <= q < start + i + Z.of_nat n)
      then Some (chunk ps items (q - start))
      else pageCache s !! q.
Proof.
  intros Hps. induction n as [|n IH]; intros i s Hs Hi Hne q.
  { simpl. rewrite bool_decide_eq_false_2 by lia. done. }
  cbn [window_loop]. rewrite Hs.
  change (js_slice items (i * ps) ((i + 1) * ps)) with (chunk ps items i).
  assert (Hc : chunk ps items i <> []).
  { apply chunk_nonempty; [done..|]. apply Hne. lia. }
  destruct (chunk ps items i) as [|x sl] eqn:Hch; [done|].
  rewrite IH; [|done|lia|intros j Hj; apply Hne; lia].
  destruct (decide (q = start + i)) as [->|Hq].
  - rewrite bool_decide_eq_false_2 by lia.
    rewrite bool_decide_eq_true_2 by lia.
    simpl. rewrite lookup_insert_eq.
    replace (start + i - start) with i by lia. by rewrite Hch.
  - simpl. rewrite lookup_insert_ne by done.
    destruct (bool_decide (start + (i + 1) <= q < _)) eqn:E.
    + apply bool_decide_eq_true_1 in E.
      by rewrite bool_decide_eq_true_2 by lia.
    + apply bool_decide_eq_false_1 in E.
      by rewrite bool_decide_eq_false_2 by lia.
Qed.

(** The pages of the new window, for a bulk answer that is not empty. *)
Lemma apply_block_cache start items s q :
  0 < pageSize s -> items <> [] ->
  pageCache (apply_block start items s) !! q =
  if bool_decide (windowStart (apply_block start items s) <= q
                  <= windowEnd (apply_block start items s))
  then Some (chunk (pageSize s) items (q - start))
  else pageCache s !! q.
Proof.
  intros Hps Hne.
  destruct (apply_block_window start items s) as [-> ->].
  set (k := maxPagesToShow_of (ceil_div (len items) (pageSize s))).
  assert (Hlen : 0 < len items).
  { destruct items; [done | unfold len; simpl; lia]. }
  assert (Hk : 1 <= k <= 5).
  { apply maxPagesToShow_of_bounds, ceil_div_nonneg; lia. }
  assert (Hkc : k <= ceil_div (len items) (pageSize s)).
  { subst k. unfold maxPagesToShow_of.
    pose proof (ceil_div_zero_iff (len items) (pageSize s)).
    destruct (_ =? 0) eqn:E; [apply Z.eqb_eq in E|]; lia. }
  assert (Hloop :
    pageCache (window_loop (Z.to_nat k) 0 start items s) !! q =
    if bool_decide (start <= q <= start + k - 1)
    then Some (chunk (pageSize s) items (q - start))
    else pageCache s !! q).
  { rewrite (window_loop_cache (pageSize s) start items (Z.to_nat k) Hps 0 s
               eq_refl ltac:(lia)).
    - destruct (bool_decide (start <= q <= start + k - 1)) eqn:E.
      + apply bool_decide_eq_true_1 in E.
        by rewrite bool_decide_eq_true_2 by lia.
      + apply bool_decide_eq_false_1 in E.
        by rewrite bool_decide_eq_false_2 by lia.
    - intros j Hj. apply ceil_div_gt; lia. }
  rewrite <- Hloop. unfold apply_block. cbv zeta. fold k.
  case_test; by simpl.
Qed.

(** An empty bulk answer writes no page. *)
Lemma apply_block_cache_nil start s :
  pageCache (apply_block start [] s) = pageCache s.
Proof.
  unfold apply_block. cbv zeta. rewrite window_loop_nil.
  case_test; by simpl.
Qed.

(** When the refill writes [noMoreAfterPage], read on the state it
    leaves. *)
Lemma apply_block_noMore start items s :
  let s' := apply_block start items s in
  noMoreAfterPage s' =
  if (windowEnd s' - windowStart s' + 1 <? 5)
     || (len (default [] (pageCache s' !! windowEnd s')) <? pageSize s')
  then Some (windowEnd s')
  else noMoreAfterPage s.
Proof.
  cbv zeta. unfold apply_block. cbv zeta.
  set (k := maxPagesToShow_of _).
  set (s1 := window_loop _ _ _ _ _).
  pose proof (window_loop_frame (Z.to_nat k) 0 start items s) as [].
  fold s1 in sf_noMoreAfterPage0.
  replace (k <? 5) with (start + k - 1 - start + 1 <? 5)
    by (f_equal; lia).
  match goal with |- context [if ?b then _ else _] =>
    destruct b eqn:E end; simpl in *; by rewrite E.
Qed.

(** ** Completed and failed refills *)

Lemma buildPayload_prefetching b s size cur :
  buildPayload (set_prefetching b s) size cur = buildPayload s size cur.
Proof. done. Qed.

(** A completed refill leaves the state in which the answer arrived,
    changed by [apply_block] only. *)
Lemma prefetchWindow_completed gw c w s1 items :
  refill gw c w = Completed s1 items ->
  fst (prefetchWindow gw c w) = Ok tt /\
  sess (snd (prefetchWindow gw c w)) =
    set_prefetching false
      (apply_block (Z.max 1 (c - 2)) items (set_prefetching true s1)).
Proof.
  unfold refill, prefetchWindow, bulk_payload. cbv zeta.
  unfold bind, assign, try_finally, try_catch, this, callSearchApi.
  destruct (entry_cursor gw _ w) as [[cur|e] w1]; [|done].
  simpl. rewrite buildPayload_prefetching.
  destruct (gw _ _) as [e|st txt|d]; try done.
  by intros [= <- <-].
Qed.

(** A refill whose bulk request fails only raises the advisory error (if
    none is shown yet) and lowers [prefetching]. *)
Lemma prefetchWindow_failed gw c w s1 e :
  refill gw c w = Failed s1 e ->
  fst (prefetchWindow gw c w) = Ok tt /\
  sess (snd (prefetchWindow gw c w)) =
    set_prefetching false
      (set_error (if str_truthy (error s1) then error s1 else err_text e)
         (set_prefetching true s1)).
Proof.
  unfold refill, prefetchWindow, bulk_payload. cbv zeta.
  unfold bind, assign, try_finally, try_catch, this, callSearchApi.
  destruct (entry_cursor gw _ w) as [[cur|e'] w1]; [|done].
  simpl. rewrite buildPayload_prefetching.
  destruct (gw _ _) as [e'|st txt|d]; try done; by intros [= <- <-].
Qed.

(** A refill that rejects while resolving its entry cursor never reaches
    the [try]: nothing records the error. *)
Lemma prefetchWindow_aborted gw c w e :
  refill gw c w = Aborted e ->
  prefetchWindow gw c w =
    (Throw e, snd (entry_cursor gw (Z.max 1 (c - 2)) w)).
Proof.
  unfold refill, prefetchWindow. cbv zeta. unfold bind at 1.
  destruct (entry_cursor gw _ w) as [[cur|e'] w1].
  - destruct (gw _ _); done.
  - by intros [= ->].
Qed.

(** Resolving a cursor touches the two caches only. *)
Lemma entry_cursor_frame gw start w :
  same_frame (sess w) (sess (snd (entry_cursor gw start w))).
Proof.
  apply (preserves_entry_cursor (same_frame (sess w)));
    [|apply same_frame_refl].
  intros n items s Hs.
  eapply same_frame_trans; [exact Hs | apply backfill_loop_frame].
Qed.

Lemma refill_completed_frame gw c w s1 items :
  refill gw c w = Completed s1 items -> same_frame (sess w) s1.
Proof.
  unfold refill. pose proof (entry_cursor_frame gw (Z.max 1 (c - 2)) w) as H.
  destruct (entry_cursor gw _ w) as [[cur|e] w1]; [|done].
  destruct (gw _ _); try done. by intros [= <- _].
Qed.

Lemma refill_failed_frame gw c w s1 e :
  refill gw c w = Failed s1 e -> same_frame (sess w) s1.
Proof.
  unfold refill. pose proof (entry_cursor_frame gw (Z.max 1 (c - 2)) w) as H.
  destruct (entry_cursor gw _ w) as [[cur|e'] w1]; [|done].
  destruct (gw _ _); try done; by intros [= <- _].
Qed.

(** In every reachable state the page size is positive and the current
    page is at least 1: the side conditions of the statements about
    refills hold wherever the page can be. *)
Lemma reachable_sane gw evs : sane (sess (run gw evs world0)).
Proof.
  apply (invariant_run sane).
  1-3, 5-8: by intros ? s Hs.
  - intros o s [_ ?]. split; [|done]. destruct o; simpl; auto.
  - intros s [? _]. by split.
  - intros n items s [? ?].
    pose proof (backfill_loop_frame n 0 items s) as [].
    unfold sane. by rewrite sf_pageSize0, sf_currentPage0.
  - intros items s [? ?] _. by split.
  - intros p cached s [? _] Hp _. by split.
  - intros p items s [? _] Hp. by split.
  - intros c items s [? ?].
    destruct (apply_block_keeps (Z.max 1 (c - 2)) items s)
      as (Hc & _ & Hps & _).
    unfold sane. by rewrite Hc, Hps.
  - split; [by right; left | done].
Qed.

(** A completed refill leaves a window of at most five pages that starts
    at page 1 or later, whatever the state it started from. *)
Lemma completed_refill_window gw c w s1 items :
  refill gw c w = Completed s1 items ->
  window_ok (sess (snd (prefetchWindow gw c w))).
Proof.
  intros Hr. destruct (prefetchWindow_completed _ _ _ _ _ Hr) as [_ ->].
  apply (window_ok_apply_block c items (set_prefetching true s1)).
Qed.

(** ** The known last page *)

(** C2 (as amended).  A completed refill that produced fewer than five
    pages, or whose last window page holds fewer than [pageSize] items, sets
    [noMoreAfterPage] to its own [windowEnd], whatever value (smaller or
    larger) was there before; any other completed refill leaves
    [noMoreAfterPage] as it was. *)
Theorem refill_overwrites_noMoreAfterPage
    (gw : Gateway) (c : Z) (w : World) s1 items :
  refill gw c w = Completed s1 items ->
  let s' := sess (snd (prefetchWindow gw c w)) in
  noMoreAfterPage s' =
  if (windowEnd s' - windowStart s' + 1 <? 5)
     || (len (default [] (pageCache s' !! windowEnd s')) <? pageSize s')
  then Some (windowEnd s')
  else noMoreAfterPage (sess w).
Proof.
  intros Hr. cbv zeta.
  destruct (prefetchWindow_completed _ _ _ _ _ Hr) as [_ ->].
  pose proof (refill_completed_frame _ _ _ _ _ Hr) as [].
  pose proof (apply_block_noMore (Z.max 1 (c - 2)) items
                (set_prefetching true s1)) as H.
  cbv zeta in H. simpl in *. rewrite H.
  by rewrite sf_noMoreAfterPage0.
Qed.

Lemma refill_overwrites_noMoreAfterPage_witness :
  let w := run gw_grows [Submit] world0 in
  refill gw_grows 2 w = Completed (sess w) (items_from 0 30) /\
  noMoreAfterPage (sess (snd (prefetchWindow gw_grows 2 w))) = Some 3.
Proof.
  cbv zeta.
  assert (H : refill gw_grows 2 (run gw_grows [Submit] world0) =
              Completed (sess (run gw_grows [Submit] world0))
                        (items_from 0 30))
    by (vm_compute; reflexivity).
  split; [exact H|].
  rewrite (refill_overwrites_noMoreAfterPage gw_grows 2 _ _ _ H).
  vm_compute. reflexivity.
Defined.

(** C2, counterexample.  The first refill sees two pages and sets
    [noMoreAfterPage] to 2; the refill started by revisiting page 2
    completes with three pages and overwrites it with 3. *)
Lemma noMoreAfterPage_raised_by_later_refill :
  let w1 := run gw_grows [Submit] world0 in
  let wf := snd (show_page gw_grows 2 w1) in
  let w2 := run gw_grows [Submit; Navigate 2] world0 in
  noMoreAfterPage (sess w1) = Some 2 /\
  refill gw_grows 2 wf = Completed (sess wf) (items_from 0 30) /\
  w2 = snd (prefetchWindow gw_grows 2 wf) /\
  noMoreAfterPage (sess w2) = Some 3 /\
  error (sess w2) = "".
Proof. vm_compute. done. Qed.

(** After a completed refill, only the last page of the window can hold
    fewer than [pageSize] items. *)
Lemma short_page_is_windowEnd start items s p pg :
  0 < pageSize s ->
  let s' := apply_block start items s in
  windowStart s' <= p <= windowEnd s' ->
  pageCache s' !! p = Some pg ->
  len pg < pageSize s ->
  p = windowEnd s'.
Proof.
  intros Hps. cbv zeta. intros Hp Hpg Hshort.
  destruct (decide (items = [])) as [->|Hne].
  - destruct (apply_block_window start [] s) as [Hs He].
    rewrite Hs, He in Hp. rewrite He.
    assert (ceil_div (len (@nil ResultItem)) (pageSize s) = 0) as Hcd.
    { apply ceil_div_zero_iff; [done..|]. done. }
    rewrite Hcd in *. revert Hp. unfold maxPagesToShow_of. simpl. lia.
  - rewrite apply_block_cache in Hpg by done.
    rewrite bool_decide_eq_true_2 in Hpg by done.
    injection Hpg as <-.
    destruct (apply_block_window start items s) as [Hs He].
    rewrite Hs, He in Hp. rewrite He.
    set (cd := ceil_div (len items) (pageSize s)) in *.
    destruct (decide (p = start + maxPagesToShow_of cd - 1)) as [|Hneq];
      [done|exfalso].
    assert (Hlt : p - start + 1 < cd).
    { revert Hp Hneq. unfold maxPagesToShow_of. destruct (cd =? 0); lia. }
    apply ceil_div_gt in Hlt; [|done].
    assert (Hfull : len (chunk (pageSize s) items (p - start)) = pageSize s).
    { apply chunk_full; lia. }
    lia.
Qed.

(** C4 (as amended).  After a completed refill, a page of the resulting
    window that holds fewer than [pageSize] items is the last page of that
    window and [noMoreAfterPage] is set to its number; from that state
    [goToPage] to any greater page number is rejected without a request.
    (Pages fetched by [doSearch], by the single-page path of [goToPage] or
    by a backfill never set [noMoreAfterPage].) *)
Theorem short_window_page_sets_noMoreAfterPage
    (gw : Gateway) (c : Z) (w : World) s1 items (p : Z) pg :
  refill gw c w = Completed s1 items ->
  0 < pageSize (sess w) ->
  let w' := snd (prefetchWindow gw c w) in
  windowStart (sess w') <= p <= windowEnd (sess w') ->
  pageCache (sess w') !! p = Some pg ->
  len pg < pageSize (sess w') ->
  noMoreAfterPage (sess w') = Some p /\
  forall gw' q, p < q -> goToPage gw' q w' = (Ok tt, w').
Proof.
  intros Hr Hps. cbv zeta. intros Hp Hpg Hshort.
  assert (Hno : noMoreAfterPage (sess (snd (prefetchWindow gw c w))) = Some p).
  { revert Hp Hpg Hshort.
    destruct (prefetchWindow_completed _ _ _ _ _ Hr) as [_ ->].
    pose proof (refill_completed_frame _ _ _ _ _ Hr) as [].
    set (sp := set_prefetching true s1).
    change (windowStart (apply_block (Z.max 1 (c - 2)) items sp) <= p
            <= windowEnd (apply_block (Z.max 1 (c - 2)) items sp) ->
            pageCache (apply_block (Z.max 1 (c - 2)) items sp) !! p
              = Some pg ->
            len pg < pageSize (apply_block (Z.max 1 (c - 2)) items sp) ->
            noMoreAfterPage (apply_block (Z.max 1 (c - 2)) items sp)
              = Some p).
    intros Hp Hpg Hshort.
    assert (Hpsp : pageSize sp = pageSize s1) by done.
    destruct (apply_block_keeps (Z.max 1 (c - 2)) items sp)
      as (_ & _ & Hps' & _).
    assert (p = windowEnd (apply_block (Z.max 1 (c - 2)) items sp)) as Hpe.
    { eapply short_page_is_windowEnd; [lia|done..|lia]. }
    pose proof (apply_block_noMore (Z.max 1 (c - 2)) items sp) as Hn.
    cbv zeta in Hn. rewrite Hn, <- Hpe, Hpg. simpl.
    replace (len pg <? _) with true by (symmetry; apply Z.ltb_lt; lia).
    by rewrite orb_true_r. }
  split; [done|]. intros gw' q Hq.
  apply goToPage_guard. right. apply beyond_last_spec. eauto.
Qed.

Lemma short_window_page_sets_noMoreAfterPage_witness :
  let u := run gw_short [Submit] world0 in
  let u' := snd (prefetchWindow gw_short 1 u) in
  refill gw_short 1 u = Completed (sess u) (items_from 0 13) /\
  0 < pageSize (sess u) /\
  windowStart (sess u') <= 2 <= windowEnd (sess u') /\
  pageCache (sess u') !! 2 = Some (items_from 10 3) /\
  len (items_from 10 3) < pageSize (sess u') /\
  noMoreAfterPage (sess u') = Some 2 /\
  goToPage gw_short 3 u' = (Ok tt, u').
Proof.
  cbv zeta.
  set (u := run gw_short [Submit] world0).
  assert (H1 : refill gw_short 1 u = Completed (sess u) (items_from 0 13))
    by (vm_compute; reflexivity).
  assert (H2 : 0 < pageSize (sess u)) by (vm_compute; reflexivity).
  assert (H3 : windowStart (sess (snd (prefetchWindow gw_short 1 u))) <= 2
               <= windowEnd (sess (snd (prefetchWindow gw_short 1 u))))
    by (vm_compute; split; discriminate).
  assert (H4 : pageCache (sess (snd (prefetchWindow gw_short 1 u))) !! 2
               = Some (items_from 10 3)) by (vm_compute; reflexivity).
  assert (H5 : len (items_from 10 3)
               < pageSize (sess (snd (prefetchWindow gw_short 1 u))))
    by (vm_compute; reflexivity).
  destruct (short_window_page_sets_noMoreAfterPage
              gw_short 1 u _ _ 2 _ H1 H2 H3 H4 H5) as [Ha Hb].
  exact (conj H1 (conj H2 (conj H3 (conj H4 (conj H5
           (conj Ha (Hb gw_short 3 eq_refl))))))).
Defined.

(** C4, counterexample.  Page 6 is fetched by the single-page path of
    [goToPage] with 3 items for a page size of 10; the refill that follows
    fails, so [noMoreAfterPage] is still unset, and navigating on to page 7
    succeeds. *)
Lemma short_single_page_leaves_noMoreAfterPage_unset :
  let w6 := run gw_short_single [Submit; Navigate 6] world0 in
  let w7 := run gw_short_single [Navigate 7] w6 in
  pageSize (sess w6) = 10 /\
  pageCache (sess w6) !! 6 = Some (items_from 50 3) /\
  currentPage (sess w6) = 6 /\
  noMoreAfterPage (sess w6) = None /\
  currentPage (sess w7) = 7 /\
  is_Some (pageCache (sess w7) !! 7) /\
  length (sent w7) = (length (sent w6) + 2)%nat.
Proof. vm_compute. repeat split; eauto. Qed.

(** ** The current page and the window *)




(** ** Density of the window *)

(** After a completed refill whose bulk answer holds at least one item,
    every page number of the window has an entry in the page cache.  After
    a completed refill whose bulk answer is empty, the window is the single
    page [windowStart] and the page cache is the one the answer found: that
    page has an entry only if it was cached before. *)
Lemma window_dense_after_nonempty_refill
    (gw : Gateway) (c : Z) (w : World) s1 items :
  refill gw c w = Completed s1 items ->
  0 < pageSize (sess w) ->
  let s' := sess (snd (prefetchWindow gw c w)) in
  (items <> [] ->
   forall p, windowStart s' <= p <= windowEnd s' ->
             is_Some (pageCache s' !! p)) /\
  (items = [] ->
   windowEnd s' = windowStart s' /\ pageCache s' = pageCache s1).
Proof.
  intros Hr Hps. cbv zeta.
  destruct (prefetchWindow_completed _ _ _ _ _ Hr) as [_ ->].
  pose proof (refill_completed_frame _ _ _ _ _ Hr) as [].
  set (sp := set_prefetching true s1).
  assert (Hpsp : 0 < pageSize sp) by (subst sp; simpl; lia).
  split.
  - intros Hne p Hp. simpl in *.
    rewrite apply_block_cache by done.
    rewrite bool_decide_eq_true_2 by done. eauto.
  - intros ->. simpl. rewrite apply_block_cache_nil.
    destruct (apply_block_window (Z.max 1 (c - 2)) [] sp) as [-> ->].
    split; [|done].
    assert (ceil_div (len (@nil ResultItem)) (pageSize sp) = 0) as ->.
    { by apply ceil_div_zero_iff. }
    unfold maxPagesToShow_of. simpl. lia.
Qed.

Lemma window_dense_after_nonempty_refill_witness :
  let w := run gw_short [Submit] world0 in
  let s' := sess (snd (prefetchWindow gw_short 1 w)) in
  refill gw_short 1 w = Completed (sess w) (items_from 0 13) /\
  0 < pageSize (sess w) /\
  items_from 0 13 <> [] /\
  windowStart s' <= 2 <= windowEnd s' /\
  is_Some (pageCache s' !! 2).
Proof.
  cbv zeta.
  set (w := run gw_short [Submit] world0).
  assert (H1 : refill gw_short 1 w = Completed (sess w) (items_from 0 13))
    by (vm_compute; reflexivity).
  assert (H2 : 0 < pageSize (sess w)) by (vm_compute; reflexivity).
  assert (H3 : items_from 0 13 <> []) by discriminate.
  assert (H4 : windowStart (sess (snd (prefetchWindow gw_short 1 w))) <= 2
               <= windowEnd (sess (snd (prefetchWindow gw_short 1 w))))
    by (vm_compute; split; discriminate).
  destruct (window_dense_after_nonempty_refill gw_short 1 w _ _ H1 H2)
    as [Hdense _].
  exact (conj H1 (conj H2 (conj H3 (conj H4 (Hdense H3 2 H4))))).
Defined.

(** A direct call [goToPage 4] after a one-page search, which no button of
    the pager makes in that state: the refill around page 4 completes with
    an empty bulk answer, the window becomes page 2 alone, and page 2 has
    no entry in the page cache. *)
Lemma window_gap_after_empty_refill :
  let w1 := run gw_ten [Submit] world0 in
  let wf := snd (show_page gw_ten 4 w1) in
  let w := run gw_ten [Submit; Navigate 4] world0 in
  refill gw_ten 4 wf = Completed (sess wf) [] /\
  w = snd (prefetchWindow gw_ten 4 wf) /\
  windowStart (sess w) = 2 /\
  windowEnd (sess w) = 2 /\
  pageCache (sess w) !! 2 = None.
Proof. vm_compute. done. Qed.

(** ** What a backfill writes *)

Lemma cursor_at_put_cursor p c s q :
  cursor_at (put_cursor p c s) q = if decide (q = p) then c else cursor_at s q.
Proof.
  unfold cursor_at, put_cursor. simpl. destruct (decide (q = p)) as [->|].
  - by rewrite lookup_insert_eq.
  - by rewrite lookup_insert_ne.
Qed.

Lemma fill_missing_cache p slice s q :
  pageCache (fill_missing p slice s) !! q =
  if decide (q = p) then Some (keep_or (pageCache s !! p) slice)
  else pageCache s !! q.
Proof.
  unfold fill_missing.
  assert (Hc : forall s1, pageCache
            match cursor_at s1 p with
            | Some _ => s1
            | None => put_cursor p (getEndCursorFromResults slice) s1
            end = pageCache s1).
  { intros s1. by destruct (cursor_at s1 p). }
  rewrite Hc. destruct (decide (q = p)) as [->|Hq].
  - destruct (pageCache s !! p) eqn:E; simpl; [done|].
    by rewrite lookup_insert_eq.
  - destruct (pageCache s !! p) eqn:E; simpl; [done|].
    by rewrite lookup_insert_ne.
Qed.

Lemma fill_missing_cursor p slice s q :
  cursor_at (fill_missing p slice s) q =
  if decide (q = p)
  then match cursor_at s p with
       | Some c => Some c
       | None => getEndCursorFromResults slice
       end
  else cursor_at s q.
Proof.
  unfold fill_missing.
  set (s1 := match pageCache s !! p with
             | Some _ => s
             | None => put_page p slice s
             end).
  assert (Hs1 : forall r, cursor_at s1 r = cursor_at s r).
  { intros r. subst s1. by destruct (pageCache s !! p). }
  destruct (cursor_at s1 p) as [c|] eqn:E.
  - rewrite Hs1 in *. destruct (decide (q = p)) as [->|]; [|done].
    by rewrite E.
  - rewrite cursor_at_put_cursor, !Hs1 in *.
    destruct (decide (q = p)) as [->|]; [|done]. by rewrite E.
Qed.

Lemma backfill_loop_lookup ps items n :
  0 < ps ->
  forall i s,
    pageSize s = ps -> 0 <= i ->
    (forall j, i <= j < i + Z.of_nat n -> j * ps < len items) ->
    forall q,
      pageCache (backfill_loop n i items s) !! q =
        (if bool_decide (i + 1 <= q <= i + Z.of_nat n)
         then Some (keep_or (pageCache s !! q) (chunk ps items (q - 1)))
         else pageCache s !! q) /\
      cursor_at (backfill_loop n i items s) q =
        (if bool_decide (i + 1 <= q <= i + Z.of_nat n)
         then match cursor_at s q with
              | Some c => Some c
              | None => getEndCursorFromResults (chunk ps items (q - 1))
              end
         else cursor_at s q).
Proof.
  intros Hps. induction n as [|n IH]; intros i s Hs Hi Hne q.
  { simpl. rewrite bool_decide_eq_false_2 by lia. done. }
  cbn [backfill_loop]. rewrite Hs.
  change (js_slice items (i * ps) ((i + 1) * ps)) with (chunk ps items i).
  assert (Hc : chunk ps items i <> []).
  { apply chunk_nonempty; [done..|]. apply Hne. lia. }
  destruct (chunk ps items i) as [|x sl] eqn:Hch; [done|].
  rewrite <- Hch.
  assert (Hs' : pageSize (fill_missing (i + 1) (chunk ps items i) s) = ps).
  { by rewrite (sf_pageSize _ _ (fill_missing_frame _ _ _)). }
  destruct (IH (i + 1) _ Hs' ltac:(lia)
              ltac:(intros j Hj; apply Hne; lia) q) as [-> ->].
  rewrite !fill_missing_cache, !fill_missing_cursor.
  destruct (decide (q = i + 1)) as [->|Hq].
  - rewrite bool_decide_eq_false_2 by lia.
    rewrite bool_decide_eq_true_2 by lia.
    replace (i + 1 - 1) with i by lia. done.
  - destruct (bool_decide (i + 1 + 1 <= q <= _)) eqn:E.
    + apply bool_decide_eq_true_1 in E.
      by rewrite bool_decide_eq_true_2 by lia.
    + apply bool_decide_eq_false_1 in E.
      by rewrite bool_decide_eq_false_2 by lia.
Qed.

(** Cached pages survive a backfill. *)
Lemma backfill_loop_keeps_pages n i items s q v :
  pageCache s !! q = Some v ->
  pageCache (backfill_loop n i items s) !! q = Some v.
Proof.
  revert i s. induction n as [|n IH]; intros i s Hq; simpl; [done|].
  destruct (js_slice _ _ _) as [|x sl] eqn:E; [done|].
  apply IH. rewrite fill_missing_cache.
  destruct (decide (q = i + 1)) as [->|]; [|done].
  by rewrite Hq.
Qed.

Lemma getEndCursorFromResults_nonempty items :
  items <> [] -> is_Some (getEndCursorFromResults items).
Proof.
  intros H. unfold getEndCursorFromResults.
  destruct (last items) eqn:E; [eauto|].
  by apply last_None in E.
Qed.

Lemma buildPayload_frame s s' size cur :
  same_frame s s' -> buildPayload s' size cur = buildPayload s size cur.
Proof.
  intros H. unfold buildPayload.
  by rewrite (sf_query _ _ H), (sf_usePrf _ _ H), (sf_lang _ _ H).
Qed.

Lemma ensureCursorForPageEnd_backfill gw w m d :
  0 < m ->
  cursor_at (sess w) m = None ->
  let req := buildPayload (sess w) (m * pageSize (sess w)) None in
  gw (length (sent w)) req = Json d ->
  let s1 := backfilled (default [] (d_results d)) (sess w) in
  ensureCursorForPageEnd gw m w =
    (Ok (cursor_at s1 m), {| sess := s1; sent := sent w ++ [req] |}).
Proof.
  intros Hm Hcur req Hgw s1. unfold ensureCursorForPageEnd.
  rewrite (proj2 (Z.leb_gt m 0)) by done.
  unfold bind, this, callSearchApi, assign, ret. rewrite Hcur.
  fold req. rewrite Hgw. done.
Qed.

Lemma backfilled_lookup items s q :
  0 < pageSize s ->
  1 <= q -> (q - 1) * pageSize s < len items ->
  pageCache (backfilled items s) !! q =
    Some (keep_or (pageCache s !! q) (chunk (pageSize s) items (q - 1))) /\
  cursor_at (backfilled items s) q =
    match cursor_at s q with
    | Some c => Some c
    | None => getEndCursorFromResults (chunk (pageSize s) items (q - 1))
    end.
Proof.
  intros Hps Hq Hlen. unfold backfilled.
  set (cd := ceil_div (len items) (pageSize s)).
  assert (Hcd : q - 1 < cd) by (by apply ceil_div_gt).
  destruct (backfill_loop_lookup (pageSize s) items (Z.to_nat cd) Hps 0 s
              eq_refl ltac:(lia)
              ltac:(intros j Hj; apply ceil_div_gt; [done|lia]) q)
    as [-> ->].
  by rewrite bool_decide_eq_true_2 by lia.
Qed.

(** ** Jumping to an uncached page *)

(** C6 (as amended).  [goToPage p] for an uncached page [p > 1] that is not
    beyond the known last page and whose predecessor has no cached
    end-cursor, when both requests succeed and the first answer holds more
    than [(p - 2) * pageSize] items: the first request asks for
    [(p - 1) * pageSize] items with a null cursor; its answer is cut into
    chunks of [pageSize] that fill the missing cache entries and end-cursors
    of pages 1 to [p - 1] (entries already cached are kept); the second
    request asks for [pageSize] items behind the end-cursor of page
    [p - 1]; its answer is cached as page [p], shown, and [currentPage]
    becomes [p].  Then the refill around [p] is started. *)
Theorem goToPage_backfill_then_fetch
    (gw : Gateway) (w : World) (p : Z) (d1 d2 : Data) :
  let s := sess w in
  let ps := pageSize s in
  1 < p -> 0 < ps ->
  beyond_last s p = false ->
  pageCache s !! p = None ->
  cursor_at s (p - 1) = None ->
  let req1 := buildPayload s ((p - 1) * ps) None in
  gw (length (sent w)) req1 = Json d1 ->
  let items1 := default [] (d_results d1) in
  (p - 2) * ps < len items1 ->
  let cur := getEndCursorFromResults (chunk ps items1 (p - 2)) in
  let req2 := buildPayload s ps cur in
  gw (S (length (sent w))) req2 = Json d2 ->
  let items2 := default [] (d_results d2) in
  let w' := snd (show_page gw p w) in
  snd (goToPage gw p w) = snd (prefetchWindow gw p w') /\
  sent w' = sent w ++ [req1; req2] /\
  is_Some cur /\
  (forall q, 1 <= q <= p - 1 ->
     pageCache (sess w') !! q =
       Some (keep_or (pageCache s !! q) (chunk ps items1 (q - 1))) /\
     is_Some (cursor_at (sess w') q)) /\
  cursor_at (sess w') (p - 1) = cur /\
  pageCache (sess w') !! p = Some items2 /\
  cursor_at (sess w') p = getEndCursorFromResults items2 /\
  currentPage (sess w') = p /\
  results (sess w') = items2.
Proof.
  intros s ps Hp Hps Hlast Hmiss Hcur req1 Hgw1 items1 Hlen cur req2 Hgw2
         items2 w'.
  set (sl := set_loading true s).
  set (s1 := backfilled items1 sl).
  assert (Hps1 : pageSize sl = ps) by done.
  assert (Hf1 : same_frame sl s1) by apply backfill_loop_frame.
  assert (Hcur1 : cursor_at s1 (p - 1) = cur).
  { unfold s1. destruct (backfilled_lookup items1 sl (p - 1)) as [_ ->].
    - lia.
    - lia.
    - rewrite Hps1. replace (p - 1 - 1) with (p - 2) by lia. done.
    - change (cursor_at sl (p - 1)) with (cursor_at s (p - 1)).
      rewrite Hcur, Hps1. by replace (p - 1 - 1) with (p - 2) by lia. }
  assert (Hw' : w' = {| sess := set_loading false (apply_page p items2 s1);
                        sent := (sent w ++ [req1]) ++ [req2] |}).
  { subst w'. unfold show_page, bind at 1, this at 1. fold s. rewrite Hmiss.
    unfold bind at 1, assign at 1, try_finally, try_catch.
    unfold bind at 1, entry_cursor.
    rewrite (proj2 (Z.eqb_neq p 1)) by lia.
    change (set_loading true (sess w)) with sl.
    pose proof (ensureCursorForPageEnd_backfill gw
                  {| sess := sl; sent := sent w |} (p - 1) d1
                  ltac:(lia) Hcur Hgw1) as He.
    cbn [sess sent] in He. fold items1 in He. fold s1 in He.
    rewrite He, Hcur1.
    unfold bind, this, callSearchApi, assign. cbn [sess sent fst snd].
    rewrite length_app, Nat.add_1_r.
    rewrite (sf_pageSize _ _ Hf1), (buildPayload_frame _ _ _ _ Hf1).
    change (buildPayload sl (pageSize sl) cur) with req2.
    change (buildPayload sl ((p - 1) * pageSize sl) None) with req1.
    cbn [length]. rewrite Hgw2. done. }
  assert (Hcp : currentPage (sess w') = p) by (by rewrite Hw').
  split.
  { unfold goToPage, bind at 1, this at 1. fold s.
    rewrite (proj2 (Z.ltb_ge p 1)) by lia. rewrite Hlast.
    unfold bind at 1. fold w'.
    destruct (show_page gw p w) as [[[]|e] w2] eqn:Hsp; simpl in w'; subst w'.
    - unfold bind, this, detached. simpl. by rewrite Hcp.
    - exfalso. revert Hsp. unfold show_page, bind at 1, this at 1. fold s.
      rewrite Hmiss. unfold bind at 1, assign at 1, try_finally, try_catch.
      by destruct (bind _ _ _) as [[?|?] ?]. }
  rewrite Hw'. cbn [sess sent].
  split; [by rewrite <- app_assoc|].
  assert (Hsome : is_Some cur).
  { apply getEndCursorFromResults_nonempty, chunk_nonempty; lia. }
  split; [done|].
  assert (Hlook : forall q, q <> p ->
    pageCache (apply_page p items2 s1) !! q = pageCache s1 !! q /\
    cursor_at (apply_page p items2 s1) q = cursor_at s1 q).
  { intros q Hq. unfold apply_page, cursor_at. simpl.
    by rewrite !lookup_insert_ne by done. }
  split.
  { intros q Hq. destruct (Hlook q ltac:(lia)) as [Hl1 Hl2].
    change (pageCache (set_loading false (apply_page p items2 s1)) !! q)
      with (pageCache (apply_page p items2 s1) !! q).
    change (cursor_at (set_loading false (apply_page p items2 s1)) q)
      with (cursor_at (apply_page p items2 s1) q).
    rewrite Hl1, Hl2.
    destruct (backfilled_lookup items1 sl q) as [Hb1 Hb2].
    - lia.
    - lia.
    - rewrite Hps1. nia.
    - fold s1 in Hb1, Hb2. rewrite Hb1, Hb2, Hps1. split; [done|].
      destruct (cursor_at sl q); [eauto|].
      apply getEndCursorFromResults_nonempty, chunk_nonempty; [lia..|nia]. }
  split.
  { change (cursor_at (set_loading false (apply_page p items2 s1)) (p - 1))
      with (cursor_at (apply_page p items2 s1) (p - 1)).
    destruct (Hlook (p - 1) ltac:(lia)) as [_ ->]. done. }
  split.
  { unfold apply_page. simpl. by rewrite lookup_insert_eq. }
  split; [|done].
  unfold cursor_at, apply_page. simpl. by rewrite lookup_insert_eq.
Qed.

Lemma goToPage_backfill_then_fetch_witness :
  let w := run gw_jump [Submit] world0 in
  let s := sess w in
  let w' := snd (show_page gw_jump 4 w) in
  (1 < 4 /\ 0 < pageSize s /\ beyond_last s 4 = false /\
   pageCache s !! 4 = None /\ cursor_at s (4 - 1) = None /\
   gw_jump (length (sent w)) (buildPayload s ((4 - 1) * pageSize s) None) =
     answer (items_from 0 30) /\
   (4 - 2) * pageSize s < len (items_from 0 30)) /\
  sent w' =
    sent w ++
    [buildPayload s 30 None;
     buildPayload s 10 (getEndCursorFromResults (items_from 20 10))] /\
  pageCache (sess w') !! 4 = Some (items_from 30 10) /\
  currentPage (sess w') = 4.
Proof.
  cbv zeta.
  set (w := run gw_jump [Submit] world0).
  set (d1 := {| d_results := Some (items_from 0 30);
                d_total_hits := 0; d_took_ms := 0 |}).
  set (d2 := {| d_results := Some (items_from 30 10);
                d_total_hits := 0; d_took_ms := 0 |}).
  assert (H1 : 1 < 4) by reflexivity.
  assert (H2 : 0 < pageSize (sess w)) by (vm_compute; reflexivity).
  assert (H3 : beyond_last (sess w) 4 = false) by (vm_compute; reflexivity).
  assert (H4 : pageCache (sess w) !! 4 = None) by (vm_compute; reflexivity).
  assert (H5 : cursor_at (sess w) (4 - 1) = None)
    by (vm_compute; reflexivity).
  assert (H6 : gw_jump (length (sent w))
                 (buildPayload (sess w) ((4 - 1) * pageSize (sess w)) None)
               = Json d1) by (vm_compute; reflexivity).
  assert (H7 : (4 - 2) * pageSize (sess w)
               < len (default [] (d_results d1)))
    by (vm_compute; reflexivity).
  assert (H8 : gw_jump (S (length (sent w)))
                 (buildPayload (sess w) (pageSize (sess w))
                    (getEndCursorFromResults
                       (chunk (pageSize (sess w))
                          (default [] (d_results d1)) (4 - 2))))
               = Json d2) by (vm_compute; reflexivity).
  destruct (goToPage_backfill_then_fetch gw_jump w 4 d1 d2
              H1 H2 H3 H4 H5 H6 H7 H8)
    as (_ & Hsent & _ & _ & _ & Hpage & _ & Hcp & _).
  refine (conj (conj H1 (conj H2 (conj H3 (conj H4 (conj H5 (conj H6 H7))))))
            (conj _ (conj Hpage Hcp))).
  rewrite Hsent. vm_compute. reflexivity.
Defined.

(** C6, counterexample.  Three navigations to an uncached page whose
    predecessor has no cached end-cursor that do not run the procedure:
    (a) on a ten-item stream the backfill for page 4 fills nothing beyond
    page 1, page 3 has no end-cursor, and the single page is requested with
    a null cursor and cached as page 4; (b) beyond the known last page the
    call returns at once; (c) a refused backfill request ends the call
    with an error and an unchanged current page. *)
Lemma jump_without_backfill_procedure :
  (let w := run gw_ten [Submit] world0 in
   let w' := snd (show_page gw_ten 4 w) in
   pageCache (sess w) !! 4 = None /\
   cursor_at (sess w) 3 = None /\
   beyond_last (sess w) 4 = false /\
   sent w' = sent w ++ [buildPayload (sess w) 30 None;
                        buildPayload (sess w) 10 None] /\
   pageCache (sess w') !! 2 = None /\
   pageCache (sess w') !! 3 = None /\
   cursor_at (sess w') 3 = None /\
   pageCache (sess w') !! 4 = Some (items_from 0 10) /\
   currentPage (sess w') = 4) /\
  (let v := run gw_grows [Submit] world0 in
   pageCache (sess v) !! 5 = None /\
   cursor_at (sess v) 4 = None /\
   noMoreAfterPage (sess v) = Some 2 /\
   goToPage gw_grows 5 v = (Ok tt, v)) /\
  (let gw := scripted [answer (items_from 0 10); refused; refused] in
   let u := run gw [Submit] world0 in
   let u' := snd (show_page gw 4 u) in
   pageCache (sess u) !! 4 = None /\
   cursor_at (sess u) 3 = None /\
   sent u' = sent u ++ [buildPayload (sess u) 30 None] /\
   pageCache (sess u') !! 4 = None /\
   currentPage (sess u') = 1).
Proof. vm_compute. done. Qed.

(** ** No validation of the cursor order *)

Lemma show_page_fetched gw w p cur w1 d :
  pageCache (sess w) !! p = None ->
  entry_cursor gw p {| sess := set_loading true (sess w); sent := sent w |}
    = (Ok cur, w1) ->
  gw (length (sent w1)) (buildPayload (sess w1) (pageSize (sess w1)) cur)
    = Json d ->
  show_page gw p w =
    (Ok tt,
     {| sess := set_loading false
                  (apply_page p (default [] (d_results d)) (sess w1));
        sent := sent w1 ++
                [buildPayload (sess w1) (pageSize (sess w1)) cur] |}).
Proof.
  intros Hmiss Hcur Hgw.
  unfold show_page, bind at 1, this at 1. rewrite Hmiss.
  unfold bind at 1, assign at 1, try_finally, try_catch.
  unfold bind at 1. rewrite Hcur.
  unfold bind, this, callSearchApi, assign. cbn [sess sent fst snd].
  rewrite Hgw. done.
Qed.

(** C7 (as amended).  The client does not check answers against the
    cursor.  Whatever items a successful answer holds, and whatever their
    order relative to the cursor that was sent: [goToPage] caches a
    single-page answer unchanged as page [p], derives the end-cursor of
    [p] from it, shows it, and raises no error; [prefetchWindow] caches a
    non-empty bulk answer chunk by chunk as the pages of the new window
    and raises no error. *)
Theorem answers_cached_unchecked (gw : Gateway) (w : World) :
  (forall p cur w1 d,
     pageCache (sess w) !! p = None ->
     entry_cursor gw p
       {| sess := set_loading true (sess w); sent := sent w |}
       = (Ok cur, w1) ->
     gw (length (sent w1))
        (buildPayload (sess w1) (pageSize (sess w1)) cur) = Json d ->
     let items := default [] (d_results d) in
     let w' := snd (show_page gw p w) in
     fst (show_page gw p w) = Ok tt /\
     pageCache (sess w') !! p = Some items /\
     cursor_at (sess w') p = getEndCursorFromResults items /\
     results (sess w') = items /\
     currentPage (sess w') = p /\
     error (sess w') = error (sess w)) /\
  (forall c s1 items,
     refill gw c w = Completed s1 items ->
     0 < pageSize (sess w) ->
     items <> [] ->
     let s' := sess (snd (prefetchWindow gw c w)) in
     fst (prefetchWindow gw c w) = Ok tt /\
     (forall q, windowStart s' <= q <= windowEnd s' ->
        pageCache s' !! q =
          Some (chunk (pageSize (sess w)) items (q - windowStart s'))) /\
     error s' = error (sess w)).
Proof.
  split.
  - intros p cur w1 d Hmiss Hcur Hgw. cbv zeta.
    rewrite (show_page_fetched _ _ _ _ _ _ Hmiss Hcur Hgw).
    cbn [fst snd sess].
    pose proof (entry_cursor_frame gw p
                  {| sess := set_loading true (sess w); sent := sent w |})
      as Hf.
    rewrite Hcur in Hf. cbn [snd sess] in Hf.
    split; [done|].
    split; [unfold apply_page; simpl; by rewrite lookup_insert_eq|].
    split; [unfold cursor_at, apply_page; simpl;
            by rewrite lookup_insert_eq|].
    split; [done|]. split; [done|].
    change (error (sess w1) = error (set_loading true (sess w))).
    apply (sf_error _ _ Hf).
  - intros c s1 items Hr Hps Hne. cbv zeta.
    destruct (prefetchWindow_completed _ _ _ _ _ Hr) as [-> ->].
    pose proof (refill_completed_frame _ _ _ _ _ Hr) as [].
    set (sp := set_prefetching true s1).
    assert (Hpsp : pageSize sp = pageSize (sess w)) by done.
    assert (Hsp0 : 0 < pageSize sp) by (by rewrite Hpsp).
    split; [done|]. split.
    + intros q Hq.
      change (pageCache (set_prefetching false
                (apply_block (Z.max 1 (c - 2)) items sp)) !! q)
        with (pageCache (apply_block (Z.max 1 (c - 2)) items sp) !! q).
      rewrite (apply_block_cache _ _ _ _ Hsp0 Hne).
      rewrite bool_decide_eq_true_2 by exact Hq.
      destruct (apply_block_window (Z.max 1 (c - 2)) items sp) as [Hws _].
      change (windowStart (set_prefetching false
                (apply_block (Z.max 1 (c - 2)) items sp)))
        with (windowStart (apply_block (Z.max 1 (c - 2)) items sp)).
      by rewrite Hws, Hpsp.
    + simpl. destruct (apply_block_keeps (Z.max 1 (c - 2)) items sp)
        as (_ & _ & _ & ->). done.
Qed.

Lemma answers_cached_unchecked_witness :
  let w := run gw_replay [Submit] world0 in
  let c5 := getEndCursorFromResults (items_from 40 10) in
  let w1 := {| sess := set_loading true (sess w); sent := sent w |} in
  let w' := snd (show_page gw_replay 6 w) in
  let s'' := sess (snd (prefetchWindow gw_replay 6 w')) in
  (pageCache (sess w) !! 6 = None /\
   entry_cursor gw_replay 6 w1 = (Ok c5, w1) /\
   gw_replay (length (sent w1))
     (buildPayload (sess w1) (pageSize (sess w1)) c5)
     = answer (items_from 0 10) /\
   honours c5 (items_from 0 10) = false /\
   pageCache (sess w') !! 6 = Some (items_from 0 10) /\
   error (sess w') = "") /\
  (refill gw_replay 6 w' = Completed (sess w') (items_from 0 30) /\
   0 < pageSize (sess w') /\
   items_from 0 30 <> [] /\
   windowStart s'' <= 4 <= windowEnd s'' /\
   pageCache s'' !! 4 = Some (items_from 0 10) /\
   error s'' = "").
Proof.
  cbv zeta.
  set (w := run gw_replay [Submit] world0).
  set (c5 := getEndCursorFromResults (items_from 40 10)).
  set (w1 := {| sess := set_loading true (sess w); sent := sent w |}).
  set (w' := snd (show_page gw_replay 6 w)).
  assert (H1 : pageCache (sess w) !! 6 = None) by (vm_compute; reflexivity).
  assert (H2 : entry_cursor gw_replay 6 w1 = (Ok c5, w1))
    by (vm_compute; reflexivity).
  assert (H3 : gw_replay (length (sent w1))
                 (buildPayload (sess w1) (pageSize (sess w1)) c5)
               = Json {| d_results := Some (items_from 0 10);
                         d_total_hits := 0; d_took_ms := 0 |})
    by (vm_compute; reflexivity).
  assert (H4 : honours c5 (items_from 0 10) = false)
    by (vm_compute; reflexivity).
  assert (H5 : error (sess w) = "") by (vm_compute; reflexivity).
  destruct (proj1 (answers_cached_unchecked gw_replay w) 6 c5 w1 _
              H1 H2 H3) as (_ & Hpage & _ & _ & _ & Herr).
  assert (R1 : refill gw_replay 6 w' = Completed (sess w') (items_from 0 30))
    by (vm_compute; reflexivity).
  assert (R2 : 0 < pageSize (sess w')) by (vm_compute; reflexivity).
  assert (R3 : items_from 0 30 <> []) by discriminate.
  assert (R4 : windowStart (sess (snd (prefetchWindow gw_replay 6 w'))) <= 4
               <= windowEnd (sess (snd (prefetchWindow gw_replay 6 w'))))
    by (vm_compute; split; discriminate).
  assert (R5 : error (sess w') = "") by (vm_compute; reflexivity).
  destruct (proj2 (answers_cached_unchecked gw_replay w') 6 _ _ R1 R2 R3)
    as (_ & Hchunks & Herr').
  refine (conj (conj H1 (conj H2 (conj H3 (conj H4
                  (conj Hpage (eq_trans Herr H5))))))
               (conj R1 (conj R2 (conj R3 (conj R4
                  (conj _ (eq_trans Herr' R5))))))).
  rewrite (Hchunks 4 R4). vm_compute. reflexivity.
Defined.

(** C7, counterexample.  Page 6 is requested behind the end-cursor of page
    5 and answered with the first ten items of the stream, none of which
    follows that cursor; they are cached as page 6 and no error is shown.
    The refill around page 6, asked behind the end-cursor of page 3, is
    answered with the first thirty items; they are cached as pages 4 to 6,
    again without an error. *)
Lemma cursor_violation_cached_silently :
  let w := run gw_replay [Submit] world0 in
  let wf := snd (show_page gw_replay 6 w) in
  let wr := run gw_replay [Submit; Navigate 6] world0 in
  let c5 := getEndCursorFromResults (items_from 40 10) in
  let c3 := getEndCursorFromResults (items_from 20 10) in
  (cursor_at (sess w) 5 = c5 /\
   last (sent wf) = Some (buildPayload (sess w) 10 c5) /\
   honours c5 (items_from 0 10) = false) /\
  (fst (show_page gw_replay 6 w) = Ok tt /\
   pageCache (sess wf) !! 6 = Some (items_from 0 10) /\
   error (sess wf) = "") /\
  (cursor_at (sess w) 3 = c3 /\
   last (sent wr) = Some (buildPayload (sess w) 50 c3) /\
   honours c3 (items_from 0 30) = false) /\
  (pageCache (sess wr) !! 4 = Some (items_from 0 10) /\
   pageCache (sess wr) !! 6 = Some (items_from 20 10) /\
   error (sess wr) = "").
Proof.
  cbv zeta.
  refine (conj (conj _ (conj _ _)) (conj (conj _ (conj _ _))
            (conj (conj _ (conj _ _)) (conj _ (conj _ _)))));
    vm_compute; reflexivity.
Qed.

(** ** Failed refills *)

Lemma entry_cursor_keeps_pages gw start w q v :
  pageCache (sess w) !! q = Some v ->
  pageCache (sess (snd (entry_cursor gw start w))) !! q = Some v.
Proof.
  apply (preserves_entry_cursor (fun s => pageCache s !! q = Some v)).
  intros n items s. apply backfill_loop_keeps_pages.
Qed.

(** The error that [callSearchApi] throws on a non-OK status is never the
    empty string. *)
Lemma err_text_search_failed (status : N) (txt : string) :
  str_truthy
    (err_text
       (new_Error ("Search failed (" +:+ pretty status +:+ "): " +:+ txt)))
  = true.
Proof. done. Qed.

(** A refill whose bulk request fails keeps the current page, the shown
    results, the window, the known last page and every cached page, and
    leaves an error on display: the one already shown, or else its own. *)
Lemma failed_refill_keeps_page gw c w s1 e :
  refill gw c w = Failed s1 e ->
  let s' := sess (snd (prefetchWindow gw c w)) in
  currentPage s' = currentPage (sess w) /\
  results s' = results (sess w) /\
  windowStart s' = windowStart (sess w) /\
  windowEnd s' = windowEnd (sess w) /\
  noMoreAfterPage s' = noMoreAfterPage (sess w) /\
  (forall q v, pageCache (sess w) !! q = Some v ->
               pageCache s' !! q = Some v) /\
  error s' = (if str_truthy (error (sess w)) then error (sess w)
              else err_text e).
Proof.
  intros Hr. cbv zeta.
  destruct (prefetchWindow_failed _ _ _ _ _ Hr) as [_ ->].
  pose proof (refill_failed_frame _ _ _ _ _ Hr) as [].
  simpl. repeat (split; [done|]). split.
  - intros q v Hq. revert Hr. unfold refill.
    pose proof (entry_cursor_keeps_pages gw (Z.max 1 (c - 2)) w q v Hq) as H.
    destruct (entry_cursor gw _ w) as [[cur|e'] w1]; [|done].
    destruct (gw _ _); try done; by intros [= <- _].
  - by rewrite sf_error0.
Qed.

(** A refill that fails while resolving its entry cursor records nothing:
    the error on display is the one that was there before. *)
Lemma aborted_refill_records_nothing gw c w e :
  refill gw c w = Aborted e ->
  fst (prefetchWindow gw c w) = Throw e /\
  error (sess (snd (prefetchWindow gw c w))) = error (sess w).
Proof.
  intros Hr. rewrite (prefetchWindow_aborted _ _ _ _ Hr).
  split; [done|]. cbn [snd].
  apply (sf_error _ _ (entry_cursor_frame gw (Z.max 1 (c - 2)) w)).
Qed.

(** C1, the failing input.  The background refill started by
    [goToPage 9] fails in its backfill request, which is awaited before
    the [try] of [prefetchWindow]: the call rejects, the session is left
    exactly as it was and [error] stays empty, so no notice is shown. *)
Theorem refill_backfill_failure_unreported :
  let w := snd (show_page gw_silent 9 (run gw_silent [Submit] world0)) in
  let w' := snd (prefetchWindow gw_silent 9 w) in
  error (sess w) = "" /\
  currentPage (sess w) = 9 /\
  refill gw_silent 9 w = Aborted refused_exn /\
  fst (prefetchWindow gw_silent 9 w) = Throw refused_exn /\
  sess w' = sess w /\
  sent w' = sent w ++ [buildPayload (sess w) 60 None] /\
  w' = run gw_silent [Submit; Navigate 9] world0 /\
  error (sess w') = "".
Proof.
  cbv zeta.
  refine (conj _ (conj _ (conj _ (conj _ (conj _ (conj _ (conj _ _)))))));
    vm_compute; reflexivity.
Qed.

(** * Further properties of the component *)

(** ** Slicing an answer into pages *)

Lemma chunk_take_drop ps (items : list ResultItem) (i : nat) :
  0 < ps ->
  chunk ps items (Z.of_nat i) =
  take (Z.to_nat ps) (drop (i * Z.to_nat ps) items).
Proof.
  intros Hps. unfold chunk, js_slice.
  replace ((Z.of_nat i + 1) * ps - Z.of_nat i * ps) with ps by ring.
  f_equal. f_equal. nia.
Qed.

(** The first [k] chunks, put end to end, are the first [k * ps] items. *)
Lemma concat_chunks ps (items : list ResultItem) (k : nat) :
  0 < ps ->
  concat ((fun j => chunk ps items (Z.of_nat j)) <$> seq 0 k)
  = take (k * Z.to_nat ps) items.
Proof.
  intros Hps. induction k as [|k IH]; [done|].
  rewrite seq_S, fmap_app, concat_app, IH. simpl.
  rewrite app_nil_r, chunk_take_drop by done.
  rewrite take_take_drop. f_equal. lia.
Qed.

(** X1.  Slicing keeps the resumption points: the end-cursor derived from
    the chunk of page [i + 1] of an answer is the end-cursor of the first
    [(i + 1) * ps] items of that answer, for every chunk that is not
    empty. *)
Theorem chunk_end_cursor_is_prefix_end_cursor
    (ps : Z) (items : list ResultItem) (i : nat) :
  0 < ps ->
  Z.of_nat i * ps < len items ->
  getEndCursorFromResults (chunk ps items (Z.of_nat i)) =
  getEndCursorFromResults (take (S i * Z.to_nat ps) items).
Proof.
  intros Hps Hlen.
  assert (Hne : chunk ps items (Z.of_nat i) <> []).
  { apply chunk_nonempty; [done|lia|done]. }
  replace (S i * Z.to_nat ps)%nat with (i * Z.to_nat ps + Z.to_nat ps)%nat
    by lia.
  rewrite <- take_take_drop, <- chunk_take_drop by done.
  unfold getEndCursorFromResults. rewrite last_app.
  destruct (last (chunk ps items (Z.of_nat i))) eqn:E; [done|].
  by apply last_None in E.
Qed.

Lemma chunk_end_cursor_is_prefix_end_cursor_witness :
  0 < 10 /\
  Z.of_nat 1 * 10 < len (items_from 0 25) /\
  getEndCursorFromResults (chunk 10 (items_from 0 25) (Z.of_nat 1)) =
  getEndCursorFromResults (take (2 * Z.to_nat 10) (items_from 0 25)).
Proof.
  assert (H1 : 0 < 10) by reflexivity.
  assert (H2 : Z.of_nat 1 * 10 < len (items_from 0 25)) by reflexivity.
  exact (conj H1 (conj H2
    (chunk_end_cursor_is_prefix_end_cursor 10 (items_from 0 25) 1 H1 H2))).
Defined.

(** X2.  The pages of the window a completed refill leaves, read from the
    cache in the order of the page buttons and put end to end, are the
    first [5 * pageSize] items of the bulk answer, in the order of the
    answer: slicing loses, repeats and reorders nothing, and what the
    service sends beyond five pages is dropped. *)
Theorem window_pages_are_the_answer
    (gw : Gateway) (c : Z) (w : World) s1 items :
  refill gw c w = Completed s1 items ->
  0 < pageSize (sess w) ->
  items <> [] ->
  concat (window_pages (sess (snd (prefetchWindow gw c w)))) =
  take (Z.to_nat (5 * pageSize (sess w))) items.
Proof.
  intros Hr Hps Hne.
  destruct (prefetchWindow_completed _ _ _ _ _ Hr) as [_ ->].
  pose proof (refill_completed_frame _ _ _ _ _ Hr) as [].
  set (start := Z.max 1 (c - 2)).
  set (sp := set_prefetching true s1).
  set (ps := pageSize (sess w)) in *.
  assert (Hpsp : pageSize sp = ps) by done.
  assert (Hsp0 : 0 < pageSize sp) by (by rewrite Hpsp).
  set (k := maxPagesToShow_of (ceil_div (len items) ps)).
  destruct (apply_block_window start items sp) as [Hws Hwe].
  rewrite Hpsp in Hwe. fold k in Hwe.
  assert (Hlen : 0 < len items).
  { destruct items; [done | unfold len; simpl; lia]. }
  assert (Hk : 1 <= k <= 5).
  { apply maxPagesToShow_of_bounds, ceil_div_nonneg; lia. }
  assert (Hpages :
    window_pages (set_prefetching false (apply_block start items sp)) =
    (fun j => chunk ps items (Z.of_nat j)) <$> seq 0 (Z.to_nat k)).
  { unfold window_pages, pageNumbers.
    change (windowStart (set_prefetching false (apply_block start items sp)))
      with (windowStart (apply_block start items sp)).
    change (windowEnd (set_prefetching false (apply_block start items sp)))
      with (windowEnd (apply_block start items sp)).
    change (pageCache (set_prefetching false (apply_block start items sp)))
      with (pageCache (apply_block start items sp)).
    rewrite Hws, Hwe.
    replace (start + k - 1 - start + 1) with k by lia.
    rewrite <- list_fmap_compose.
    apply list_fmap_ext. intros i j Hj. simpl.
    apply lookup_seq in Hj as [-> Hj].
    rewrite (apply_block_cache _ _ _ _ Hsp0 Hne), Hws, Hwe.
    rewrite bool_decide_eq_true_2 by lia.
    rewrite Hpsp. simpl. f_equal. lia. }
  rewrite Hpages, concat_chunks by done.
  destruct (decide (k = 5)) as [->|Hk5].
  { f_equal. lia. }
  assert (Hcd : k = ceil_div (len items) ps).
  { subst k. unfold maxPagesToShow_of in *.
    destruct (_ =? 0) eqn:E; [|lia].
    apply Z.eqb_eq, ceil_div_zero_iff in E; lia. }
  assert (Hall : len items <= k * ps).
  { destruct (decide (len items <= k * ps)); [done|].
    assert (k < ceil_div (len items) ps) by (apply ceil_div_gt; lia). lia. }
  assert (Hk5' : k * ps <= 5 * ps) by nia.
  rewrite <- Z2Nat.inj_mul by lia.
  rewrite !take_ge; [done | unfold len in *; lia..].
Qed.

Lemma window_pages_are_the_answer_witness :
  let w := run gw_short [Submit] world0 in
  refill gw_short 1 w = Completed (sess w) (items_from 0 13) /\
  0 < pageSize (sess w) /\
  items_from 0 13 <> [] /\
  concat (window_pages (sess (snd (prefetchWindow gw_short 1 w)))) =
  take (Z.to_nat (5 * pageSize (sess w))) (items_from 0 13).
Proof.
  cbv zeta.
  set (w := run gw_short [Submit] world0).
  assert (H1 : refill gw_short 1 w = Completed (sess w) (items_from 0 13))
    by (vm_compute; reflexivity).
  assert (H2 : 0 < pageSize (sess w)) by (vm_compute; reflexivity).
  assert (H3 : items_from 0 13 <> []) by discriminate.
  exact (conj H1 (conj H2 (conj H3
    (window_pages_are_the_answer gw_short 1 w _ _ H1 H2 H3)))).
Defined.

(** ** The requests the component sends *)

Lemma sane_pageSize s : sane s -> 0 < pageSize s /\ (5 | pageSize s).
Proof.
  intros [[H | [H | H]] _]; rewrite H; (split; [lia|]);
    [by exists 1 | by exists 2 | by exists 4].
Qed.

Lemma buildPayload_well_formed s size cur :
  0 < size -> (5 | size) -> well_formed_request (buildPayload s size cur).
Proof.
  intros H0 H5. split; simpl; try done.
  - by destruct cur.
  - intros f. destruct (lang s) eqn:E; simpl; [done|].
    by intros [= <-].
Qed.

Section Requests.

Variable gw : Gateway.

Lemma world_ok_assign f w :
  (forall s, sane s -> sane (f s)) ->
  world_ok w -> world_ok (snd (assign f w)).
Proof. intros Hf [? ?]. split; simpl; auto. Qed.

Lemma world_ok_call size cur w :
  world_ok w -> 0 < size -> (5 | size) ->
  world_ok (snd (callSearchApi gw size cur w)).
Proof.
  intros [Hs Hl] H0 H5. unfold callSearchApi.
  assert (Hnew : Forall well_formed_request
            (sent w ++ [buildPayload (sess w) size cur])).
  { apply Forall_app. split; [done|].
    constructor; [by apply buildPayload_well_formed | constructor]. }
  by destruct (gw _ _).
Qed.

Lemma world_ok_bind {A B} (m : M A) (k : A -> M B) w :
  world_ok (snd (m w)) ->
  (forall a w', world_ok w' -> world_ok (snd (k a w'))) ->
  world_ok (snd (bind m k w)).
Proof.
  intros Hm Hk. unfold bind.
  destruct (m w) as [[a|e] w']; simpl in *; auto.
Qed.

Lemma world_ok_try_catch body handler w :
  world_ok (snd (body w)) ->
  (forall e w', world_ok w' -> world_ok (snd (handler e w'))) ->
  world_ok (snd (try_catch body handler w)).
Proof.
  intros Hb Hh. unfold try_catch.
  destruct (body w) as [[a|e] w']; simpl in *; auto.
Qed.

Lemma world_ok_try_finally body fin w :
  world_ok (snd (body w)) ->
  (forall w', world_ok w' -> world_ok (snd (fin w'))) ->
  world_ok (snd (try_finally body fin w)).
Proof.
  intros Hb Hf. unfold try_finally.
  destruct (body w) as [r w']; simpl in *; auto.
Qed.

Lemma sane_backfill_loop n i items s :
  sane s -> sane (backfill_loop n i items s).
Proof.
  intros [? ?]. pose proof (backfill_loop_frame n i items s) as [].
  unfold sane. by rewrite sf_pageSize0, sf_currentPage0.
Qed.

Lemma sane_apply_block start items s :
  sane s -> sane (apply_block start items s).
Proof.
  intros [? ?].
  destruct (apply_block_keeps start items s) as (Hc & _ & Hps & _).
  unfold sane. by rewrite Hc, Hps.
Qed.

Lemma world_ok_ensureCursorForPageEnd n w :
  world_ok w -> world_ok (snd (ensureCursorForPageEnd gw n w)).
Proof.
  intros Hw. unfold ensureCursorForPageEnd.
  destruct (n <=? 0) eqn:Hn; [done|]. apply Z.leb_gt in Hn.
  unfold bind at 1, this at 1.
  destruct (cursor_at (sess w) n); [done|].
  destruct (sane_pageSize _ (proj1 Hw)) as [Hps H5].
  apply world_ok_bind.
  { apply world_ok_call; [done|nia|by apply Z.divide_mul_r]. }
  intros d w1 Hw1. apply world_ok_bind.
  { apply world_ok_assign; [|done]. intros s. apply sane_backfill_loop. }
  by intros _ w2 Hw2.
Qed.

Lemma world_ok_entry_cursor start w :
  world_ok w -> world_ok (snd (entry_cursor gw start w)).
Proof.
  intros Hw. unfold entry_cursor.
  destruct (start =? 1); [done|]. by apply world_ok_ensureCursorForPageEnd.
Qed.

Lemma world_ok_prefetchWindow c w :
  world_ok w -> world_ok (snd (prefetchWindow gw c w)).
Proof.
  intros Hw. unfold prefetchWindow.
  apply world_ok_bind; [by apply world_ok_entry_cursor|].
  intros cur w1 Hw1. apply world_ok_bind; [by apply world_ok_assign|].
  intros _ w2 Hw2. apply world_ok_try_finally;
    [|intros w3 Hw3; by apply world_ok_assign].
  apply world_ok_try_catch;
    [|intros e w3 Hw3; by apply world_ok_assign].
  unfold bind at 1, this at 1.
  destruct (sane_pageSize _ (proj1 Hw2)) as [Hps H5].
  apply world_ok_bind.
  { apply world_ok_call; [done|lia|by apply Z.divide_mul_l]. }
  intros d w3 Hw3. apply world_ok_assign; [|done].
  intros s. apply sane_apply_block.
Qed.

Lemma world_ok_show_page p w :
  1 <= p -> world_ok w -> world_ok (snd (show_page gw p w)).
Proof.
  intros Hp Hw. unfold show_page, bind at 1, this at 1.
  destruct (pageCache (sess w) !! p) as [cached|].
  { apply world_ok_assign; [|done]. by intros s [? ?]. }
  apply world_ok_bind; [by apply world_ok_assign|].
  intros _ w1 Hw1. apply world_ok_try_finally;
    [|intros w3 Hw3; by apply world_ok_assign].
  apply world_ok_try_catch;
    [|intros e w3 Hw3; by apply world_ok_assign].
  apply world_ok_bind; [by apply world_ok_entry_cursor|].
  intros cur w2 Hw2. unfold bind at 1, this at 1.
  destruct (sane_pageSize _ (proj1 Hw2)) as [Hps H5].
  apply world_ok_bind; [by apply world_ok_call|].
  intros d w3 Hw3. apply world_ok_assign; [|done]. by intros s [? ?].
Qed.

Lemma world_ok_goToPage p w :
  world_ok w -> world_ok (snd (goToPage gw p w)).
Proof.
  intros Hw. unfold goToPage, bind at 1, this at 1.
  destruct (p <? 1) eqn:Hp; [done|]. apply Z.ltb_ge in Hp.
  destruct (beyond_last (sess w) p); [done|].
  apply world_ok_bind; [by apply world_ok_show_page|].
  intros _ w1 Hw1. unfold bind, this, detached. simpl.
  by apply world_ok_prefetchWindow.
Qed.

Lemma world_ok_doSearch w :
  world_ok w -> world_ok (snd (doSearch gw w)).
Proof.
  intros Hw. unfold doSearch, bind at 1, this at 1.
  destruct (trim (query (sess w))); [done|].
  apply world_ok_bind.
  { apply world_ok_assign; [|done]. by intros s [? ?]. }
  intros _ w1 Hw1. apply world_ok_try_finally;
    [|intros w3 Hw3; by apply world_ok_assign].
  apply world_ok_try_catch;
    [|intros e w3 Hw3; by apply world_ok_assign].
  unfold bind at 1, this at 1.
  destruct (sane_pageSize _ (proj1 Hw1)) as [Hps H5].
  apply world_ok_bind; [by apply world_ok_call|].
  intros d w2 Hw2. apply world_ok_bind.
  { apply world_ok_assign; [|done]. by intros s [? ?]. }
  intros _ w3 Hw3. unfold bind, this, detached. simpl.
  by apply world_ok_prefetchWindow.
Qed.

Lemma world_ok_handle ev w :
  world_ok w -> world_ok (snd (handle gw ev w)).
Proof.
  intros Hw. destruct ev as [q|b|l|o| |p]; simpl.
  - by apply world_ok_assign.
  - by apply world_ok_assign.
  - by apply world_ok_assign.
  - unfold bind at 1, this at 1.
    destruct (_ =? _); [done|]. apply world_ok_bind.
    { apply world_ok_assign; [|done]. intros s [_ ?]. split; [|done].
      destruct o; simpl; auto. }
    intros _ w1 Hw1. unfold watch_pageSize, bind at 1, this at 1.
    destruct (trim _); [done | by apply world_ok_doSearch].
  - by apply world_ok_doSearch.
  - by apply world_ok_goToPage.
Qed.

Lemma world_ok_run evs w : world_ok w -> world_ok (run gw evs w).
Proof.
  revert w. induction evs as [|ev evs IH]; intros w Hw; simpl; [done|].
  apply IH. by apply world_ok_handle.
Qed.

End Requests.

(** X3.  Every request the page ever sends is well formed, whatever the
    user does and whatever the service answers: it asks for a positive
    number of items that is a multiple of 5, [top_k] repeats [size], the
    two cursor fields are both null or both set, and a filter is sent only
    with a non-empty language. *)
Theorem every_request_well_formed (gw : Gateway) (evs : list Event) :
  Forall well_formed_request (sent (run gw evs world0)).
Proof.
  apply (world_ok_run gw evs world0). split.
  - split; [by right; left | done].
  - constructor.
Qed.

(** ** What a refill leaves alone *)

Lemma window_loop_keeps_cached n i start items s q :
  is_Some (pageCache s !! q) ->
  is_Some (pageCache (window_loop n i start items s) !! q).
Proof.
  revert i s. induction n as [|n IH]; intros i s Hq; simpl; [done|].
  destruct (js_slice _ _ _) as [|x sl]; [done|].
  apply IH. simpl. destruct (decide (q = start + i)) as [->|].
  - rewrite lookup_insert_eq. eauto.
  - by rewrite lookup_insert_ne.
Qed.

Lemma apply_block_keeps_cached start items s q :
  is_Some (pageCache s !! q) ->
  is_Some (pageCache (apply_block start items s) !! q).
Proof.
  intros Hq. unfold apply_block. cbv zeta.
  pose proof (window_loop_keeps_cached
    (Z.to_nat (maxPagesToShow_of (ceil_div (len items) (pageSize s))))
    0 start items s q Hq).
  case_test; by simpl.
Qed.

Lemma backfill_loop_keeps_cached n i items s q :
  is_Some (pageCache s !! q) ->
  is_Some (pageCache (backfill_loop n i items s) !! q).
Proof.
  intros [v Hv]. exists v. by apply backfill_loop_keeps_pages.
Qed.

Lemma prefetchWindow_display (gw : Gateway) (c : Z) (w : World) :
  let s := sess w in
  let s' := sess (snd (prefetchWindow gw c w)) in
  results s' = results s /\
  currentPage s' = currentPage s /\
  meta s' = meta s /\
  loading s' = loading s /\
  query s' = query s /\
  usePrf s' = usePrf s /\
  lang s' = lang s /\
  pageSize s' = pageSize s /\
  forall q, is_Some (pageCache s !! q) -> is_Some (pageCache s' !! q).
Proof.
  cbv zeta.
  assert (Hdisp :
    (fun s' => results s' = results (sess w) /\
               currentPage s' = currentPage (sess w) /\
               meta s' = meta (sess w) /\
               loading s' = loading (sess w) /\
               query s' = query (sess w) /\
               usePrf s' = usePrf (sess w) /\
               lang s' = lang (sess w) /\
               pageSize s' = pageSize (sess w))
      (sess (snd (prefetchWindow gw c w)))).
  { apply preserves_prefetchWindow; try done.
    - intros n items s H.
      pose proof (backfill_loop_frame n 0 items s) as [].
      by rewrite sf_results0, sf_currentPage0, sf_meta0, sf_loading0,
                 sf_query0, sf_usePrf0, sf_lang0, sf_pageSize0.
    - intros c' items s H. unfold apply_block. cbv zeta.
      pose proof (window_loop_frame
        (Z.to_nat (maxPagesToShow_of (ceil_div (len items) (pageSize s))))
        0 (Z.max 1 (c' - 2)) items s) as [].
      case_test; simpl;
        by rewrite sf_results0, sf_currentPage0, sf_meta0, sf_loading0,
                   sf_query0, sf_usePrf0, sf_lang0, sf_pageSize0. }
  destruct Hdisp as (? & ? & ? & ? & ? & ? & ? & ?).
  repeat (split; [done|]).
  intros q Hq.
  apply (preserves_prefetchWindow
           (fun s => is_Some (pageCache s !! q))); try done.
  - intros n items s. apply backfill_loop_keeps_cached.
  - intros c' items s. apply apply_block_keeps_cached.
Qed.

(** X4.  A refill never touches what is on display: on every path
    (completed, failed or rejected in its backfill) [prefetchWindow] leaves
    the shown results, the current page, the meta line, the [loading] flag,
    the query, the PRF and language settings and the page size as they
    were, and every page that was cached is still cached. *)
Theorem prefetchWindow_keeps_display (gw : Gateway) (c : Z) (w : World) :
  let s := sess w in
  let s' := sess (snd (prefetchWindow gw c w)) in
  results s' = results s /\
  currentPage s' = currentPage s /\
  meta s' = meta s /\
  loading s' = loading s /\
  query s' = query s /\
  usePrf s' = usePrf s /\
  lang s' = lang s /\
  pageSize s' = pageSize s /\
  forall q, is_Some (pageCache s !! q) -> is_Some (pageCache s' !! q).
Proof. exact (prefetchWindow_display gw c w). Qed.

(** ** A new search *)

Lemma callSearchApi_thrown gw size cur w e :
  thrown (gw (length (sent w)) (buildPayload (sess w) size cur)) = Some e ->
  callSearchApi gw size cur w =
    (Throw e, {| sess := sess w;
                 sent := sent w ++ [buildPayload (sess w) size cur] |}).
Proof.
  unfold callSearchApi. destruct (gw _ _); simpl; by intros [= <-].
Qed.

Lemma callSearchApi_answered gw size cur w d :
  gw (length (sent w)) (buildPayload (sess w) size cur) = Json d ->
  callSearchApi gw size cur w =
    (Ok d, {| sess := sess w;
              sent := sent w ++ [buildPayload (sess w) size cur] |}).
Proof. unfold callSearchApi. by intros ->. Qed.

Lemma doSearch_failed gw w e :
  trim (query (sess w)) <> [] ->
  thrown (gw (length (sent w))
            (buildPayload (sess w) (pageSize (sess w)) None)) = Some e ->
  doSearch gw w =
    (Ok tt,
     {| sess := set_loading false
                  (set_error (err_text e) (started (sess w)));
        sent := sent w ++
                [buildPayload (sess w) (pageSize (sess w)) None] |}).
Proof.
  intros Hq He. unfold doSearch, bind at 1, this at 1.
  destruct (trim (query (sess w))); [done|].
  unfold bind at 1, assign at 1, try_finally, try_catch.
  unfold bind at 1, this at 1. unfold bind at 1.
  rewrite (callSearchApi_thrown gw _ None _ e); [done|exact He].
Qed.

Lemma doSearch_answered gw w d :
  trim (query (sess w)) <> [] ->
  gw (length (sent w)) (buildPayload (sess w) (pageSize (sess w)) None)
    = Json d ->
  let w1 := {| sess := first_page d (started (sess w));
               sent := sent w ++
                       [buildPayload (sess w) (pageSize (sess w)) None] |} in
  let w2 := snd (prefetchWindow gw 1 w1) in
  doSearch gw w =
    (Ok tt, {| sess := set_loading false (sess w2); sent := sent w2 |}).
Proof.
  intros Hq Hd. cbv zeta. unfold doSearch, bind at 1, this at 1.
  destruct (trim (query (sess w))); [done|].
  unfold bind at 1, assign at 1, try_finally, try_catch.
  unfold bind at 1, this at 1. unfold bind at 1.
  rewrite (callSearchApi_answered gw _ None _ d); [|exact Hd].
  unfold bind, assign, this, detached. cbn [sess sent fst snd].
  change (currentPage (first_page d (started (sess w)))) with 1.
  reflexivity.
Qed.

(** A refill whose window starts at page 1 needs no entry cursor: it
    sends its bulk request at once and cannot be rejected. *)
Lemma refill_from_page_one gw c w :
  c <= 3 ->
  sent (snd (prefetchWindow gw c w)) =
    sent w ++ [buildPayload (sess w) (pageSize (sess w) * 5) None] /\
  prefetching (sess (snd (prefetchWindow gw c w))) = false /\
  ((exists e, refill gw c w = Failed (sess w) e) \/
   (exists items, refill gw c w = Completed (sess w) items)).
Proof.
  intros Hc. unfold refill, prefetchWindow, bulk_payload.
  replace (Z.max 1 (c - 2)) with 1 by lia.
  unfold entry_cursor. simpl.
  unfold bind, assign, try_finally, try_catch, this, callSearchApi, ret.
  simpl. rewrite buildPayload_prefetching.
  destruct (gw _ _); simpl; eauto 6.
Qed.

(** X5.  A search whose request fails leaves a reset, empty session that
    shows the error: no results, no meta line, both caches empty, page 1,
    window 1..1, no known last page, both busy flags lowered; exactly one
    request was sent and no refill was started. *)
Theorem doSearch_failure_leaves_reset_session
    (gw : Gateway) (w : World) (e : Exn) :
  trim (query (sess w)) <> [] ->
  thrown (gw (length (sent w))
            (buildPayload (sess w) (pageSize (sess w)) None)) = Some e ->
  let w' := snd (doSearch gw w) in
  let s' := sess w' in
  fst (doSearch gw w) = Ok tt /\
  sent w' = sent w ++ [buildPayload (sess w) (pageSize (sess w)) None] /\
  error s' = err_text e /\
  results s' = [] /\ meta s' = None /\
  pageCache s' = ∅ /\ pageEndCursor s' = ∅ /\
  currentPage s' = 1 /\ windowStart s' = 1 /\ windowEnd s' = 1 /\
  noMoreAfterPage s' = None /\
  loading s' = false /\ prefetching s' = false.
Proof.
  intros Hq He. cbv zeta. rewrite (doSearch_failed gw w e Hq He).
  simpl. repeat split.
Qed.


Lemma doSearch_failure_leaves_reset_session_witness :
  let gw := scripted [NotOk 503 "down"] in
  let e := new_Error "Search failed (503): down" in
  trim (query (sess world0)) <> [] /\
  thrown (gw (length (sent world0))
            (buildPayload (sess world0) (pageSize (sess world0)) None))
    = Some e /\
  error (sess (snd (doSearch gw world0))) = "Search failed (503): down" /\
  pageCache (sess (snd (doSearch gw world0))) = ∅.
Proof.
  cbv zeta.
  assert (H1 : trim (query (sess world0)) <> []) by discriminate.
  assert (H2 : thrown (scripted [NotOk 503 "down"] (length (sent world0))
                 (buildPayload (sess world0) (pageSize (sess world0)) None))
               = Some (new_Error "Search failed (503): down"))
    by reflexivity.
  destruct (doSearch_failure_leaves_reset_session
              (scripted [NotOk 503 "down"]) world0 _ H1 H2)
    as (_ & _ & He & _ & _ & Hc & _).
  exact (conj H1 (conj H2 (conj He Hc))).
Defined.






(** ** Resolving a cursor *)

Lemma backfill_loop_keeps_cursors n i items s q c :
  cursor_at s q = Some c ->
  cursor_at (backfill_loop n i items s) q = Some c.
Proof.
  revert i s. induction n as [|n IH]; intros i s Hq; simpl; [done|].
  destruct (js_slice _ _ _) as [|x sl] eqn:E; [done|].
  apply IH. rewrite fill_missing_cursor.
  destruct (decide (q = i + 1)) as [->|]; [|done]. by rewrite Hq.
Qed.

Lemma ensureCursorForPageEnd_sent gw n w :
  sent (snd (ensureCursorForPageEnd gw n w)) = sent w \/
  sent (snd (ensureCursorForPageEnd gw n w)) =
    sent w ++ [buildPayload (sess w) (n * pageSize (sess w)) None].
Proof.
  unfold ensureCursorForPageEnd. destruct (n <=? 0); [by left|].
  unfold bind, this, callSearchApi, assign, ret. cbn beta iota.
  destruct (cursor_at (sess w) n); [by left|]. right.
  destruct (gw (length (sent w))
              (buildPayload (sess w) (n * pageSize (sess w)) None));
    reflexivity.
Qed.

(** X8.  [ensureCursorForPageEnd] only ever adds to the two caches: it
    changes no other field of the session, every cached page keeps its
    items and every cached end-cursor its value, and it sends at most one
    request, for [pageNum * pageSize] items from the start of the stream.
    For [pageNum <= 0] it answers null, and for a page whose end-cursor is
    cached it answers that cursor, in both cases without a request and
    without touching the session. *)
Theorem ensureCursorForPageEnd_only_adds
    (gw : Gateway) (pageNum : Z) (w : World) :
  let s := sess w in
  let w' := snd (ensureCursorForPageEnd gw pageNum w) in
  same_frame s (sess w') /\
  (forall q v, pageCache s !! q = Some v ->
               pageCache (sess w') !! q = Some v) /\
  (forall q c, cursor_at s q = Some c -> cursor_at (sess w') q = Some c) /\
  (sent w' = sent w \/
   sent w' = sent w ++ [buildPayload s (pageNum * pageSize s) None]) /\
  (pageNum <= 0 -> ensureCursorForPageEnd gw pageNum w = (Ok None, w)) /\
  (forall c, 0 < pageNum -> cursor_at s pageNum = Some c ->
             ensureCursorForPageEnd gw pageNum w = (Ok (Some c), w)).
Proof.
  cbv zeta. split.
  { apply (preserves_ensureCursorForPageEnd (same_frame (sess w)));
      [|apply same_frame_refl].
    intros n items s Hs.
    eapply same_frame_trans; [exact Hs | apply backfill_loop_frame]. }
  split.
  { intros q v.
    apply (preserves_ensureCursorForPageEnd
             (fun s => pageCache s !! q = Some v)).
    intros n items s. apply backfill_loop_keeps_pages. }
  split.
  { intros q c.
    apply (preserves_ensureCursorForPageEnd
             (fun s => cursor_at s q = Some c)).
    intros n items s. apply backfill_loop_keeps_cursors. }
  split; [apply ensureCursorForPageEnd_sent|].
  split.
  - intros Hn. unfold ensureCursorForPageEnd.
    by rewrite (proj2 (Z.leb_le pageNum 0)) by done.
  - intros c Hn Hc. unfold ensureCursorForPageEnd.
    rewrite (proj2 (Z.leb_gt pageNum 0)) by done.
    unfold bind, this. by rewrite Hc.
Qed.

(** X9.  What a backfill answers.  For a page [pageNum > 0] without a
    cached end-cursor, when the backfill request is answered:
    [ensureCursorForPageEnd] returns the end-cursor of the chunk of page
    [pageNum] if the answer holds more than [(pageNum - 1) * pageSize]
    items, and null if it holds fewer, so that the caller then fetches from
    the start of the stream. *)
Theorem ensureCursorForPageEnd_backfill_result
    (gw : Gateway) (w : World) (pageNum : Z) (d : Data) :
  let s := sess w in
  0 < pageNum ->
  0 < pageSize s ->
  cursor_at s pageNum = None ->
  gw (length (sent w)) (buildPayload s (pageNum * pageSize s) None)
    = Json d ->
  let items := default [] (d_results d) in
  fst (ensureCursorForPageEnd gw pageNum w) =
  Ok (if bool_decide ((pageNum - 1) * pageSize s < len items)
      then getEndCursorFromResults (chunk (pageSize s) items (pageNum - 1))
      else None).
Proof.
  cbv zeta. intros Hn Hps Hcur Hgw.
  rewrite (ensureCursorForPageEnd_backfill gw w pageNum d Hn Hcur Hgw).
  cbn [fst]. f_equal.
  set (items := default [] (d_results d)).
  unfold backfilled.
  set (cd := ceil_div (len items) (pageSize (sess w))).
  pose proof (ceil_div_gt (len items) (pageSize (sess w)) (pageNum - 1) Hps)
    as Hgt. fold cd in Hgt.
  pose proof (ceil_div_nonneg (len items) (pageSize (sess w))
                (len_nonneg items) Hps) as Hnn. fold cd in Hnn.
  destruct (backfill_loop_lookup (pageSize (sess w)) items (Z.to_nat cd) Hps
              0 (sess w) eq_refl ltac:(lia)
              ltac:(intros j Hj; apply ceil_div_gt; [done|lia]) pageNum)
    as [_ ->].
  rewrite Hcur.
  destruct (bool_decide ((pageNum - 1) * _ < _)) eqn:E.
  - apply bool_decide_eq_true_1 in E.
    by rewrite bool_decide_eq_true_2 by lia.
  - apply bool_decide_eq_false_1 in E.
    by rewrite bool_decide_eq_false_2 by lia.
Qed.

Lemma ensureCursorForPageEnd_backfill_result_witness :
  let w := run gw_ten [Submit] world0 in
  let s := sess w in
  0 < 3 /\ 0 < pageSize s /\ cursor_at s 3 = None /\
  gw_ten (length (sent w)) (buildPayload s (3 * pageSize s) None)
    = answer (items_from 0 10) /\
  fst (ensureCursorForPageEnd gw_ten 3 w) = Ok None.
Proof.
  cbv zeta.
  set (w := run gw_ten [Submit] world0).
  assert (H1 : 0 < 3) by reflexivity.
  assert (H2 : 0 < pageSize (sess w)) by (vm_compute; reflexivity).
  assert (H3 : cursor_at (sess w) 3 = None) by (vm_compute; reflexivity).
  assert (H4 : gw_ten (length (sent w))
                 (buildPayload (sess w) (3 * pageSize (sess w)) None)
               = Json {| d_results := Some (items_from 0 10);
                         d_total_hits := 0; d_took_ms := 0 |})
    by (vm_compute; reflexivity).
  refine (conj H1 (conj H2 (conj H3 (conj H4 _)))).
  rewrite (ensureCursorForPageEnd_backfill_result gw_ten w 3 _ H1 H2 H3 H4).
  vm_compute. reflexivity.
Defined.

(** ** Navigating *)

(** X10.  Navigating to a cached page is instant: [goToPage p] for a page
    [p >= 1] that is cached and not beyond the known last page shows the
    cached items and makes [p] the current page without sending a request
    of its own; what follows is the refill around [p], which leaves the
    shown items and the current page alone. *)
Theorem goToPage_cached_is_instant
    (gw : Gateway) (w : World) (p : Z) (cached : list ResultItem) :
  1 <= p ->
  beyond_last (sess w) p = false ->
  pageCache (sess w) !! p = Some cached ->
  let shown := {| sess := set_results cached (set_currentPage p (sess w));
                  sent := sent w |} in
  let w' := snd (goToPage gw p w) in
  show_page gw p w = (Ok tt, shown) /\
  w' = snd (prefetchWindow gw p shown) /\
  results (sess w') = cached /\
  currentPage (sess w') = p.
Proof.
  intros Hp Hlast Hc. cbv zeta.
  assert (Hshow : show_page gw p w =
            (Ok tt, {| sess := set_results cached
                                 (set_currentPage p (sess w));
                       sent := sent w |})).
  { unfold show_page, bind, this. by rewrite Hc. }
  assert (Hgo : snd (goToPage gw p w) =
            snd (prefetchWindow gw p
                   {| sess := set_results cached
                                (set_currentPage p (sess w));
                      sent := sent w |})).
  { unfold goToPage, bind at 1, this at 1.
    rewrite (proj2 (Z.ltb_ge p 1)) by lia. rewrite Hlast.
    unfold bind at 1. rewrite Hshow.
    unfold bind, this, detached. reflexivity. }
  split; [done|]. split; [done|]. rewrite Hgo.
  destruct (prefetchWindow_display gw p
              {| sess := set_results cached (set_currentPage p (sess w));
                 sent := sent w |}) as (Hr & Hcp & _).
  by rewrite Hr, Hcp.
Qed.

Lemma goToPage_cached_is_instant_witness :
  let w := run gw_grows [Submit] world0 in
  1 <= 2 /\
  beyond_last (sess w) 2 = false /\
  pageCache (sess w) !! 2 = Some (items_from 10 10) /\
  results (sess (snd (goToPage gw_grows 2 w))) = items_from 10 10 /\
  currentPage (sess (snd (goToPage gw_grows 2 w))) = 2.
Proof.
  cbv zeta.
  set (w := run gw_grows [Submit] world0).
  assert (H1 : 1 <= 2) by discriminate.
  assert (H2 : beyond_last (sess w) 2 = false) by (vm_compute; reflexivity).
  assert (H3 : pageCache (sess w) !! 2 = Some (items_from 10 10))
    by (vm_compute; reflexivity).
  destruct (goToPage_cached_is_instant gw_grows w 2 _ H1 H2 H3)
    as (_ & _ & Hr & Hc).
  exact (conj H1 (conj H2 (conj H3 (conj Hr Hc)))).
Defined.

Lemma show_page_failed gw w p e :
  pageCache (sess w) !! p = None ->
  page_fetch_failure gw p w = Some e ->
  exists w1,
    show_page gw p w =
      (Ok tt, {| sess := set_loading false
                           (set_error (err_text e) (sess w1));
                 sent := sent w1 |}) /\
    same_frame (set_loading true (sess w)) (sess w1) /\
    (forall q v, pageCache (sess w) !! q = Some v ->
                 pageCache (sess w1) !! q = Some v).
Proof.
  intros Hmiss. unfold page_fetch_failure.
  set (wl := {| sess := set_loading true (sess w); sent := sent w |}).
  pose proof (entry_cursor_frame gw p wl) as Hf.
  assert (Hk : forall q v, pageCache (sess w) !! q = Some v ->
             pageCache (sess (snd (entry_cursor gw p wl))) !! q = Some v).
  { intros q v Hq. by apply entry_cursor_keeps_pages. }
  intros He.
  assert (Hshow : show_page gw p w =
    try_finally
      (try_catch
         (cursor <- entry_cursor gw p ;;
          s <- this ;;
          data <- callSearchApi gw (pageSize s) cursor ;;
          assign (apply_page p (default [] (d_results data))))
         (fun e => assign (set_error (err_text e))))
      (assign (set_loading false)) wl).
  { unfold show_page, bind at 1, this at 1. by rewrite Hmiss. }
  rewrite Hshow. unfold try_finally, try_catch. unfold bind at 1.
  destruct (entry_cursor gw p wl) as [[cur|e'] w1].
  - exists {| sess := sess w1;
              sent := sent w1 ++
                      [buildPayload (sess w1) (pageSize (sess w1)) cur] |}.
    unfold bind at 1, this at 1. unfold bind at 1.
    rewrite (callSearchApi_thrown gw _ cur w1 e He).
    split; [reflexivity|]. split; [exact Hf | exact Hk].
  - injection He as ->. exists w1.
    split; [reflexivity|]. split; [exact Hf | exact Hk].
Qed.

(** X11.  A failed single-page fetch leaves the page that is shown: when
    the backfill or the page request of [goToPage p] fails for an uncached
    page, the call does not reject, the error text of the failure replaces
    whatever error was shown, [loading] is lowered, and the current page,
    the shown results, the window, the known last page and every cached
    page are as before. *)
Theorem goToPage_fetch_failure_keeps_page
    (gw : Gateway) (w : World) (p : Z) (e : Exn) :
  pageCache (sess w) !! p = None ->
  page_fetch_failure gw p w = Some e ->
  let s := sess w in
  let s' := sess (snd (show_page gw p w)) in
  fst (show_page gw p w) = Ok tt /\
  error s' = err_text e /\
  loading s' = false /\
  currentPage s' = currentPage s /\
  results s' = results s /\
  windowStart s' = windowStart s /\
  windowEnd s' = windowEnd s /\
  noMoreAfterPage s' = noMoreAfterPage s /\
  forall q v, pageCache s !! q = Some v -> pageCache s' !! q = Some v.
Proof.
  intros Hmiss He. cbv zeta.
  destruct (show_page_failed gw w p e Hmiss He) as (w1 & -> & Hf & Hk).
  destruct Hf. cbn [fst snd sess]. simpl in *.
  repeat (split; [done|]). exact Hk.
Qed.

Lemma goToPage_fetch_failure_keeps_page_witness :
  let gw := scripted [answer (items_from 0 10); refused; refused] in
  let w := run gw [Submit] world0 in
  pageCache (sess w) !! 4 = None /\
  page_fetch_failure gw 4 w = Some refused_exn /\
  currentPage (sess (snd (show_page gw 4 w))) = currentPage (sess w) /\
  results (sess (snd (show_page gw 4 w))) = results (sess w).
Proof.
  cbv zeta.
  set (gw := scripted [answer (items_from 0 10); refused; refused]).
  set (w := run gw [Submit] world0).
  assert (H1 : pageCache (sess w) !! 4 = None) by (vm_compute; reflexivity).
  assert (H2 : page_fetch_failure gw 4 w = Some refused_exn)
    by (vm_compute; reflexivity).
  destruct (goToPage_fetch_failure_keeps_page gw w 4 _ H1 H2)
    as (_ & _ & _ & Hc & Hr & _).
  exact (conj H1 (conj H2 (conj Hc Hr))).
Defined.

(** ** The cache outside the window *)

Lemma refill_completed_pages gw c w s1 items q v :
  refill gw c w = Completed s1 items ->
  pageCache (sess w) !! q = Some v -> pageCache s1 !! q = Some v.
Proof.
  intros Hr Hq. revert Hr. unfold refill.
  pose proof (entry_cursor_keeps_pages gw (Z.max 1 (c - 2)) w q v Hq) as H.
  destruct (entry_cursor gw _ w) as [[cur|e'] w1]; [|done].
  destruct (gw _ _); try done; by intros [= <- _].
Qed.

(** X12.  A completed refill replaces the pages of its new window and no
    others: every page that was cached before the refill and lies outside
    the window it leaves is still cached with the same items. *)
Theorem refill_keeps_pages_outside_window
    (gw : Gateway) (c : Z) (w : World) s1 items (q : Z) v :
  refill gw c w = Completed s1 items ->
  0 < pageSize (sess w) ->
  pageCache (sess w) !! q = Some v ->
  let s' := sess (snd (prefetchWindow gw c w)) in
  ~ (windowStart s' <= q <= windowEnd s') ->
  pageCache s' !! q = Some v.
Proof.
  intros Hr Hps Hq. cbv zeta.
  pose proof (refill_completed_pages _ _ _ _ _ _ _ Hr Hq) as Hq1.
  destruct (prefetchWindow_completed _ _ _ _ _ Hr) as [_ ->].
  pose proof (refill_completed_frame _ _ _ _ _ Hr) as [].
  set (sp := set_prefetching true s1).
  assert (Hsp0 : 0 < pageSize sp) by (subst sp; simpl; lia).
  change (~ (windowStart (apply_block (Z.max 1 (c - 2)) items sp) <= q
             <= windowEnd (apply_block (Z.max 1 (c - 2)) items sp)) ->
          pageCache (apply_block (Z.max 1 (c - 2)) items sp) !! q = Some v).
  intros Hout. destruct (decide (items = [])) as [->|Hne].
  - by rewrite apply_block_cache_nil.
  - rewrite (apply_block_cache _ _ _ _ Hsp0 Hne).
    by rewrite bool_decide_eq_false_2 by done.
Qed.

Lemma refill_keeps_pages_outside_window_witness :
  let w := snd (show_page gw_exact 5 (run gw_exact [Submit] world0)) in
  let gw := scripted [answer []; answer []; answer (items_from 20 30)] in
  let s' := sess (snd (prefetchWindow gw 5 w)) in
  refill gw 5 w = Completed (sess w) (items_from 20 30) /\
  0 < pageSize (sess w) /\
  pageCache (sess w) !! 1 = Some (items_from 0 10) /\
  ~ (windowStart s' <= 1 <= windowEnd s') /\
  pageCache s' !! 1 = Some (items_from 0 10).
Proof.
  cbv zeta.
  set (w := snd (show_page gw_exact 5 (run gw_exact [Submit] world0))).
  set (gw := scripted [answer []; answer []; answer (items_from 20 30)]).
  assert (H1 : refill gw 5 w = Completed (sess w) (items_from 20 30))
    by (vm_compute; reflexivity).
  assert (H2 : 0 < pageSize (sess w)) by (vm_compute; reflexivity).
  assert (H3 : pageCache (sess w) !! 1 = Some (items_from 0 10))
    by (vm_compute; reflexivity).
  assert (H4 : ~ (windowStart (sess (snd (prefetchWindow gw 5 w))) <= 1
                  <= windowEnd (sess (snd (prefetchWindow gw 5 w))))).
  { vm_compute. intros [Ha _]. apply Ha. reflexivity. }
  exact (conj H1 (conj H2 (conj H3 (conj H4
    (refill_keeps_pages_outside_window gw 5 w _ _ 1 _ H1 H2 H3 H4))))).
Defined.

(** ** The pager *)

Lemma elem_of_pageNumbers s p :
  p ∈ pageNumbers s <-> windowStart s <= p <= windowEnd s.
Proof.
  unfold pageNumbers. rewrite list_elem_of_fmap. split.
  - intros (i & -> & Hi). apply elem_of_seq in Hi. lia.
  - intros Hp. exists (Z.to_nat (p - windowStart s)). split; [lia|].
    apply elem_of_seq. lia.
Qed.

Lemma pager_ok_run gw evs : pager_ok (sess (run gw evs world0)).
Proof.
  apply (invariant_run pager_ok).
  1-3, 5-8: by intros ? s Hs.
  - intros o s ([_ ?] & ?). split; [|done]. split; [|done].
    destruct o; simpl; auto.
  - intros s ([? _] & _). repeat split; simpl; (done || lia).
  - intros n items s ([? ?] & ? & ? & ?).
    pose proof (backfill_loop_frame n 0 items s) as [].
    unfold pager_ok, sane.
    by rewrite sf_pageSize0, sf_currentPage0, sf_windowStart0, sf_windowEnd0.
  - intros items s ([? ?] & ? & ? & ?) _. by repeat split.
  - intros p cached s ([? _] & ? & ? & ?) Hp _. by repeat split.
  - intros p items s ([? _] & ? & ? & ?) Hp. by repeat split.
  - intros c items s (Hs & _).
    destruct (sane_pageSize _ Hs) as [Hps _].
    destruct (apply_block_window (Z.max 1 (c - 2)) items s) as [Hws Hwe].
    pose proof (maxPagesToShow_of_bounds
                  (ceil_div (len items) (pageSize s))
                  (ceil_div_nonneg _ _ (len_nonneg items) Hps)).
    unfold pager_ok. rewrite Hws, Hwe.
    split; [by apply sane_apply_block|]. lia.
  - repeat split; simpl; (lia || auto).
Qed.

(** X13.  In every state the page can reach, the pager offers between one
    and five page buttons: the page numbers from [windowStart] to
    [windowEnd] in increasing order without gaps, all of them 1 or more;
    and the pager is shown exactly when a search has been answered
    ([meta] is set). *)
Theorem pager_offers_one_to_five_pages (gw : Gateway) (evs : list Event) :
  let s := sess (run gw evs world0) in
  (1 <= length (pageNumbers s) <= 5)%nat /\
  (forall i p, pageNumbers s !! i = Some p -> p = windowStart s + Z.of_nat i) /\
  (forall p, p ∈ pageNumbers s <-> windowStart s <= p <= windowEnd s) /\
  (forall p, p ∈ pageNumbers s -> 1 <= p) /\
  (paginationReady s = true <-> is_Some (meta s)).
Proof.
  cbv zeta. destruct (pager_ok_run gw evs) as (_ & H1 & H2 & H3).
  set (s := sess (run gw evs world0)) in *.
  split.
  { unfold pageNumbers. rewrite length_fmap, length_seq. lia. }
  split.
  { intros i p. unfold pageNumbers. rewrite list_lookup_fmap.
    intros Hi. destruct (seq _ _ !! i) as [j|] eqn:E; [|done].
    apply lookup_seq in E as [-> _]. simpl in Hi. by injection Hi as <-. }
  split; [apply elem_of_pageNumbers|].
  split.
  { intros p Hp%elem_of_pageNumbers. lia. }
  unfold paginationReady. rewrite andb_true_iff, bool_decide_eq_true.
  rewrite Z.leb_le. split; [by intros [? _] | intros; split; [done|lia]].
Qed.

(** X14.  In every state the page can reach, the page size is one of the
    three options of the select (5, 10 or 20) and the current page is 1 or
    more. *)
Theorem page_size_and_current_page_stay_valid
    (gw : Gateway) (evs : list Event) :
  let s := sess (run gw evs world0) in
  (pageSize s = 5 \/ pageSize s = 10 \/ pageSize s = 20) /\
  1 <= currentPage s.
Proof. exact (proj1 (pager_ok_run gw evs)). Qed.

(** ** The two caches *)

Lemma caches_aligned_frame s s' :
  pageCache s' = pageCache s -> pageEndCursor s' = pageEndCursor s ->
  caches_aligned s -> caches_aligned s'.
Proof. intros Hc He H p. rewrite Hc, He. apply H. Qed.

Lemma caches_aligned_put_both p v c s :
  caches_aligned s -> caches_aligned (put_cursor p c (put_page p v s)).
Proof.
  intros H q. simpl. destruct (decide (q = p)) as [->|Hne].
  - rewrite !lookup_insert_eq. split; eauto.
  - rewrite !lookup_insert_ne by done. apply H.
Qed.

Lemma caches_aligned_fill_missing p slice s :
  caches_aligned s -> caches_aligned (fill_missing p slice s).
Proof.
  intros H q. unfold fill_missing.
  destruct (pageCache s !! p) as [v|] eqn:Hp.
  - destruct (cursor_at s p); [apply H|]. simpl.
    destruct (decide (q = p)) as [->|Hne].
    + rewrite lookup_insert_eq, Hp. split; eauto.
    + rewrite lookup_insert_ne by done. apply H.
  - change (cursor_at (put_page p slice s) p) with (cursor_at s p).
    destruct (cursor_at s p) as [c|] eqn:Hc; simpl.
    + destruct (decide (q = p)) as [->|Hne].
      * rewrite lookup_insert_eq. split; [|eauto]. intros _.
        unfold cursor_at in Hc. destruct (pageEndCursor s !! p); eauto.
        done.
      * rewrite lookup_insert_ne by done. apply H.
    + destruct (decide (q = p)) as [->|Hne].
      * rewrite !lookup_insert_eq. split; eauto.
      * rewrite !lookup_insert_ne by done. apply H.
Qed.

Lemma caches_aligned_backfill_loop n i items s :
  caches_aligned s -> caches_aligned (backfill_loop n i items s).
Proof.
  revert i s. induction n as [|n IH]; intros i s H; simpl; [done|].
  destruct (js_slice _ _ _) as [|x sl]; [done|].
  by apply IH, caches_aligned_fill_missing.
Qed.

Lemma caches_aligned_window_loop n i start items s :
  caches_aligned s -> caches_aligned (window_loop n i start items s).
Proof.
  revert i s. induction n as [|n IH]; intros i s H; simpl; [done|].
  destruct (js_slice _ _ _) as [|x sl]; [done|].
  by apply IH, caches_aligned_put_both.
Qed.

(** X15.  In every state the page can reach, the page cache and the
    end-cursor cache cover the same page numbers: a page has an entry in
    one exactly when it has an entry (possibly null) in the other. *)
Theorem caches_cover_the_same_pages (gw : Gateway) (evs : list Event) :
  let s := sess (run gw evs world0) in
  forall p, is_Some (pageCache s !! p) <-> is_Some (pageEndCursor s !! p).
Proof.
  cbv zeta.
  change (caches_aligned (sess (run gw evs world0))).
  apply (invariant_run caches_aligned).
  1-8: by intros ? s Hs.
  - intros s _ p. simpl. rewrite !lookup_empty. done.
  - intros n items s. apply caches_aligned_backfill_loop.
  - intros items s H _.
    apply (caches_aligned_put_both 1 items
             (getEndCursorFromResults items) s H).
  - by intros p cached s H _ _.
  - intros p items s H _.
    apply (caches_aligned_put_both p items
             (getEndCursorFromResults items) s H).
  - intros c items s H. unfold apply_block. cbv zeta.
    pose proof (caches_aligned_window_loop
      (Z.to_nat (maxPagesToShow_of (ceil_div (len items) (pageSize s))))
      0 (Z.max 1 (c - 2)) items s H).
    case_test; by simpl.
  - intros p. simpl. by rewrite !lookup_empty.
Qed.

(** ** The busy flags *)

Lemma prefetchWindow_idle gw c w :
  idle (sess w) -> idle (sess (snd (prefetchWindow gw c w))).
Proof.
  intros [Hl Hp].
  destruct (prefetchWindow_display gw c w) as (_ & _ & _ & Hl' & _).
  split; [by rewrite Hl'|].
  destruct (refill gw c w) as [e|s1 e|s1 items] eqn:Hr.
  - rewrite (prefetchWindow_aborted _ _ _ _ Hr). cbn [snd].
    by rewrite (sf_prefetching _ _
                  (entry_cursor_frame gw (Z.max 1 (c - 2)) w)).
  - by destruct (prefetchWindow_failed _ _ _ _ _ Hr) as [_ ->].
  - destruct (prefetchWindow_completed _ _ _ _ _ Hr) as [_ ->]. done.
Qed.

Lemma show_page_idle gw p w :
  1 <= p -> idle (sess w) -> idle (sess (snd (show_page gw p w))).
Proof.
  intros Hp [Hl Hpf]. split.
  - unfold show_page, bind at 1, this at 1.
    destruct (pageCache (sess w) !! p) as [cached|]; [done|].
    unfold bind at 1, assign at 1, try_finally.
    by destruct (try_catch _ _ _) as [r w'].
  - apply (preserves_show_page (fun s => prefetching s = false));
      try done.
    intros n items s Hs.
    by rewrite (sf_prefetching _ _ (backfill_loop_frame n 0 items s)).
Qed.

Lemma goToPage_idle gw p w :
  idle (sess w) -> idle (sess (snd (goToPage gw p w))).
Proof.
  intros Hw. unfold goToPage, bind at 1, this at 1.
  destruct (p <? 1) eqn:Hp; [done|]. apply Z.ltb_ge in Hp.
  destruct (beyond_last (sess w) p); [done|].
  pose proof (show_page_idle gw p w Hp Hw) as Hs.
  unfold bind at 1. destruct (show_page gw p w) as [[[]|e] w1]; [|done].
  unfold bind, this, detached. cbn [snd sess fst] in *.
  by apply prefetchWindow_idle.
Qed.

Lemma doSearch_idle gw w :
  idle (sess w) -> idle (sess (snd (doSearch gw w))).
Proof.
  intros Hw.
  destruct (trim (query (sess w))) as [|c q] eqn:Hq.
  { unfold doSearch, bind, this. by rewrite Hq. }
  assert (Hq' : trim (query (sess w)) <> []) by (by rewrite Hq).
  destruct (gw (length (sent w))
              (buildPayload (sess w) (pageSize (sess w)) None))
    as [e|st txt|d] eqn:Hgw.
  - by rewrite (doSearch_failed gw w e Hq') by (by rewrite Hgw).
  - by rewrite (doSearch_failed gw w _ Hq') by (by rewrite Hgw).
  - rewrite (doSearch_answered gw w d Hq' Hgw). cbn [snd sess].
    split; [done|].
    exact (proj1 (proj2 (refill_from_page_one gw 1 _ ltac:(lia)))).
Qed.

Lemma handle_idle gw ev w :
  idle (sess w) -> idle (sess (snd (handle gw ev w))).
Proof.
  intros Hw. destruct ev as [q|b|l|o| |p]; simpl; try done.
  - unfold bind at 1, this at 1. destruct (_ =? _); [done|].
    unfold bind at 1, assign at 1. unfold watch_pageSize, bind at 1, this at 1.
    cbn [sess].
    destruct (trim _); [done|]. by apply doSearch_idle.
  - by apply doSearch_idle.
  - by apply goToPage_idle.
Qed.

(** X16.  No path leaves a busy flag up: in every state the page reaches
    once a handler and the refill it started have run to completion,
    [loading] and [prefetching] are both false, whether the requests were
    answered, failed, or the refill was rejected in its backfill. *)
Theorem busy_flags_are_lowered (gw : Gateway) (evs : list Event) :
  let s := sess (run gw evs world0) in
  loading s = false /\ prefetching s = false.
Proof.
  cbv zeta. change (idle (sess (run gw evs world0))).
  assert (H0 : idle (sess world0)) by done.
  revert H0. generalize world0.
  induction evs as [|ev evs IH]; intros w Hw; simpl; [done|].
  apply IH. by apply handle_idle.
Qed.

(** ** Changing the page size *)


Lemma handle_SelectPageSize gw o w :
  handle gw (SelectPageSize o) w =
  if pageSize (sess w) =? size_of o then (Ok tt, w)
  else watch_pageSize gw
         {| sess := set_pageSize (size_of o) (sess w); sent := sent w |}.
Proof.
  cbn [handle]. unfold bind, this, assign, ret. cbn beta iota.
  by destruct (pageSize (sess w) =? size_of o).
Qed.

Lemma watch_pageSize_eq gw w :
  watch_pageSize gw w =
  match trim (query (sess w)) with
  | [] => (Ok tt, w)
  | _ :: _ => doSearch gw w
  end.
Proof.
  unfold watch_pageSize, bind, this. cbn beta iota.
  by destruct (trim (query (sess w))).
Qed.


(** ** The buttons *)

(** X18.  The buttons agree with the guards of [goToPage].  With the
    current page at 1 or more: when Next is enabled, [goToPage] of the next
    page passes both guards and is not rejected; when Next is disabled and
    the last page is known, and whenever Prev is disabled, the call the
    button would make is rejected at once and changes nothing. *)
Theorem buttons_agree_with_guards (gw : Gateway) (w : World) :
  let s := sess w in
  1 <= currentPage s ->
  (nextDisabled s = false ->
   (currentPage s + 1 <? 1) = false /\
   beyond_last s (currentPage s + 1) = false) /\
  (nextDisabled s = true -> is_Some (noMoreAfterPage s) ->
   goToPage gw (currentPage s + 1) w = (Ok tt, w)) /\
  (prevDisabled s = true ->
   goToPage gw (currentPage s - 1) w = (Ok tt, w)).
Proof.
  cbv zeta. intros Hc. unfold nextDisabled, prevDisabled, canGoNext.
  split; [|split].
  - intros Hn. apply negb_false_iff in Hn.
    split; [apply Z.ltb_ge; lia|]. unfold beyond_last.
    destruct (noMoreAfterPage (sess w)) as [k|]; [|done].
    apply Z.ltb_lt in Hn. apply Z.ltb_ge. lia.
  - intros Hn [k Hk]. rewrite Hk in Hn. apply negb_true_iff in Hn.
    apply Z.ltb_ge in Hn. apply goToPage_guard. right.
    unfold beyond_last. rewrite Hk. apply Z.ltb_lt. lia.
  - intros Hp. apply Z.leb_le in Hp. apply goToPage_guard. left. lia.
Qed.

Lemma buttons_agree_with_guards_witness :
  let w := run gw_grows [Submit] world0 in
  1 <= currentPage (sess w) /\
  nextDisabled (sess w) = false /\
  prevDisabled (sess w) = true /\
  beyond_last (sess w) (currentPage (sess w) + 1) = false /\
  goToPage gw_grows (currentPage (sess w) - 1) w = (Ok tt, w).
Proof.
  cbv zeta.
  set (w := run gw_grows [Submit] world0).
  assert (H1 : 1 <= currentPage (sess w)) by (vm_compute; discriminate).
  assert (H2 : nextDisabled (sess w) = false) by (vm_compute; reflexivity).
  assert (H3 : prevDisabled (sess w) = true) by (vm_compute; reflexivity).
  destruct (buttons_agree_with_guards gw_grows w H1) as (Ha & _ & Hb).
  exact (conj H1 (conj H2 (conj H3 (conj (proj2 (Ha H2)) (Hb H3))))).
Defined.

(** ** The steady state: one request at a time *)

Lemma entry_cursor_cached gw p w c :
  1 < p -> cursor_at (sess w) (p - 1) = Some c ->
  entry_cursor gw p w = (Ok (Some c), w).
Proof.
  intros Hp Hc. unfold entry_cursor, ensureCursorForPageEnd.
  rewrite (proj2 (Z.eqb_neq p 1)) by lia.
  rewrite (proj2 (Z.leb_gt (p - 1) 0)) by lia.
  unfold bind, this. by rewrite Hc.
Qed.

(** X19.  Stepping to an uncached page whose predecessor's end-cursor is
    cached takes exactly one request of [goToPage]'s own: [pageSize] items
    behind that cursor.  When it is answered, the answer is cached as page
    [p] with its end-cursor, shown, and [p] becomes the current page;
    nothing else in the caches changes. *)
Theorem goToPage_next_page_one_request
    (gw : Gateway) (w : World) (p : Z) (c : Cursor) (d : Data) :
  let s := sess w in
  1 < p ->
  pageCache s !! p = None ->
  cursor_at s (p - 1) = Some c ->
  gw (length (sent w)) (buildPayload s (pageSize s) (Some c)) = Json d ->
  let items := default [] (d_results d) in
  let w' := snd (show_page gw p w) in
  sent w' = sent w ++ [buildPayload s (pageSize s) (Some c)] /\
  pageCache (sess w') = <[p := items]> (pageCache s) /\
  pageEndCursor (sess w') =
    <[p := getEndCursorFromResults items]> (pageEndCursor s) /\
  results (sess w') = items /\
  currentPage (sess w') = p /\
  loading (sess w') = false /\
  error (sess w') = error s.
Proof.
  cbv zeta. intros Hp Hmiss Hc Hgw.
  set (wl := {| sess := set_loading true (sess w); sent := sent w |}).
  assert (He : entry_cursor gw p wl = (Ok (Some c), wl)).
  { by apply entry_cursor_cached. }
  rewrite (show_page_fetched gw w p (Some c) wl d Hmiss He Hgw).
  by cbn [snd sess sent].
Qed.

Lemma goToPage_next_page_one_request_witness :
  let w := run gw_replay [Submit] world0 in
  let c := {| lastscore := 951 # 1; lastid := "49" |} in
  1 < 6 /\
  pageCache (sess w) !! 6 = None /\
  cursor_at (sess w) (6 - 1) = Some c /\
  gw_replay (length (sent w))
    (buildPayload (sess w) (pageSize (sess w)) (Some c))
    = answer (items_from 0 10) /\
  length (sent (snd (show_page gw_replay 6 w))) = S (length (sent w)) /\
  currentPage (sess (snd (show_page gw_replay 6 w))) = 6.
Proof.
  cbv zeta.
  set (w := run gw_replay [Submit] world0).
  set (c := {| lastscore := 951 # 1; lastid := "49" |}).
  assert (H1 : 1 < 6) by reflexivity.
  assert (H2 : pageCache (sess w) !! 6 = None) by (vm_compute; reflexivity).
  assert (H3 : cursor_at (sess w) (6 - 1) = Some c)
    by (vm_compute; reflexivity).
  assert (H4 : gw_replay (length (sent w))
                 (buildPayload (sess w) (pageSize (sess w)) (Some c))
               = Json {| d_results := Some (items_from 0 10);
                         d_total_hits := 0; d_took_ms := 0 |})
    by (vm_compute; reflexivity).
  destruct (goToPage_next_page_one_request gw_replay w 6 c _ H1 H2 H3 H4)
    as (Hs & _ & _ & _ & Hcp & _).
  refine (conj H1 (conj H2 (conj H3 (conj H4 (conj _ Hcp))))).
  rewrite Hs, length_app. simpl. lia.
Defined.

(** X20.  A refill whose entry cursor is at hand sends one request: when
    the window starts at page 1, or the end-cursor of the page before the
    window is cached, [prefetchWindow] sends exactly one request, for
    [5 * pageSize] items behind that cursor (a null cursor for a window
    that starts at page 1), and does not reject. *)
Theorem refill_sends_one_request_behind_cursor
    (gw : Gateway) (c : Z) (w : World) :
  let s := sess w in
  let start := Z.max 1 (c - 2) in
  let cur := if start =? 1 then None else cursor_at s (start - 1) in
  start = 1 \/ is_Some (cursor_at s (start - 1)) ->
  fst (prefetchWindow gw c w) = Ok tt /\
  sent (snd (prefetchWindow gw c w)) =
    sent w ++ [buildPayload s (pageSize s * 5) cur].
Proof.
  cbv zeta. intros Hcur.
  set (start := Z.max 1 (c - 2)) in *.
  assert (He : entry_cursor gw start w =
               (Ok (if start =? 1 then None
                    else cursor_at (sess w) (start - 1)), w)).
  { destruct (start =? 1) eqn:E.
    - unfold entry_cursor. by rewrite E.
    - apply Z.eqb_neq in E. destruct Hcur as [|[cv Hcv]]; [done|].
      rewrite Hcv. apply entry_cursor_cached; [lia | done]. }
  unfold prefetchWindow. cbv zeta. fold start.
  unfold bind, assign, try_finally, try_catch, this, callSearchApi.
  cbn beta. rewrite He. cbn [sess sent fst snd].
  rewrite buildPayload_prefetching.
  change (pageSize (set_prefetching true (sess w))) with (pageSize (sess w)).
  destruct (gw _ _); cbn [sess sent fst snd]; by split.
Qed.

Lemma refill_sends_one_request_behind_cursor_witness :
  let w := run gw_replay [Submit] world0 in
  let c3 := getEndCursorFromResults (items_from 20 10) in
  (Z.max 1 (6 - 2) = 1 \/
   is_Some (cursor_at (sess w) (Z.max 1 (6 - 2) - 1))) /\
  sent (snd (prefetchWindow gw_replay 6 w)) =
    sent w ++ [buildPayload (sess w) 50 c3].
Proof.
  cbv zeta.
  set (w := run gw_replay [Submit] world0).
  assert (H1 : Z.max 1 (6 - 2) = 1 \/
               is_Some (cursor_at (sess w) (Z.max 1 (6 - 2) - 1))).
  { right. vm_compute. eexists. reflexivity. }
  split; [exact H1|].
  rewrite (proj2 (refill_sends_one_request_behind_cursor gw_replay 6 w H1)).
  vm_compute. reflexivity.
Defined.

(** ** How many requests a handler sends *)

Lemma sends_ret {A} (a : A) : sends_at_most 0 (ret a).
Proof. intros w. exists []. by rewrite app_nil_r. Qed.

Lemma sends_this : sends_at_most 0 this.
Proof. intros w. exists []. by rewrite app_nil_r. Qed.

Lemma sends_assign f : sends_at_most 0 (assign f).
Proof. intros w. exists []. by rewrite app_nil_r. Qed.

Lemma sends_call gw size cur : sends_at_most 1 (callSearchApi gw size cur).
Proof.
  intros w. exists [buildPayload (sess w) size cur].
  unfold callSearchApi. by destruct (gw _ _).
Qed.

Lemma sends_weaken {A} (m : M A) a b :
  (a <= b)%nat -> sends_at_most a m -> sends_at_most b m.
Proof. intros Hab Hm w. destruct (Hm w) as (l & ? & ?). exists l. split; [done|lia]. Qed.

Lemma sends_bind {A B} (m : M A) (k : A -> M B) a b :
  sends_at_most a m -> (forall x, sends_at_most b (k x)) ->
  sends_at_most (a + b) (bind m k).
Proof.
  intros Hm Hk w. unfold bind. destruct (Hm w) as (l1 & H1 & Hl1).
  destruct (m w) as [[x|e] w1]; simpl in *.
  - destruct (Hk x w1) as (l2 & H2 & Hl2). exists (l1 ++ l2).
    rewrite H2, H1, app_assoc, length_app. split; [done|lia].
  - exists l1. split; [done|lia].
Qed.

Lemma sends_try_catch body handler a b :
  sends_at_most a body -> (forall e, sends_at_most b (handler e)) ->
  sends_at_most (a + b) (try_catch body handler).
Proof.
  intros Hm Hk w. unfold try_catch. destruct (Hm w) as (l1 & H1 & Hl1).
  destruct (body w) as [[x|e] w1]; simpl in *.
  - exists l1. split; [done|lia].
  - destruct (Hk e w1) as (l2 & H2 & Hl2). exists (l1 ++ l2).
    rewrite H2, H1, app_assoc, length_app. split; [done|lia].
Qed.

Lemma sends_try_finally body fin a b :
  sends_at_most a body -> sends_at_most b fin ->
  sends_at_most (a + b) (try_finally body fin).
Proof.
  intros Hm Hk w. unfold try_finally. destruct (Hm w) as (l1 & H1 & Hl1).
  destruct (body w) as [r w1]; simpl in *.
  destruct (Hk w1) as (l2 & H2 & Hl2). exists (l1 ++ l2).
  rewrite H2, H1, app_assoc, length_app. split; [done|lia].
Qed.

Lemma sends_detached m a : sends_at_most a m -> sends_at_most a (detached m).
Proof. intros Hm w. exact (Hm w). Qed.

Lemma sends_ensureCursorForPageEnd gw n :
  sends_at_most 1 (ensureCursorForPageEnd gw n).
Proof.
  unfold ensureCursorForPageEnd.
  destruct (n <=? 0); [apply (sends_weaken _ 0); [lia | apply sends_ret]|].
  apply (sends_bind _ _ 0 1); [apply sends_this|]. intros s.
  destruct (cursor_at s n);
    [apply (sends_weaken _ 0); [lia | apply sends_ret]|].
  apply (sends_bind _ _ 1 0); [apply sends_call|]. intros d.
  apply (sends_bind _ _ 0 0); [apply sends_assign|]. intros _.
  apply (sends_bind _ _ 0 0); [apply sends_this|]. intros s'.
  apply sends_ret.
Qed.

Lemma sends_entry_cursor gw start :
  sends_at_most 1 (entry_cursor gw start).
Proof.
  unfold entry_cursor. destruct (start =? 1);
    [apply (sends_weaken _ 0); [lia | apply sends_ret]
    | apply sends_ensureCursorForPageEnd].
Qed.

Lemma sends_prefetchWindow gw c : sends_at_most 2 (prefetchWindow gw c).
Proof.
  unfold prefetchWindow.
  apply (sends_bind _ _ 1 1); [apply sends_entry_cursor|]. intros cur.
  apply (sends_bind _ _ 0 1); [apply sends_assign|]. intros _.
  apply (sends_try_finally _ _ 1 0); [|apply sends_assign].
  apply (sends_try_catch _ _ 1 0); [|intros e; apply sends_assign].
  apply (sends_bind _ _ 0 1); [apply sends_this|]. intros s.
  apply (sends_bind _ _ 1 0); [apply sends_call|]. intros d.
  apply sends_assign.
Qed.

Lemma sends_show_page gw p : sends_at_most 2 (show_page gw p).
Proof.
  unfold show_page.
  apply (sends_bind _ _ 0 2); [apply sends_this|]. intros s.
  destruct (pageCache s !! p);
    [apply (sends_weaken _ 0); [lia | apply sends_assign]|].
  apply (sends_bind _ _ 0 2); [apply sends_assign|]. intros _.
  apply (sends_try_finally _ _ 2 0); [|apply sends_assign].
  apply (sends_try_catch _ _ 2 0); [|intros e; apply sends_assign].
  apply (sends_bind _ _ 1 1); [apply sends_entry_cursor|]. intros cur.
  apply (sends_bind _ _ 0 1); [apply sends_this|]. intros s'.
  apply (sends_bind _ _ 1 0); [apply sends_call|]. intros d.
  apply sends_assign.
Qed.

Lemma sends_goToPage gw p : sends_at_most 4 (goToPage gw p).
Proof.
  unfold goToPage.
  apply (sends_bind _ _ 0 4); [apply sends_this|]. intros s.
  destruct (p <? 1); [apply (sends_weaken _ 0); [lia | apply sends_ret]|].
  destruct (beyond_last s p);
    [apply (sends_weaken _ 0); [lia | apply sends_ret]|].
  apply (sends_bind _ _ 2 2); [apply sends_show_page|]. intros _.
  apply (sends_bind _ _ 0 2); [apply sends_this|]. intros s'.
  apply sends_detached, sends_prefetchWindow.
Qed.

(** X21.  One navigation costs at most four requests, and the log of
    requests only grows: whatever the state and the service, [goToPage]
    leaves every request already sent in place and appends at most four
    (a backfill and the page, then a backfill and the bulk request of the
    refill); the refill alone appends at most two. *)
Theorem goToPage_sends_at_most_four (gw : Gateway) (p c : Z) (w : World) :
  (exists l, sent (snd (goToPage gw p w)) = sent w ++ l /\
             (length l <= 4)%nat) /\
  (exists l, sent (snd (prefetchWindow gw c w)) = sent w ++ l /\
             (length l <= 2)%nat).
Proof.
  split; [apply sends_goToPage | apply sends_prefetchWindow].
Qed.

(** ** Handlers do not reject *)

Lemma show_page_ok gw p w : fst (show_page gw p w) = Ok tt.
Proof.
  unfold show_page, bind at 1, this at 1.
  destruct (pageCache (sess w) !! p); [done|].
  unfold bind at 1, assign at 1, try_finally, try_catch.
  destruct (bind _ _ _) as [[[]|e] w1]; done.
Qed.

Lemma goToPage_ok gw p w : fst (goToPage gw p w) = Ok tt.
Proof.
  unfold goToPage, bind at 1, this at 1.
  destruct (p <? 1); [done|]. destruct (beyond_last (sess w) p); [done|].
  unfold bind at 1. pose proof (show_page_ok gw p w) as H.
  destruct (show_page gw p w) as [[[]|e] w1]; [done | discriminate].
Qed.

Lemma doSearch_ok gw w : fst (doSearch gw w) = Ok tt.
Proof.
  unfold doSearch, bind at 1, this at 1.
  destruct (trim (query (sess w))); [done|].
  unfold bind at 1, assign at 1, try_finally, try_catch.
  unfold bind at 1, this at 1. unfold bind at 1.
  destruct (callSearchApi gw _ None _) as [[d|e] w1]; [|done].
  unfold bind, assign, this, detached. done.
Qed.

(** X22.  No handler of the page rejects, whatever the service does:
    [doSearch], [goToPage] and the handlers of the form controls always
    complete normally.  Request failures end in the [catch] of the method
    that awaited them, and a rejection of the detached refill is not
    awaited by anyone. *)
Theorem handlers_never_reject (gw : Gateway) (ev : Event) (w : World) :
  fst (handle gw ev w) = Ok tt.
Proof.
  destruct ev as [q|b|l|o| |p]; try done.
  - rewrite handle_SelectPageSize, watch_pageSize_eq.
    destruct (_ =? _); [done|].
    destruct (trim _); [done | apply doSearch_ok].
  - apply doSearch_ok.
  - apply goToPage_ok.
Qed.

(** * Refills in flight *)

(** ** Splitting a refill at its requests *)

Lemma send_bulk_eq gw start cur w :
  send_bulk gw start cur w =
  (Bulk start (gw (length (sent w))
                 (buildPayload (sess w) (pageSize (sess w) * 5) cur)),
   {| sess := set_prefetching true (sess w);
      sent := sent w ++ [buildPayload (sess w) (pageSize (sess w) * 5) cur] |}).
Proof. reflexivity. Qed.

Lemma arrive_bulk_eq gw start o w :
  arrive gw (Bulk start o) w =
  (None,
   {| sess := set_prefetching false
                match received o with
                | Ok data =>
                    apply_block start (default [] (d_results data)) (sess w)
                | Throw e =>
                    set_error (if str_truthy (error (sess w))
                               then error (sess w) else err_text e) (sess w)
                end;
      sent := sent w |}).
Proof. reflexivity. Qed.

Lemma settle_bulk gw start o w :
  settle gw (Bulk start o) w = snd (arrive gw (Bulk start o) w).
Proof. reflexivity. Qed.

(** Splitting [prefetchWindow] at its requests loses nothing: a refill
    whose answers arrive at once is the method run to its end. *)
Lemma prefetchWindow_split gw c w :
  settle gw (fst (start_refill gw c w)) (snd (start_refill gw c w))
  = snd (prefetchWindow gw c w).
Proof.
  unfold start_refill, prefetchWindow, entry_cursor.
  set (start := Z.max 1 (c - 2)).
  destruct (start =? 1) eqn:Hs.
  - unfold settle, send_bulk, post, arrive, bind, ret, assign, try_finally,
      try_catch, this, callSearchApi. cbn [fst snd sess sent].
    destruct (gw _ _); reflexivity.
  - unfold cursor_or_request, ensureCursorForPageEnd.
    unfold settle, arrive, send_bulk, post, bind, ret, assign, try_finally,
      try_catch, this, callSearchApi, backfilled.
    cbn beta.
    destruct (start - 1 <=? 0) eqn:Hz.
    + cbn [fst snd sess sent]. destruct (gw _ _); reflexivity.
    + destruct (cursor_at (sess w) (start - 1)) as [cur|] eqn:Hc.
      * cbn [fst snd sess sent]. destruct (gw _ _); reflexivity.
      * cbn [fst snd sess sent].
        destruct (gw (length (sent w)) _) as [e|st txt|d];
          cbn [received fst snd sess sent]; try reflexivity.
        destruct (gw _ _); reflexivity.
Qed.

Lemma start_refill_near_top gw c w :
  c <= 3 -> start_refill gw c w = send_bulk gw 1 None w.
Proof.
  intros Hc. unfold start_refill.
  replace (Z.max 1 (c - 2)) with 1 by lia. reflexivity.
Qed.

(** The refill block neither reads nor writes [loading]. *)
Lemma window_loop_set_loading b n i start items s :
  window_loop n i start items (set_loading b s)
  = set_loading b (window_loop n i start items s).
Proof.
  revert i s. induction n as [|n IH]; intros i s; [done|].
  cbn [window_loop].
  change (pageSize (set_loading b s)) with (pageSize s).
  destruct (js_slice items (i * pageSize s) ((i + 1) * pageSize s))
    as [|x sl]; [done|].
  rewrite <- IH. reflexivity.
Qed.

Lemma apply_block_set_loading b start items s :
  apply_block start items (set_loading b s)
  = set_loading b (apply_block start items s).
Proof.
  unfold apply_block. cbv zeta.
  change (pageSize (set_loading b s)) with (pageSize s).
  rewrite window_loop_set_loading.
  set (s1 := window_loop _ _ _ _ s).
  set (k := maxPagesToShow_of (ceil_div (len items) (pageSize s))).
  change (pageSize (set_window start (start + k - 1) (set_loading b s1)))
    with (pageSize (set_window start (start + k - 1) s1)).
  change (pageCache (set_window start (start + k - 1) (set_loading b s1)))
    with (pageCache (set_window start (start + k - 1) s1)).
  change (windowEnd (set_window start (start + k - 1) (set_loading b s1)))
    with (windowEnd (set_window start (start + k - 1) s1)).
  case_test; reflexivity.
Qed.

Lemma arrive_bulk_set_loading gw b start o s l :
  arrive gw (Bulk start o) {| sess := set_loading b s; sent := l |}
  = (None,
     {| sess := set_loading b
                  (sess (snd (arrive gw (Bulk start o)
                                {| sess := s; sent := l |})));
        sent := l |}).
Proof.
  unfold arrive. cbn [sess sent snd].
  destruct (received o) as [d|e]; [|reflexivity].
  by rewrite apply_block_set_loading.
Qed.

Lemma doSearch_start_answered gw w d :
  trim (query (sess w)) <> [] ->
  gw (length (sent w)) (buildPayload (sess w) (pageSize (sess w)) None)
    = Json d ->
  let w1 := {| sess := first_page d (started (sess w));
               sent := sent w ++
                       [buildPayload (sess w) (pageSize (sess w)) None] |} in
  doSearch_start gw w =
    (Some (fst (send_bulk gw 1 None w1)),
     {| sess := set_loading false (sess (snd (send_bulk gw 1 None w1)));
        sent := sent (snd (send_bulk gw 1 None w1)) |}).
Proof.
  intros Hq Hd. cbv zeta. unfold doSearch_start.
  destruct (trim (query (sess w))); [done|].
  unfold post. cbn [sess sent].
  change (buildPayload (started (sess w)) (pageSize (started (sess w))) None)
    with (buildPayload (sess w) (pageSize (sess w)) None).
  rewrite Hd. cbn [received].
  change (currentPage (first_page d (started (sess w)))) with 1.
  rewrite start_refill_near_top by lia.
  rewrite send_bulk_eq. reflexivity.
Qed.

(** [doSearch] with its refill delivered at once is [doSearch] run to
    completion; the refill it starts is a bulk request from page 1. *)
Lemma doSearch_start_settle gw w :
  match doSearch_start gw w with
  | (None, w1) => w1 = snd (doSearch gw w)
  | (Some f, w1) =>
      (exists o, f = Bulk 1 o) /\
      snd (arrive gw f w1) = snd (doSearch gw w)
  end.
Proof.
  destruct (trim (query (sess w))) as [|c q] eqn:Hq.
  { unfold doSearch_start, doSearch, bind, this. cbn beta iota.
    by rewrite Hq. }
  assert (Hq' : trim (query (sess w)) <> []) by (by rewrite Hq).
  destruct (gw (length (sent w))
              (buildPayload (sess w) (pageSize (sess w)) None))
    as [e|st txt|d] eqn:Hgw.
  - rewrite (doSearch_failed gw w e Hq') by (by rewrite Hgw).
    unfold doSearch_start, post. rewrite Hq. cbn [sess sent].
    change (buildPayload (started (sess w)) (pageSize (started (sess w))) None)
      with (buildPayload (sess w) (pageSize (sess w)) None).
    rewrite Hgw. reflexivity.
  - rewrite (doSearch_failed gw w _ Hq') by (by rewrite Hgw).
    unfold doSearch_start, post. rewrite Hq. cbn [sess sent].
    change (buildPayload (started (sess w)) (pageSize (started (sess w))) None)
      with (buildPayload (sess w) (pageSize (sess w)) None).
    rewrite Hgw. reflexivity.
  - rewrite (doSearch_start_answered gw w d Hq' Hgw).
    rewrite (doSearch_answered gw w d Hq' Hgw).
    set (w1 := {| sess := first_page d (started (sess w));
                  sent := sent w ++
                          [buildPayload (sess w) (pageSize (sess w)) None]
               |}).
    rewrite <- (prefetchWindow_split gw 1 w1).
    rewrite start_refill_near_top by lia.
    rewrite send_bulk_eq. cbn [fst snd sess sent].
    split; [by eexists|].
    rewrite settle_bulk, arrive_bulk_set_loading.
    rewrite arrive_bulk_eq. reflexivity.
Qed.

Lemma goToPage_start_settle gw p w :
  match goToPage_start gw p w with
  | (None, w1) => w1 = snd (goToPage gw p w)
  | (Some f, w1) => settle gw f w1 = snd (goToPage gw p w)
  end.
Proof.
  pose proof (show_page_ok gw p w) as Hok.
  unfold goToPage_start, goToPage, bind, this, ret, detached. cbn beta iota.
  destruct (p <? 1); [reflexivity|].
  destruct (beyond_last (sess w) p); [reflexivity|].
  destruct (show_page gw p w) as [r w1]. cbn [fst] in Hok. subst r.
  cbn [snd].
  rewrite <- (prefetchWindow_split gw (currentPage (sess w1)) w1).
  by destruct (start_refill gw (currentPage (sess w1)) w1).
Qed.

Lemma handle_start_settle gw ev w :
  match handle_start gw ev w with
  | (None, w1) => w1 = step gw w ev
  | (Some f, w1) => settle gw f w1 = step gw w ev
  end.
Proof.
  destruct ev as [q|b|l|o| |p]; try reflexivity.
  - unfold step. rewrite handle_SelectPageSize. cbn [handle_start].
    destruct (pageSize (sess w) =? size_of o); [reflexivity|].
    rewrite watch_pageSize_eq.
    set (w1 := {| sess := set_pageSize (size_of o) (sess w);
                  sent := sent w |}).
    destruct (trim (query (sess w1))) as [|c q] eqn:Hq; [reflexivity|].
    pose proof (doSearch_start_settle gw w1) as H.
    destruct (doSearch_start gw w1) as [[f|] w2]; [|exact H].
    destruct H as [[o' ->] H]. by rewrite settle_bulk.
  - unfold step. cbn [handle_start handle].
    pose proof (doSearch_start_settle gw w) as H.
    destruct (doSearch_start gw w) as [[f|] w2]; [|exact H].
    destruct H as [[o' ->] H]. by rewrite settle_bulk.
  - exact (goToPage_start_settle gw p w).
Qed.

Lemma tick_user gw ev w l :
  tick gw {| page := w; flying := l |} (User ev)
  = {| page := snd (handle_start gw ev w);
       flying := l ++ option_list (fst (handle_start gw ev w)) |}.
Proof.
  unfold tick. cbn [page flying]. by destruct (handle_start gw ev w).
Qed.

Lemma tick_deliver_single gw f w :
  tick gw {| page := w; flying := [f] |} (Deliver 0)
  = {| page := snd (arrive gw f w);
       flying := option_list (fst (arrive gw f w)) |}.
Proof.
  unfold tick. cbn [page flying]. change ([f] !! 0%nat) with (Some f).
  cbn iota. by destruct (arrive gw f w) as [[g|] w1].
Qed.

Lemma tick_deliver_none gw w i :
  tick gw {| page := w; flying := [] |} (Deliver i)
  = {| page := w; flying := [] |}.
Proof. unfold tick. cbn [page flying]. by rewrite lookup_nil. Qed.

Lemma deliver_settle gw f w :
  play gw [Deliver 0; Deliver 0] {| page := w; flying := [f] |}
  = {| page := settle gw f w; flying := [] |}.
Proof.
  unfold play, settle. cbn [foldl]. rewrite tick_deliver_single.
  destruct f as [start o|start o].
  - unfold arrive at 1 2 3. destruct (received o) as [d|e].
    + rewrite send_bulk_eq. cbn [fst snd option_list option_rect].
      rewrite tick_deliver_single, arrive_bulk_eq. reflexivity.
    + cbn [fst snd option_list option_rect]. by rewrite tick_deliver_none.
  - rewrite arrive_bulk_eq. cbn [fst snd option_list option_rect].
    by rewrite tick_deliver_none.
Qed.

(** Run to completion is the schedule in which the answers of a refill
    arrive before the next event: with nothing in flight, an event
    followed by the delivery of the refill it starts (a backfill answer,
    then a bulk answer, at most) is one [step]. *)
Lemma prompt_delivery_is_run gw ev w :
  play gw [User ev; Deliver 0; Deliver 0] {| page := w; flying := [] |}
  = {| page := step gw w ev; flying := [] |}.
Proof.
  pose proof (handle_start_settle gw ev w) as H.
  change (play gw [User ev; Deliver 0; Deliver 0]
            {| page := w; flying := [] |})
    with (play gw [Deliver 0; Deliver 0]
            (tick gw {| page := w; flying := [] |} (User ev))).
  rewrite tick_user.
  destruct (handle_start gw ev w) as [[f|] w1].
  - cbn [fst snd option_list option_rect app]. by rewrite deliver_settle, H.
  - cbn [fst snd option_list option_rect app]. by rewrite H.
Qed.

(** ** A search with nothing in flight *)




(** ** The pager under run to completion

    When every answer arrives before the user's next action, and the user
    does only what the template offers, the pages up to the current page
    and up to the end of the window all have an entry in the page cache:
    the pager shows no button for a page that is not cached. *)

Lemma dense_refill gw w :
  0 < pageSize (sess w) -> 1 <= currentPage (sess w) ->
  dense (sess w) ->
  dense (sess (snd (prefetchWindow gw (currentPage (sess w)) w))).
Proof.
  intros Hps Hcp Hd.
  set (c := currentPage (sess w)) in *.
  destruct (prefetchWindow_display gw c w)
    as (_ & Hc & Hmeta & _ & _ & _ & _ & _ & Hkeep).
  intros Hm. rewrite Hmeta in Hm. destruct (Hd Hm) as [Hws Hup].
  rewrite Hc. fold c.
  destruct (refill gw c w) as [e|s1 e|s1 items] eqn:Hr.
  - pose proof (entry_cursor_frame gw (Z.max 1 (c - 2)) w) as Hf.
    assert (Hs : sess (snd (prefetchWindow gw c w))
                 = sess (snd (entry_cursor gw (Z.max 1 (c - 2)) w)))
      by (by rewrite (prefetchWindow_aborted _ _ _ _ Hr)).
    rewrite Hs in Hkeep |- *.
    rewrite (sf_windowStart _ _ Hf), (sf_windowEnd _ _ Hf). split; [done|].
    intros p Hp. by apply Hkeep, Hup.
  - destruct (prefetchWindow_failed _ _ _ _ _ Hr) as [_ Hs].
    pose proof (refill_failed_frame _ _ _ _ _ Hr) as Hf.
    assert (Hws' : windowStart (sess (snd (prefetchWindow gw c w)))
                   = windowStart (sess w)).
    { rewrite Hs. exact (sf_windowStart _ _ Hf). }
    assert (Hwe' : windowEnd (sess (snd (prefetchWindow gw c w)))
                   = windowEnd (sess w)).
    { rewrite Hs. exact (sf_windowEnd _ _ Hf). }
    rewrite Hws', Hwe'. split; [done|].
    intros p Hp. by apply Hkeep, Hup.
  - destruct (prefetchWindow_completed _ _ _ _ _ Hr) as [_ Hs].
    pose proof (refill_completed_frame _ _ _ _ _ Hr) as Hf.
    set (sp := set_prefetching true s1) in *.
    assert (Hpsp : 0 < pageSize sp).
    { subst sp. cbn [pageSize set_prefetching].
      rewrite (sf_pageSize _ _ Hf). lia. }
    destruct (apply_block_window (Z.max 1 (c - 2)) items sp) as [Hs1 Hs2].
    assert (Hws' : windowStart (sess (snd (prefetchWindow gw c w)))
                   = Z.max 1 (c - 2)) by (by rewrite Hs).
    assert (Hwe' : windowEnd (sess (snd (prefetchWindow gw c w)))
                   = Z.max 1 (c - 2)
                     + maxPagesToShow_of (ceil_div (len items) (pageSize sp))
                     - 1) by (by rewrite Hs).
    rewrite Hws', Hwe'. split; [lia|]. intros p Hp.
    destruct (decide (p <= c)) as [Hle|Hgt].
    { apply Hkeep, Hup. lia. }
    rewrite Hs. cbn [pageCache set_prefetching].
    destruct items as [|x items'].
    { exfalso. revert Hp.
      assert (ceil_div (len (@nil ResultItem)) (pageSize sp) = 0) as ->.
      { by apply ceil_div_zero_iff. }
      unfold maxPagesToShow_of. simpl. lia. }
    rewrite apply_block_cache by done.
    rewrite bool_decide_eq_true_2; [eauto|].
    rewrite Hs1, Hs2. lia.
Qed.

Lemma thrown_none o : thrown o = None -> exists d, o = Json d.
Proof. destruct o; try done. eauto. Qed.

Lemma dense_show_page gw p w :
  1 <= p ->
  p <= currentPage (sess w) + 1 \/ p <= windowEnd (sess w) ->
  dense (sess w) -> dense (sess (snd (show_page gw p w))).
Proof.
  intros Hp Hoff Hd.
  destruct (pageCache (sess w) !! p) as [cached|] eqn:Hc.
  { assert (Hshow : show_page gw p w =
              (Ok tt, {| sess := set_results cached
                                   (set_currentPage p (sess w));
                         sent := sent w |})).
    { unfold show_page, bind, this, assign. by rewrite Hc. }
    rewrite Hshow. cbn [snd sess]. intros Hm.
    destruct (Hd Hm) as [Hws Hup]. split; [done|]. intros q Hq.
    cbn [currentPage windowEnd pageCache set_results set_currentPage] in *.
    destruct (decide (q = p)) as [->|Hne]; [by rewrite Hc|].
    apply Hup. lia. }
  destruct (page_fetch_failure gw p w) as [e|] eqn:Hf.
  { destruct (show_page_failed gw w p e Hc Hf) as (w1 & -> & Hfr & Hk).
    cbn [snd sess]. intros Hm.
    assert (Hm' : is_Some (meta (sess w))).
    { pose proof (sf_meta _ _ Hfr) as E0.
      cbn [meta set_loading set_error] in E0, Hm. by rewrite <- E0. }
    destruct (Hd Hm') as [Hws Hup].
    pose proof (sf_windowStart _ _ Hfr) as E1.
    pose proof (sf_windowEnd _ _ Hfr) as E2.
    pose proof (sf_currentPage _ _ Hfr) as E3.
    cbn [windowStart windowEnd currentPage pageCache set_loading set_error]
      in *.
    rewrite E1, E2, E3.
    split; [done|]. intros q Hq.
    destruct (Hup q Hq) as [v Hv]. exists v. by apply Hk. }
  set (wl := {| sess := set_loading true (sess w); sent := sent w |}).
  pose proof (entry_cursor_frame gw p wl) as Hfr.
  assert (Hk : forall q v, pageCache (sess w) !! q = Some v ->
             pageCache (sess (snd (entry_cursor gw p wl))) !! q = Some v).
  { intros q v Hq. by apply entry_cursor_keeps_pages. }
  unfold page_fetch_failure in Hf. fold wl in Hf.
  destruct (entry_cursor gw p wl) as [[cur|e'] w1] eqn:Hec; [|done].
  cbn [snd] in Hfr, Hk.
  destruct (thrown_none _ Hf) as [d Hgw].
  rewrite (show_page_fetched gw w p cur w1 d Hc Hec Hgw).
  cbn [snd sess]. intros Hm.
  assert (Hm' : is_Some (meta (sess w))).
  { pose proof (sf_meta _ _ Hfr) as E0.
    subst wl.
    cbn [meta set_loading apply_page set_results set_currentPage put_cursor
         put_page set_pageEndCursor set_pageCache sess] in E0, Hm.
    by rewrite <- E0. }
  destruct (Hd Hm') as [Hws Hup].
  pose proof (sf_windowStart _ _ Hfr) as E1.
  pose proof (sf_windowEnd _ _ Hfr) as E2.
  subst wl.
  cbn [windowStart windowEnd currentPage pageCache set_loading apply_page
       set_results set_currentPage put_cursor put_page set_pageEndCursor
       set_pageCache sess] in *.
  rewrite E1, E2. split; [done|]. intros q Hq.
  destruct (decide (q = p)) as [->|Hne].
  { rewrite lookup_insert_eq. eauto. }
  rewrite lookup_insert_ne by done.
  assert (Hlt : ~ (1 <= p
                   <= Z.max (currentPage (sess w)) (windowEnd (sess w)))).
  { intros Hin. destruct (Hup p Hin) as [v Hv]. by rewrite Hc in Hv. }
  destruct (Hup q ltac:(lia)) as [v Hv]. exists v. by apply Hk.
Qed.

Lemma dense_doSearch gw w :
  0 < pageSize (sess w) -> dense (sess w) ->
  dense (sess (snd (doSearch gw w))).
Proof.
  intros Hps Hd.
  destruct (trim (query (sess w))) as [|c q] eqn:Hq.
  { unfold doSearch, bind, this. cbn beta iota. by rewrite Hq. }
  assert (Hq' : trim (query (sess w)) <> []) by (by rewrite Hq).
  destruct (gw (length (sent w))
              (buildPayload (sess w) (pageSize (sess w)) None))
    as [e|st txt|d] eqn:Hgw.
  - rewrite (doSearch_failed gw w e Hq') by (by rewrite Hgw).
    intros [m Hm]. done.
  - rewrite (doSearch_failed gw w _ Hq') by (by rewrite Hgw).
    intros [m Hm]. done.
  - rewrite (doSearch_answered gw w d Hq' Hgw). cbn [snd sess].
    set (w1 := {| sess := first_page d (started (sess w));
                  sent := sent w ++
                          [buildPayload (sess w) (pageSize (sess w)) None]
               |}).
    assert (Hd1 : dense (sess w1)).
    { intros _. split; [done|]. intros p Hp.
      assert (p = 1) as -> by (revert Hp; subst w1; simpl; lia).
      subst w1. unfold first_page. simpl. rewrite lookup_insert_eq. eauto. }
    pose proof (dense_refill gw w1 Hps ltac:(done) Hd1) as H.
    exact H.
Qed.

Lemma offered_Navigate s p :
  offered s (Navigate p) = true ->
  p <= currentPage s + 1 \/ p <= windowEnd s.
Proof.
  cbn [offered]. intros H. apply andb_true_iff in H as [_ H].
  apply orb_true_iff in H as [H|H];
    [apply orb_true_iff in H as [H|H]|].
  - apply andb_true_iff in H as [_ H]. apply Z.eqb_eq in H. lia.
  - apply bool_decide_eq_true_1, elem_of_pageNumbers in H. lia.
  - apply andb_true_iff in H as [_ H]. apply Z.eqb_eq in H. lia.
Qed.

Lemma dense_step gw w ev :
  world_ok w -> dense (sess w) -> offered (sess w) ev = true ->
  dense (sess (step gw w ev)).
Proof.
  intros Hok Hd Hoff.
  destruct (sane_pageSize _ (proj1 Hok)) as [Hps _].
  destruct ev as [q|b|l|o| |p]; try exact Hd.
  - unfold step. rewrite handle_SelectPageSize.
    destruct (pageSize (sess w) =? size_of o); [exact Hd|].
    rewrite watch_pageSize_eq.
    set (w1 := {| sess := set_pageSize (size_of o) (sess w);
                  sent := sent w |}).
    destruct (trim (query (sess w1))) eqn:Hq; [exact Hd|].
    apply dense_doSearch; [by destruct o | exact Hd].
  - by apply dense_doSearch.
  - apply offered_Navigate in Hoff. unfold step. cbn [handle].
    destruct (decide (p < 1 \/ beyond_last (sess w) p = true)) as [Hg|Hg].
    { by rewrite (goToPage_guard gw w p Hg). }
    assert (Hp : 1 <= p) by lia.
    assert (Hb : beyond_last (sess w) p = false).
    { destruct (beyond_last (sess w) p); [|done].
      exfalso. apply Hg. by right. }
    pose proof (show_page_ok gw p w) as Hsok.
    pose proof (world_ok_show_page gw p w Hp Hok) as Hok1.
    pose proof (dense_show_page gw p w Hp Hoff Hd) as Hd1.
    assert (Hgo : snd (goToPage gw p w) =
                  snd (prefetchWindow gw
                         (currentPage (sess (snd (show_page gw p w))))
                         (snd (show_page gw p w)))).
    { unfold goToPage, bind, this, ret, detached. cbn beta iota.
      destruct (p <? 1) eqn:E; [apply Z.ltb_lt in E; lia|]. rewrite Hb.
      destruct (show_page gw p w) as [r w1]. cbn [fst] in Hsok. by subst r. }
    rewrite Hgo.
    destruct (sane_pageSize _ (proj1 Hok1)) as [Hps1 _].
    apply dense_refill; [done | exact (proj2 (proj1 Hok1)) | done].
Qed.

Lemma offered_run_dense gw evs w :
  world_ok w -> dense (sess w) -> all_offered gw evs w = true ->
  dense (sess (run gw evs w)).
Proof.
  revert w. induction evs as [|ev evs IH]; intros w Hok Hd Ho; [done|].
  cbn [all_offered] in Ho. apply andb_true_iff in Ho as [Ho1 Ho2].
  cbn [run foldl]. apply IH; [by apply world_ok_handle | | done].
  by apply dense_step.
Qed.

(** Under run to completion, every button of the pager stands for a
    cached page. *)
Lemma pager_buttons_cached_under_run gw evs :
  all_offered gw evs world0 = true ->
  let s := sess (run gw evs world0) in
  paginationReady s = true ->
  forall p, p ∈ pageNumbers s -> is_Some (pageCache s !! p).
Proof.
  intros Ho s Hr p Hp.
  assert (Hok : world_ok world0).
  { split; [split; [by right; left | done] | constructor]. }
  assert (Hd0 : dense (sess world0)) by (by intros [m Hm]).
  pose proof (offered_run_dense gw evs world0 Hok Hd0 Ho) as Hd.
  fold s in Hd. unfold paginationReady in Hr.
  apply andb_true_iff in Hr as [Hm _]. apply bool_decide_eq_true_1 in Hm.
  destruct (Hd Hm) as [Hws Hup]. apply elem_of_pageNumbers in Hp.
  apply Hup. lia.
Qed.

(** ** A stale refill *)

(** An empty bulk answer moves the window to the single page [start] and
    writes no page: if page [start] is not cached when the answer arrives,
    the pager is left with one button, for a page that has no entry. *)
Lemma empty_bulk_answer_gap gw start d w :
  default [] (d_results d) = [] ->
  0 < pageSize (sess w) ->
  pageCache (sess w) !! start = None ->
  let s' := sess (snd (arrive gw (Bulk start (Json d)) w)) in
  windowStart s' = start /\ windowEnd s' = start /\
  pageNumbers s' = [start] /\
  pageCache s' !! start = None /\
  noMoreAfterPage s' = Some start.
Proof.
  intros Hd Hps Hmiss. cbv zeta. rewrite arrive_bulk_eq.
  cbn [snd sess received]. rewrite Hd.
  destruct (apply_block_window start [] (sess w)) as [Hs He].
  assert (Hz : ceil_div (len (@nil ResultItem)) (pageSize (sess w)) = 0).
  { by apply ceil_div_zero_iff. }
  rewrite Hz in He. change (maxPagesToShow_of 0) with 1 in He.
  pose proof (apply_block_noMore start [] (sess w)) as Hno.
  cbv zeta in Hno.
  pose proof (apply_block_cache_nil start (sess w)) as Hc.
  set (s1 := apply_block start [] (sess w)) in *.
  replace (start + 1 - 1) with start in He by lia.
  rewrite Hs, He in Hno.
  replace (start - start + 1 <? 5) with true in Hno by (symmetry; lia).
  cbn [orb] in Hno.
  split; [exact Hs|]. split; [exact He|].
  split.
  { unfold pageNumbers.
    change (windowStart (set_prefetching false s1)) with (windowStart s1).
    change (windowEnd (set_prefetching false s1)) with (windowEnd s1).
    rewrite Hs, He. replace (start - start + 1) with 1 by lia.
    simpl. f_equal. lia. }
  split.
  { change (pageCache s1 !! start = None). by rewrite Hc. }
  exact Hno.
Qed.

(** The same with an answer that is not empty.  The refill around page 5
    is in flight, with page size 10, when the user selects page size 5.
    The search restarts and fills the window 1..5 with pages of five
    items; then the 50 items of the old refill arrive and are cut with the
    new size from page 3 on: the window becomes 3..7 while the current
    page is 1, and page 3 holds items 20..24 of the ranking, not
    10..14. *)
Lemma stale_refill_lands_on_new_search :
  let ticks := [User Submit; Deliver 0; User (Navigate 5);
                User (SelectPageSize Size5); Deliver 1; Deliver 0]%nat in
  let b := play gw_resize ticks browser0 in
  feasible gw_resize ticks browser0 = true /\
  flying b = [] /\
  pageSize (sess (page b)) = 5 /\
  currentPage (sess (page b)) = 1 /\
  pageNumbers (sess (page b)) = [3; 4; 5; 6; 7] /\
  pageCache (sess (page b)) !! 2 = Some (items_from 5 5) /\
  pageCache (sess (page b)) !! 3 = Some (items_from 20 5) /\
  pageCache (sess (page b)) !! 7 = Some (items_from 40 5).
Proof.
  cbv zeta.
  refine (conj _ (conj _ (conj _ (conj _ (conj _ (conj _ (conj _ _)))))));
    vm_compute; reflexivity.
Qed.

(** C9, the failing input.  Every event is one the template offers.  The
    user searches, the window 1..5 is filled, and the user clicks page 5:
    the refill around page 5 asks for the pages from 3 on, behind the
    cursor of page 2.  While that request is in flight the user searches
    again; the new search and its own refill are answered with one page,
    and the window is page 1 alone.  Then the answer of the old refill
    arrives, with no items: the continuation of [prefetchWindow] runs with
    its [start] of 3 on the new session, sets the window to page 3 alone
    and caches nothing.  The pager now shows one button, "3", for a page
    that has no entry in the page cache, and no error is shown. *)
Theorem stale_empty_refill_opens_gap :
  let clicks := [User Submit; Deliver 0; User (Navigate 5)]%nat in
  let search := [User Submit; Deliver 1]%nat in
  let b3 := play gw_shrinks clicks browser0 in
  let b5 := play gw_shrinks search b3 in
  let b := play gw_shrinks [Deliver 0]%nat b5 in
  feasible gw_shrinks (clicks ++ search ++ [Deliver 0]%nat) browser0 = true /\
  b = play gw_shrinks (clicks ++ search ++ [Deliver 0]%nat) browser0 /\
  currentPage (sess (page b3)) = 5 /\
  flying b3 = [Bulk 3 (answer [])] /\
  flying b5 = [Bulk 3 (answer [])] /\
  pageNumbers (sess (page b5)) = [1] /\
  pageCache (sess (page b5)) !! 1 = Some (items_from 0 10) /\
  page b = snd (arrive gw_shrinks (Bulk 3 (answer [])) (page b5)) /\
  flying b = [] /\
  paginationReady (sess (page b)) = true /\
  pageNumbers (sess (page b)) = [3] /\
  pageCache (sess (page b)) !! 3 = None /\
  error (sess (page b)) = "".
Proof.
  cbv zeta.
  refine (conj _ (conj _ (conj _ (conj _ (conj _ (conj _ (conj _
           (conj _ (conj _ (conj _ (conj _ (conj _ _))))))))))));
    vm_compute; reflexivity.
Qed.
